(** * Verification of the Excel processing function (HttpTrigger/__init__.py)

    A shallow embedding of [process_excel_file], [create_summary_excel] and
    [main], with the properties of the written specification stated and
    proved over it.

    Python floats and numpy float64 values are Rocq's primitive binary64
    floats; the pandas reductions the program calls follow the algorithms
    of pandas and numpy (pairwise summation, two-pass variance).  The
    pandas, openpyxl, json and base64 entry points whose behaviour the
    program does not fix (decoding a workbook, serialising one, what a
    cell refuses to store, which result json.dumps refuses) are the fields
    of the class [Libraries]. *)

From Stdlib Require Import PrimFloat FloatOps SpecFloat ZArith QArith List.
From stdpp Require Import gmap strings list fin_maps.

Import ListNotations.
Open Scope string_scope.
Open Scope nat_scope.

Set Warnings "-clear-no-such-hyp".

(** ** Exceptions *)

(** A Python computation either returns a value or raises an exception, of
    which the program only ever uses [str(e)]. *)
Inductive result (A : Type) : Type :=
| Ok (a : A)
| Raise (msg : string).
Arguments Ok {A} a.
Arguments Raise {A} msg.

#[export] Instance result_ret : MRet result := fun A a => Ok a.
#[export] Instance result_bind : MBind result := fun A B k c =>
  match c with
  | Ok a => k a
  | Raise msg => Raise msg
  end.

(** ** Python dictionaries

    A [dict] keeps its keys in insertion order; assigning to a key that is
    present replaces the value in place. *)
Module PyDict.
Section PyDict.
Context {V : Type}.

Fixpoint set (d : list (string * V)) (k : string) (v : V) : list (string * V) :=
  match d with
  | [] => [(k, v)]
  | (k', v') :: d' =>
      if String.eqb k' k then (k', v) :: d' else (k', v') :: set d' k v
  end.

Fixpoint get (d : list (string * V)) (k : string) : option V :=
  match d with
  | [] => None
  | (k', v') :: d' => if String.eqb k' k then Some v' else get d' k
  end.

Definition keys (d : list (string * V)) : list string := map fst d.

(** Truth value of a dict: non-empty. *)
Definition truthy (d : list (string * V)) : bool :=
  match d with [] => false | _ => true end.
End PyDict.
End PyDict.

(** ** Numbers and statistics (pandas reductions on a float64 Series) *)

Module Stats.

(** The loop [res += a[i]] over the values, in order. *)
Definition accumulate (res : float) (a : list float) : float :=
  fold_left PrimFloat.add a res.

(** The eight accumulators of numpy's unrolled loop after [blocks] more
    groups of eight values, with the values not consumed yet. *)
Fixpoint unrolled (blocks : nat) (r a : list float)
    : list float * list float :=
  match blocks with
  | O => (r, a)
  | S blocks' =>
      unrolled blocks' (zip_with PrimFloat.add r (take 8 a)) (drop 8 a)
  end.

(** numpy's pairwise summation of a float64 array: fewer than 8 values
    are added in order; up to 128 values go through eight accumulators,
    combined as a tree, and the remaining [n mod 8] values are added in
    order; a longer array is split near its middle, at a multiple of 8.
    The recursion depth is bounded by [fuel], for which the length of the
    array is always enough. *)
Fixpoint pairwise_sum (fuel : nat) (a : list float) : float :=
  let n := length a in
  if n <? 8 then accumulate 0%float a
  else if n <=? 128 then
    match unrolled (n / 8 - 1) (take 8 a) (drop 8 a) with
    | ([r0; r1; r2; r3; r4; r5; r6; r7], rest) =>
        accumulate
          (((r0 + r1) + (r2 + r3)) + ((r4 + r5) + (r6 + r7)))%float rest
    | _ => nan
    end
  else
    match fuel with
    | O => nan
    | S fuel' =>
        let n2 := n / 2 - (n / 2) mod 8 in
        (pairwise_sum fuel' (take n2 a) + pairwise_sum fuel' (drop n2 a))%float
    end.

(** [Series.sum] on float64 data without NaN: numpy's [add.reduce], the
    identity 0.0 plus the pairwise sum of the array. *)
Definition sum (xs : list float) : float :=
  (0 + pairwise_sum (length xs) xs)%float.

(** A count as a float64 (exact below 2^53). *)
Fixpoint of_nat (n : nat) : float :=
  match n with
  | O => 0%float
  | S n' => (of_nat n' + 1)%float
  end.

(** [Series.mean]. *)
Definition mean (xs : list float) : float :=
  (sum xs / of_nat (length xs))%float.

(** [Series.var(ddof)]: squared deviations from the mean, divided by
    [n - ddof]. *)
Definition var (ddof : nat) (xs : list float) : float :=
  let avg := mean xs in
  let sqr := map (fun x => ((avg - x) * (avg - x))%float) xs in
  (sum sqr / of_nat (length xs - ddof))%float.

(** [Series.std()]: pandas' default is [ddof=1]. *)
Definition std (xs : list float) : float := PrimFloat.sqrt (var 1 xs).

Fixpoint insert_sorted (x : float) (xs : list float) : list float :=
  match xs with
  | [] => [x]
  | y :: ys => if (x <=? y)%float then x :: y :: ys else y :: insert_sorted x ys
  end.

Definition sort (xs : list float) : list float :=
  fold_right insert_sorted [] xs.

(** [Series.median]: the middle value of the sorted data, or the mean of
    the two middle values. *)
Definition median (xs : list float) : float :=
  let s := sort xs in
  let n := length s in
  if Nat.even n
  then ((nth (n / 2 - 1) s nan + nth (n / 2) s nan) / 2)%float
  else nth (n / 2) s nan.

(** [Series.min] and [Series.max] of data without NaN. *)
Definition min (xs : list float) : float :=
  match xs with
  | [] => nan
  | x :: xs' => fold_left (fun m y => if (y <? m)%float then y else m) xs' x
  end.

Definition max (xs : list float) : float :=
  match xs with
  | [] => nan
  | x :: xs' => fold_left (fun m y => if (m <? y)%float then y else m) xs' x
  end.

End Stats.

(** ** Tables *)

(** A Python value held by a table cell or a worksheet cell.  A missing
    value is [Number nan] (pandas' NaN) or [NaT]; [NoneValue] is what an
    empty worksheet cell reads as. *)
Inductive scalar : Type :=
| Integer (z : Z)
| Number (f : float)
| Text (s : string)
| Boolean (b : bool)
| Timestamp (t : Z)
| Timedelta (t : Z)
| NaT
| NoneValue.

(** A column of a DataFrame carries one dtype.  [Numeric] stands for
    int64 and float64; an integer column is carried by its float64 values,
    which is what every reduction the program calls converts it to.
    [Timedelta64] is a column of durations (cells formatted as elapsed
    time), in nanoseconds, [None] for a missing one. *)
Inductive Series : Type :=
| Numeric (xs : list float)
| BoolSeries (xs : list bool)
| Datetime64 (xs : list (option Z))
| Timedelta64 (xs : list (option Z))
| Object (xs : list scalar).

Definition series_values (s : Series) : list scalar :=
  match s with
  | Numeric xs => map Number xs
  | BoolSeries xs => map Boolean xs
  | Datetime64 xs =>
      map (fun o => match o with Some t => Timestamp t | None => NaT end) xs
  | Timedelta64 xs =>
      map (fun o => match o with Some t => Timedelta t | None => NaT end) xs
  | Object xs => xs
  end.

(** A DataFrame: its labelled columns, in order.  [pd.read_excel] renames
    repeated header labels, so labels are taken to address one column. *)
Definition DataFrame := list (string * Series).

(** [df.columns] *)
Definition df_columns (df : DataFrame) : list string := map fst df.

(** [len(df)]: the number of rows. *)
Definition df_len (df : DataFrame) : nat :=
  match df with
  | [] => 0
  | (_, s) :: _ => length (series_values s)
  end.

(** [df.values]: the rows, each aligned to [df.columns], every value as
    its column holds it. *)
Definition df_values (df : DataFrame) : list (list scalar) :=
  map (fun i => map (fun c => nth i (series_values (snd c)) (Number nan)) df)
      (seq 0 (df_len df)).

(** The dtypes under numpy's [number]: int64 and float64, and also
    timedelta64, which numpy derives from its signed integers.  Booleans,
    dates and objects are not. *)
Definition is_number (s : Series) : bool :=
  match s with
  | Numeric _ | Timedelta64 _ => true
  | _ => false
  end.

(** [df.select_dtypes(include=['number'])]: the columns of a dtype under
    [number], in column order. *)
Definition select_number (df : DataFrame) : DataFrame :=
  filter (B := list (string * Series))
         (fun c => is_number (snd c) = true) df.

(** The int64 and float64 columns with their data, in column order. *)
Definition float_columns (df : DataFrame) : list (string * list float) :=
  omap (fun c => match snd c with
                 | Numeric xs => Some (fst c, xs)
                 | _ => None
                 end) df.

(** [Series.dropna()] on a numeric column, and on a column of durations. *)
Definition dropna (xs : list float) : list float :=
  filter (fun x => is_nan x = false) xs.

Definition dropna_timedelta (ts : list (option Z)) : list Z := omap id ts.

(** ** Statistics of one sheet (lines 76-91) *)

(** A JSON number as Python holds it: [0] and [0.0] are different
    objects. *)
Inductive pynum : Type :=
| PyInt (z : Z)
| PyFloat (f : float).

Record ColumnStats : Type := {
  cs_mean : float;
  cs_median : float;
  cs_std : pynum;
  cs_min : float;
  cs_max : float;
  cs_count : nat
}.

(** The dict built at lines 84-91 for a column with [len(col_data) > 0]. *)
Definition column_stats (col_data : list float) : ColumnStats :=
  {| cs_mean := Stats.mean col_data;
     cs_median := Stats.median col_data;
     cs_std := if 1 <? length col_data
               then PyFloat (Stats.std col_data) else PyInt 0;
     cs_min := Stats.min col_data;
     cs_max := Stats.max col_data;
     cs_count := length col_data |}.

(** The number a finite binary64 value stands for, as a rational. *)
Definition exact (x : float) : Q :=
  match Prim2SF x with
  | S754_finite s m e =>
      Qmult (inject_Z (if s then Z.neg m else Z.pos m))
            (Qpower (inject_Z 2) e)
  | _ => inject_Z 0
  end.



(** One turn of the loop at line 81 on an int64 or float64 column and its
    label: [df[col]] is the column selected under that label. *)
Definition stats_step (sheet_stats : list (string * ColumnStats))
    (col : string * list float) : list (string * ColumnStats) :=
  let col_data := dropna (snd col) in
  if 0 <? length col_data
  then PyDict.set sheet_stats (fst col) (column_stats col_data)
  else sheet_stats.

(** Lines 80-91: [sheet_stats] after the loop over [numeric_cols], when
    the loop ends without an exception.  Only int64 and float64 columns
    leave an entry (see [stats_turn] for the columns of durations). *)
Definition sheet_statistics (df : DataFrame) : list (string * ColumnStats) :=
  fold_left stats_step (float_columns df) [].

(** ** The result record and the worksheet model *)

Record Results : Type := {
  filename : string;
  sheets_processed : list string;
  summary : list (string * list (string * ColumnStats));
  charts_created : bool;
  output_file : option string;
  output_filename : option string
}.

Record Font : Type := {
  font_color : option string;
  font_bold : bool;
  font_size : option nat
}.

Record Cell : Type := {
  value : scalar;
  fill : option string;
  font : option Font
}.

(** [Reference(ws, min_col, min_row, max_row)]: one column, a row range. *)
Record Reference : Type := {
  min_col : nat;
  min_row : nat;
  max_row : nat
}.

Record BarChart : Type := {
  chart_title : string;
  y_axis_title : string;
  x_axis_title : string;
  chart_data : list Reference
}.

Record Worksheet : Type := {
  title : string;
  cells : gmap (nat * nat) Cell;
  charts : list (BarChart * string);
  column_widths : gmap nat nat
}.

Definition Workbook := list Worksheet.

(** The library entry points the program calls and does not define. *)
Class Libraries : Type := {
  (** [base64.b64decode], [base64.b64encode(...).decode('utf-8')] *)
  b64decode : string → result (list Byte.byte);
  b64encode : list Byte.byte → string;
  (** [pd.ExcelFile(...).sheet_names] *)
  pd_ExcelFile : list Byte.byte → result (list string);
  (** [pd.read_excel(excel_file, sheet_name=...)] *)
  pd_read_excel : list Byte.byte → string → result DataFrame;
  (** the message of the exception openpyxl raises when a cell cannot
      hold a value, [None] when it stores it *)
  cell_error : scalar → option string;
  (** [chart.add_data(data)] *)
  chart_add_data : BarChart → Reference → result BarChart;
  (** [round(x, 2)] on a float *)
  round2 : float → float;
  (** [len(str(v))] *)
  str_len : scalar → nat;
  (** [wb.save] into a buffer *)
  wb_save : Workbook → result (list Byte.byte);
  (** [str(e)] of the TypeError that [float()] raises on a pandas
      Timedelta *)
  timedelta_float_error : string;
  (** [json.dumps(result)]: the message of the TypeError it raises when a
      key of the result is not a str, int, float, bool or None (a column
      label read from a header cell that holds a date), [None] when the
      result is serialised *)
  json_error : Results → option string
}.

(** A [for] loop whose body may raise. *)
Fixpoint foldM {A B : Type} (f : A → B → result A) (a : A) (l : list B)
    : result A :=
  match l with
  | [] => Ok a
  | x :: l' => a' ← f a x; foldM f a' l'
  end.

(** [enumerate(l, start)] *)
Fixpoint enumerate {A : Type} (start : nat) (l : list A) : list (nat * A) :=
  match l with
  | [] => []
  | x :: l' => (start, x) :: enumerate (S start) l'
  end.

(** The loop state of [process_excel_file]: [results] and [all_data]. *)
Record State : Type := {
  results : Results;
  all_data : list (string * DataFrame)
}.

(** Lines 60-67. *)
Definition initial_state (filename : string) : State :=
  {| results := {| filename := filename; sheets_processed := [];
                   summary := []; charts_created := false;
                   output_file := None; output_filename := None |};
     all_data := [] |}.

(** [results["sheets_processed"].append(entry)] *)
Definition append_processed (st : State) (entry : string) : State :=
  let r := results st in
  {| results := {| filename := filename r;
                   sheets_processed := sheets_processed r ++ [entry];
                   summary := summary r;
                   charts_created := charts_created r;
                   output_file := output_file r;
                   output_filename := output_filename r |};
     all_data := all_data st |}.

(** Lines 93-94: [results["summary"][sheet_name] = sheet_stats] and
    [all_data[sheet_name] = df]. *)
Definition record_sheet (st : State) (sheet_name : string)
    (sheet_stats : list (string * ColumnStats)) (df : DataFrame) : State :=
  let r := results st in
  {| results := {| filename := filename r;
                   sheets_processed := sheets_processed r;
                   summary := PyDict.set (summary r) sheet_name sheet_stats;
                   charts_created := charts_created r;
                   output_file := output_file r;
                   output_filename := output_filename r |};
     all_data := PyDict.set (all_data st) sheet_name df |}.

(** The entry appended by the [except] branch at line 98. *)
Definition error_entry (sheet_name msg : string) : string :=
  sheet_name ++ " (ERROR: " ++ msg ++ ")".

(** Substring test, and the test that tells the entries of the [except]
    branch from sheet names: Excel forbids ':' in a sheet name. *)
Fixpoint is_infix (p s : string) : bool :=
  String.prefix p s
  || match s with
     | EmptyString => false
     | String _ s' => is_infix p s'
     end.

Definition is_annotated (entry : string) : bool := is_infix " (ERROR: " entry.

Definition header_fill : string := "366092".
Definition header_font : Font :=
  {| font_color := Some "FFFFFF"; font_bold := true; font_size := None |}.
Definition headers : list string :=
  ["Column"; "Mean"; "Median"; "Std Dev"; "Min"; "Max"; "Count"].

(** [wb.create_sheet(title)]: a sheet with no cell. *)
Definition create_sheet (title : string) : Worksheet :=
  {| title := title; cells := ∅; charts := []; column_widths := ∅ |}.

Definition set_cells (ws : Worksheet) (cs : gmap (nat * nat) Cell) : Worksheet :=
  {| title := title ws; cells := cs; charts := charts ws;
     column_widths := column_widths ws |}.

(** The cell at a coordinate after its value is bound: a cell that exists
    keeps its style. *)
Definition with_value (v : scalar) (old : option Cell) : Cell :=
  match old with
  | Some c => {| value := v; fill := fill c; font := font c |}
  | None => {| value := v; fill := None; font := None |}
  end.

(** [cell.fill = f; cell.font = fnt] on the cell at a coordinate. *)
Definition set_style (ws : Worksheet) (row column : nat)
    (f : option string) (fnt : Font) : Worksheet :=
  set_cells ws
    (alter (fun c => {| value := value c;
                        fill := match f with Some _ => f | None => fill c end;
                        font := Some fnt |})
           (row, column) (cells ws)).

(** [ws.add_chart(chart, anchor)] *)
Definition add_chart (ws : Worksheet) (chart : BarChart) (anchor : string)
    : Worksheet :=
  {| title := title ws; cells := cells ws;
     charts := charts ws ++ [(chart, anchor)];
     column_widths := column_widths ws |}.

(** The value of the cell at a coordinate, when the sheet has one. *)
Definition value_at (ws : Worksheet) (k : nat * nat) : option scalar :=
  value <$> cells ws !! k.

(** The chart object before any data is added (lines 173-176). *)
Definition new_chart (sheet_name : string) : BarChart :=
  {| chart_title := "Data Overview - " ++ sheet_name;
     y_axis_title := "Values";
     x_axis_title := "Records";
     chart_data := [] |}.

(** [df.columns.get_loc(label)]: the position of the label, [KeyError]
    when it is absent. *)
Fixpoint get_loc (labels : list string) (label : string) : result nat :=
  match labels with
  | [] => Raise label
  | l :: labels' =>
      if String.eqb l label then Ok 0
      else i ← get_loc labels' label; Ok (S i)
  end.

(** The rows the blocks of the first [k] analysed sheets take on the
    summary sheet: 5 per block and one per column with statistics. *)
Fixpoint block_offset (summary_data : list (string * list (string * ColumnStats)))
    (k : nat) : nat :=
  match k, summary_data with
  | S k', entry :: rest => 5 + length (snd entry) + block_offset rest k'
  | _, _ => 0
  end.

Section Pipeline.
Context {L : Libraries}.

(** *** process_excel_file, lines 70-98 *)

(** One turn of the loop at line 81.  On a column of durations that holds
    a value, [col_data.mean()] is a Timedelta and [float()] raises at line
    85; a column without a non-missing value is skipped at line 83. *)
Definition stats_turn (sheet_stats : list (string * ColumnStats))
    (col : string * Series) : result (list (string * ColumnStats)) :=
  match snd col with
  | Numeric xs => Ok (stats_step sheet_stats (fst col, xs))
  | Timedelta64 ts =>
      if 0 <? length (dropna_timedelta ts)
      then Raise timedelta_float_error
      else Ok sheet_stats
  | _ => Ok sheet_stats
  end.

(** Lines 80-91: the loop over the selected columns. *)
Definition statistics_loop (df : DataFrame)
    : result (list (string * ColumnStats)) :=
  foldM stats_turn [] (select_number df).

(** The body of the [try] at lines 72-95.  The three updates of lines
    93-95 come after everything that can raise. *)
Definition try_sheet (excel_file : list Byte.byte) (st : State)
    (sheet_name : string) : result State :=
  df ← pd_read_excel excel_file sheet_name;
  let numeric_cols := map fst (select_number df) in
  match numeric_cols with
  | _ :: _ =>
      sheet_stats ← statistics_loop df;
      Ok (append_processed (record_sheet st sheet_name sheet_stats df)
                           sheet_name)
  | [] => Ok st
  end.

(** One turn of the loop at line 70, with its [except] branch. *)
Definition process_sheet (excel_file : list Byte.byte) (st : State)
    (sheet_name : string) : State :=
  match try_sheet excel_file st sheet_name with
  | Ok st' => st'
  | Raise msg => append_processed st (error_entry sheet_name msg)
  end.

(** The table the loop retains for a sheet: the one read, when the [try]
    body reaches line 94. *)
Definition retained (excel_file : list Byte.byte) (sheet_name : string) : option DataFrame :=
  match pd_read_excel excel_file sheet_name with
  | Ok df =>
      match select_number df, statistics_loop df with
      | _ :: _, Ok _ => Some df
      | _, _ => None
      end
  | Raise _ => None
  end.

(** The entry one turn of the loop adds to the outcome list. *)
Definition outcome (excel_file : list Byte.byte) (sheet_name : string) : option string :=
  match pd_read_excel excel_file sheet_name with
  | Ok df =>
      match select_number df, statistics_loop df with
      | [], _ => None
      | _ :: _, Ok _ => Some sheet_name
      | _ :: _, Raise msg => Some (error_entry sheet_name msg)
      end
  | Raise msg => Some (error_entry sheet_name msg)
  end.

(** Lines 60-98: the state after the loop over [sheet_names]. *)
Definition analyze_sheets (excel_file : list Byte.byte)
    (filename : string) (sheet_names : list string) : State :=
  fold_left (process_sheet excel_file) sheet_names (initial_state filename).

(** *** create_summary_excel *)

(** [ws.cell(row=..., column=..., value=...)] *)
Definition ws_cell (ws : Worksheet) (row column : nat) (v : scalar)
    : result Worksheet :=
  match cell_error v with
  | Some msg => Raise msg
  | None =>
      Ok (set_cells ws (<[(row, column) :=
                            with_value v (cells ws !! (row, column))]>
                          (cells ws)))
  end.

(** A styled header cell (lines 136-138 and 160-162). *)
Definition header_cell (row : nat) (ws : Worksheet) (h : nat * string)
    : result Worksheet :=
  ws' ← ws_cell ws row (fst h) (Text (snd h));
  Ok (set_style ws' row (fst h) (Some header_fill) header_font).

(** [round(x, 2)] on a statistic: an [int] stays the same [int]. *)
Definition round_stat (x : pynum) : scalar :=
  match x with
  | PyInt z => Integer z
  | PyFloat f => Number (round2 f)
  end.

(** Lines 142-150: one data row of the summary sheet. *)
Definition summary_row (acc : Worksheet * nat) (c : string * ColumnStats)
    : result (Worksheet * nat) :=
  let row := snd acc in
  let col_stats := snd c in
  ws ← ws_cell (fst acc) row 1 (Text (fst c));
  ws ← ws_cell ws row 2 (Number (round2 (cs_mean col_stats)));
  ws ← ws_cell ws row 3 (Number (round2 (cs_median col_stats)));
  ws ← ws_cell ws row 4 (round_stat (cs_std col_stats));
  ws ← ws_cell ws row 5 (Number (round2 (cs_min col_stats)));
  ws ← ws_cell ws row 6 (Number (round2 (cs_max col_stats)));
  ws ← ws_cell ws row 7 (Integer (Z.of_nat (cs_count col_stats)));
  Ok (ws, row + 1).

(** Lines 127-152: the block of one analysed sheet. *)
Definition summary_block (acc : Worksheet * nat)
    (entry : string * list (string * ColumnStats))
    : result (Worksheet * nat) :=
  let row := snd acc in
  ws ← ws_cell (fst acc) row 1 (Text ("Sheet: " ++ fst entry));
  let ws := set_style ws row 1 None
              {| font_color := None; font_bold := true;
                 font_size := Some 14 |} in
  let row := row + 2 in
  ws ← foldM (header_cell row) ws (enumerate 1 headers);
  let row := row + 1 in
  acc' ← foldM summary_row (ws, row) (snd entry);
  Ok (fst acc', snd acc' + 2).

(** The seven values lines 143-149 write for one column, from column 1. *)
Definition summary_values (c : string * ColumnStats) : list scalar :=
  let col_stats := snd c in
  [Text (fst c);
   Number (round2 (cs_mean col_stats));
   Number (round2 (cs_median col_stats));
   round_stat (cs_std col_stats);
   Number (round2 (cs_min col_stats));
   Number (round2 (cs_max col_stats));
   Integer (Z.of_nat (cs_count col_stats))].

(** The value lines 127-152 give the cell at a coordinate, for the block
    of one analysed sheet that starts at [row]: the title, a blank row,
    the header row, one row per column; [None] where the block writes
    nothing. *)
Definition block_cell (row : nat)
    (entry : string * list (string * ColumnStats)) (k : nat * nat)
    : option scalar :=
  if decide (fst k = row ∧ snd k = 1)
  then Some (Text ("Sheet: " ++ fst entry))
  else if decide (fst k = row + 2 ∧ 1 ≤ snd k)
  then Text <$> headers !! (snd k - 1)
  else if decide (row + 3 ≤ fst k ∧ 1 ≤ snd k)
  then c ← snd entry !! (fst k - (row + 3)); summary_values c !! (snd k - 1)
  else None.

(** Lines 165-167: one data row of an "Original_" sheet. *)
Definition write_row (ws : Worksheet) (r : nat * list scalar)
    : result Worksheet :=
  foldM (fun ws c => ws_cell ws (fst r) (fst c) (snd c)) ws
        (enumerate 1 (snd r)).

(** Lines 173-183: the body of the [try] that builds the chart. *)
Definition build_chart (sheet_name : string) (df : DataFrame)
    (numeric_cols : list string) : result BarChart :=
  let chart := new_chart sheet_name in
  first ← match numeric_cols with
          | c :: _ => Ok c
          | [] => Raise "index 0 is out of bounds"
          end;
  loc ← get_loc (df_columns df) first;
  let data := {| min_col := loc + 1; min_row := 2;
                 max_row := Nat.min 20 (df_len df + 1) |} in
  chart_add_data chart data.

(** The guard of line 171. *)
Definition chart_wanted (df : DataFrame) : bool :=
  let numeric_cols := take 5 (map fst (select_number df)) in
  (0 <? length numeric_cols) && (1 <? df_len df).

(** The warning logged at line 185. *)
Definition chart_warning (sheet_name e : string) : string :=
  "Could not create chart for " ++ sheet_name ++ ": " ++ e.

(** Lines 170-185: the sheet and the warnings logged. *)
Definition chart_step (ws : Worksheet) (sheet_name : string)
    (df : DataFrame) : Worksheet * list string :=
  let numeric_cols := take 5 (map fst (select_number df)) in
  if chart_wanted df then
    match build_chart sheet_name df numeric_cols with
    | Ok chart => (add_chart ws chart "H2", [])
    | Raise e => (ws, [chart_warning sheet_name e])
    end
  else (ws, []).

(** Lines 156-167: the "Original_" sheet of one retained table, with its
    header row and its data rows. *)
Definition original_cells (sheet_name : string) (df : DataFrame)
    : result Worksheet :=
  let ws := create_sheet ("Original_" ++ sheet_name) in
  ws ← foldM (header_cell 1) ws (enumerate 1 (df_columns df));
  foldM write_row ws (enumerate 2 (df_values df)).

(** Lines 156-185: the sheet with its chart, and the warnings logged. *)
Definition original_sheet (sheet_name : string) (df : DataFrame)
    : result (Worksheet * list string) :=
  ws ← original_cells sheet_name df;
  Ok (chart_step ws sheet_name df).

(** [cell.value] at a coordinate of the bounding box; a cell that was
    never written reads as [None]. *)
Definition cell_value (ws : Worksheet) (row column : nat) : scalar :=
  match cells ws !! (row, column) with
  | Some c => value c
  | None => NoneValue
  end.

Definition max_row_of (ws : Worksheet) : nat :=
  map_fold (fun k _ m => Nat.max (fst k) m) 0 (cells ws).
Definition max_column_of (ws : Worksheet) : nat :=
  map_fold (fun k _ m => Nat.max (snd k) m) 0 (cells ws).

(** Lines 189-199 for one sheet: widths only, no cell value changes. *)
Definition adjust_widths (sheet : Worksheet) : Worksheet :=
  let rows := seq 1 (max_row_of sheet) in
  fold_left
    (fun sh column =>
       let max_length :=
         fold_left (fun m r =>
                      let l := str_len (cell_value sheet r column) in
                      if m <? l then l else m) rows 0 in
       {| title := title sh; cells := cells sh; charts := charts sh;
          column_widths :=
            <[column := Nat.min (max_length + 2) 50]> (column_widths sh) |})
    (seq 1 (max_column_of sheet)) sheet.

(** Lines 114-199: the workbook before it is saved, and the warnings
    logged on the way. *)
Definition build_workbook
    (summary_data : list (string * list (string * ColumnStats)))
    (original_data : list (string * DataFrame))
    : result (Workbook * list string) :=
  acc ← foldM summary_block (create_sheet "Summary_Statistics", 1)
              summary_data;
  built ← foldM (fun (b : Workbook * list string) e =>
                   o ← original_sheet (fst e) (snd e);
                   Ok ((fst b ++ [fst o])%list, (snd b ++ snd o)%list))
                ([fst acc], []) original_data;
  Ok (map adjust_widths (fst built), snd built).

Definition create_summary_excel
    (summary_data : list (string * list (string * ColumnStats)))
    (original_data : list (string * DataFrame))
    : result (list Byte.byte) :=
  built ← build_workbook summary_data original_data;
  wb_save (fst built).

(** *** process_excel_file *)

Definition with_output (r : Results) (file name : string) : Results :=
  {| filename := filename r; sheets_processed := sheets_processed r;
     summary := summary r; charts_created := charts_created r;
     output_file := Some file; output_filename := Some name |}.

Definition process_excel_file (file_data : list Byte.byte)
    (filename : string) : result Results :=
  sheet_names ← pd_ExcelFile file_data;
  let st := analyze_sheets file_data filename sheet_names in
  let results := results st in
  if PyDict.truthy (summary results) then
    output_file ← create_summary_excel (summary results) (all_data st);
    Ok (with_output results (b64encode output_file)
                    ("processed_" ++ filename))
  else Ok results.

(** *** main *)

(** What [req.get_json()] gives: the two keys the program reads. *)
Record RequestBody : Type := {
  body_filename : option string;
  body_content : option string
}.

(** The argument of [json.dumps] in a response. *)
Inductive Json : Type :=
| ErrorJson (error : string)
| ResultJson (result : Results).

Record HttpResponse : Type := {
  body : Json;
  status_code : nat;
  mimetype : string
}.

Definition json_response (b : Json) (code : nat) : HttpResponse :=
  {| body := b; status_code := code; mimetype := "application/json" |}.

(** Lines 14-47.  Everything from [req.get_json()] to [json.dumps(result)]
    at line 37 is inside the [try]. *)
Definition main (get_json : result RequestBody) : HttpResponse :=
  let attempt :=
    req_body ← get_json;
    let filename := default "input.xlsx" (body_filename req_body) in
    match body_content req_body with
    | None | Some "" =>
        Ok (json_response (ErrorJson "No file content provided") 400)
    | Some file_content =>
        excel_data ← b64decode file_content;
        result ← process_excel_file excel_data filename;
        match json_error result with
        | Some e => Raise e
        | None => Ok (json_response (ResultJson result) 200)
        end
    end in
  match attempt with
  | Ok response => response
  | Raise e => json_response (ErrorJson e) 500
  end.

End Pipeline.

(** ** Test doubles for the libraries

    A workbook given by its sheets (each read successfully or raising), a
    cell policy and a save function stand in for pandas and openpyxl when
    the program is run on a concrete input. *)
Module Fixture.

Definition read (sheets : list (string * result DataFrame))
    (name : string) : result DataFrame :=
  match PyDict.get sheets name with
  | Some r => r
  | None => Raise ("Worksheet named '" ++ name ++ "' not found")
  end.

Definition add_data (chart : BarChart) (data : Reference) : result BarChart :=
  Ok {| chart_title := chart_title chart;
        y_axis_title := y_axis_title chart;
        x_axis_title := x_axis_title chart;
        chart_data := chart_data chart ++ [data] |}.

Definition float_refuses : string :=
  "float() argument must be a string or a real number, not 'Timedelta'".

Definition libraries (sheets : list (string * result DataFrame))
    (add : BarChart → Reference → result BarChart)
    (save : Workbook → result (list Byte.byte)) : Libraries :=
  {| b64decode := fun _ => Ok [];
     b64encode := fun _ => "UEsDBA==";
     pd_ExcelFile := fun _ => Ok (PyDict.keys sheets);
     pd_read_excel := fun _ => read sheets;
     cell_error := fun _ => None;
     chart_add_data := add;
     round2 := fun x => x;
     str_len := fun _ => 4;
     wb_save := save;
     timedelta_float_error := float_refuses;
     json_error := fun _ => None |}.

Definition saves (wb : Workbook) : result (list Byte.byte) := Ok [].

(** One sheet "Sales" with the numeric column Revenue = 10, 20, 30. *)
Definition sales : list (string * result DataFrame) :=
  [("Sales", Ok [("Revenue", Numeric [10; 20; 30]%float)])].

(** A sheet of text only, a sheet that cannot be read, a sheet whose
    only numeric column is entirely missing, and a sheet with data. *)
Definition mixed : list (string * result DataFrame) :=
  [("Notes", Ok [("Comment", Object [Text "ok"; Text "late"])]);
   ("Bad", Raise "boom");
   ("Blank", Ok [("Amount", Numeric [nan; nan]%float)]);
   ("Data", Ok [("Item", Object [Text "a"; Text "b"; Text "c"]);
                ("Price", Numeric [1; nan; 4]%float);
                ("Qty", Numeric [7; 7; 7]%float)])].

(** One sheet that holds text only. *)
Definition notes : list (string * result DataFrame) :=
  [("Notes", Ok [("Comment", Object [Text "ok"; Text "late"])])].

(** One sheet whose only numeric column is entirely missing. *)
Definition blank : list (string * result DataFrame) :=
  [("Blank", Ok [("Amount", Numeric [nan; nan]%float)])].

Definition save_fails (wb : Workbook) : result (list Byte.byte) :=
  Raise "cannot write the archive".

Definition add_data_fails (chart : BarChart) (data : Reference)
    : result BarChart :=
  Raise "invalid reference".

Definition sales_libs : Libraries := libraries sales add_data saves.
Definition mixed_libs : Libraries := libraries mixed add_data saves.
Definition notes_libs : Libraries := libraries notes add_data saves.
Definition blank_libs : Libraries := libraries blank add_data saves.
Definition unsaved_libs : Libraries := libraries sales add_data save_fails.

(** Bytes that pandas cannot open as a workbook. *)
Definition unreadable_libs : Libraries :=
  {| b64decode := fun _ => Ok [];
     b64encode := fun _ => "UEsDBA==";
     pd_ExcelFile := fun _ => Raise "File is not a zip file";
     pd_read_excel := fun _ => read [];
     cell_error := fun _ => None;
     chart_add_data := add_data;
     round2 := fun x => x;
     str_len := fun _ => 4;
     wb_save := saves;
     timedelta_float_error := float_refuses;
     json_error := fun _ => None |}.
Definition chartless_libs : Libraries := libraries mixed add_data_fails saves.

(** A sheet with the hours worked and a column of durations, and a sheet
    of rates. *)
Definition shifts : list (string * result DataFrame) :=
  [("Shifts", Ok [("Worker", Object [Text "ann"; Text "bo"]);
                  ("Hours", Numeric [8; 6]%float);
                  ("Break", Timedelta64 [Some 1800000000000%Z; None])]);
   ("Rates", Ok [("Rate", Numeric [12; 14]%float)])].
Definition shifts_libs : Libraries := libraries shifts add_data saves.



(** The sales workbook, with a json encoder that refuses every result
    that has statistics (a header cell holds a date). *)
Definition dated_libs : Libraries :=
  {| b64decode := fun _ => Ok [];
     b64encode := fun _ => "UEsDBA==";
     pd_ExcelFile := fun _ => Ok (PyDict.keys sales);
     pd_read_excel := fun _ => read sales;
     cell_error := fun _ => None;
     chart_add_data := add_data;
     round2 := fun x => x;
     str_len := fun _ => 4;
     wb_save := saves;
     timedelta_float_error := float_refuses;
     json_error := fun r =>
       if PyDict.truthy (summary r)
       then Some "keys must be str, int, float, bool or None, not Timestamp"
       else None |}.

End Fixture.

(** * Properties *)

(** ** Dictionaries *)

Section PyDictFacts.
Context {V : Type}.
Implicit Types (d : list (string * V)) (k : string) (v : V).

Lemma get_set_eq d k v : PyDict.get (PyDict.set d k v) k = Some v.
Proof.
  induction d as [|[k' v'] d IH]; simpl.
  - by rewrite String.eqb_refl.
  - destruct (String.eqb_spec k' k) as [->|Hne]; simpl.
    + by rewrite String.eqb_refl.
    + by destruct (String.eqb_spec k' k).
Qed.

Lemma get_set_ne d k k' v :
  k ≠ k' → PyDict.get (PyDict.set d k v) k' = PyDict.get d k'.
Proof.
  intros Hne. induction d as [|[k0 v0] d IH]; simpl.
  - by destruct (String.eqb_spec k k').
  - destruct (String.eqb_spec k0 k) as [->|Hk]; simpl.
    + by destruct (String.eqb_spec k k').
    + by rewrite IH.
Qed.

Lemma elem_of_keys_set d k k' v :
  k' ∈ PyDict.keys (PyDict.set d k v) ↔ k' = k ∨ k' ∈ PyDict.keys d.
Proof.
  unfold PyDict.keys. induction d as [|[k0 v0] d IH]; simpl.
  - set_solver.
  - destruct (String.eqb_spec k0 k) as [->|Hk]; simpl; set_solver.
Qed.

Lemma keys_set_fresh d k v :
  k ∉ PyDict.keys d → PyDict.keys (PyDict.set d k v) = (PyDict.keys d ++ [k])%list.
Proof.
  unfold PyDict.keys. induction d as [|[k0 v0] d IH]; simpl; [done|].
  intros Hk. destruct (String.eqb_spec k0 k) as [->|Hne]; [set_solver|].
  simpl. f_equal. apply IH. set_solver.
Qed.

Lemma keys_set_present d k v :
  k ∈ PyDict.keys d → PyDict.keys (PyDict.set d k v) = PyDict.keys d.
Proof.
  unfold PyDict.keys. induction d as [|[k0 v0] d IH]; simpl.
  - set_solver.
  - intros Hk. destruct (String.eqb_spec k0 k) as [->|Hne]; [done|].
    simpl. f_equal. apply IH. set_solver.
Qed.

Lemma get_is_Some d k : is_Some (PyDict.get d k) ↔ k ∈ PyDict.keys d.
Proof.
  unfold PyDict.keys. induction d as [|[k0 v0] d IH]; simpl.
  - split; [by intros [? ?]|set_solver].
  - destruct (String.eqb_spec k0 k) as [->|Hne].
    + split; [set_solver|eauto].
    + rewrite IH. set_solver.
Qed.

Lemma get_elem_of d k v :
  NoDup (PyDict.keys d) → (k, v) ∈ d → PyDict.get d k = Some v.
Proof.
  unfold PyDict.keys. induction d as [|[k0 v0] d IH]; simpl.
  - set_solver.
  - intros [Hk0 Hnd]%NoDup_cons Hin.
    apply elem_of_cons in Hin as [[= -> ->]|Hin].
    + by rewrite String.eqb_refl.
    + destruct (String.eqb_spec k0 k) as [->|Hne]; [|by apply IH].
      exfalso. apply Hk0. apply list_elem_of_fmap. by exists (k, v).
Qed.

Lemma truthy_keys d : PyDict.truthy d = true ↔ PyDict.keys d ≠ [].
Proof. by destruct d. Qed.
End PyDictFacts.

(** ** The statistics of a sheet *)

Lemma float_columns_elem_of (df : DataFrame) (c : string) (xs : list float) :
  (c, xs) ∈ float_columns df ↔ (c, Numeric xs) ∈ df.
Proof.
  unfold float_columns. rewrite list_elem_of_omap. split.
  - intros [[c' s] [Hin Heq]]. simpl in Heq.
    destruct s; simplify_eq. done.
  - intros Hin. exists (c, Numeric xs). done.
Qed.

Lemma float_columns_labels_sublist (df : DataFrame) :
  sublist (map fst (float_columns df)) (df_columns df).
Proof.
  unfold float_columns, df_columns. induction df as [|[c s] df IH]; simpl.
  - constructor.
  - destruct s; simpl; by constructor.
Qed.

Lemma float_columns_NoDup (df : DataFrame) :
  NoDup (df_columns df) → NoDup (map fst (float_columns df)).
Proof. intros Hnd; eapply sublist_NoDup; [done|apply float_columns_labels_sublist]. Qed.

Lemma select_number_cons (c : string * Series) (df : DataFrame) :
  select_number (c :: df) =
    if is_number (snd c) then c :: select_number df else select_number df.
Proof.
  unfold select_number. rewrite filter_cons.
  destruct (is_number (snd c)); by case_decide.
Qed.

Lemma select_number_elem_of (df : DataFrame) (c : string) (s : Series) :
  (c, s) ∈ select_number df ↔ (c, s) ∈ df ∧ is_number s = true.
Proof. unfold select_number. rewrite list_elem_of_filter. simpl. tauto. Qed.

Lemma stats_step_other (acc : list (string * ColumnStats))
    (col : string * list float) (c : string) :
  fst col ≠ c → PyDict.get (stats_step acc col) c = PyDict.get acc c.
Proof.
  intros Hne. unfold stats_step.
  destruct (0 <? length (dropna (snd col))); [|done].
  by apply get_set_ne.
Qed.

Lemma stats_loop_other (cols : list (string * list float))
    (acc : list (string * ColumnStats)) (c : string) :
  c ∉ map fst cols →
  PyDict.get (fold_left stats_step cols acc) c = PyDict.get acc c.
Proof.
  revert acc. induction cols as [|col cols IH]; intros acc Hc; simpl; [done|].
  rewrite IH.
  - apply stats_step_other. intros <-. apply Hc. simpl. left.
  - intros Hin. apply Hc. simpl. by right.
Qed.

(** What the loop of line 81 leaves under a label that addresses one
    numeric column. *)
Lemma stats_loop_get (cols : list (string * list float))
    (acc : list (string * ColumnStats)) (c : string) (xs : list float) :
  NoDup (map fst cols) → (c, xs) ∈ cols →
  PyDict.get (fold_left stats_step cols acc) c =
    if 0 <? length (dropna xs) then Some (column_stats (dropna xs))
    else PyDict.get acc c.
Proof.
  revert acc. induction cols as [|col cols IH]; intros acc Hnd Hin; simpl.
  - by apply elem_of_nil in Hin.
  - simpl in Hnd. apply NoDup_cons in Hnd as [Hfresh Hnd].
    apply elem_of_cons in Hin as [<-|Hin].
    + rewrite stats_loop_other by done. unfold stats_step. simpl.
      destruct (0 <? length (dropna xs)); [|done]. apply get_set_eq.
    + rewrite IH by done.
      destruct (0 <? length (dropna xs)); [done|].
      apply stats_step_other. intros Heq. apply Hfresh.
      apply list_elem_of_fmap. exists (c, xs). done.
  Qed.

Lemma sheet_statistics_get (df : DataFrame) (c : string) (xs : list float) :
  NoDup (df_columns df) → (c, Numeric xs) ∈ df →
  PyDict.get (sheet_statistics df) c =
    if 0 <? length (dropna xs) then Some (column_stats (dropna xs)) else None.
Proof.
  intros Hnd Hin. unfold sheet_statistics.
  rewrite (stats_loop_get _ _ c xs).
  - done.
  - by apply float_columns_NoDup.
  - by apply float_columns_elem_of.
Qed.


Lemma split_point (n : nat) :
  128 < n → 0 < n / 2 - (n / 2) mod 8 < n.
Proof.
  intros Hn.
  pose proof (Nat.mod_upper_bound (n / 2) 8 ltac:(lia)) as Hmod.
  pose proof (Nat.div_lt n 2 ltac:(lia) ltac:(lia)) as Hlt.
  assert (64 ≤ n / 2) as Hge.
  { apply Nat.div_le_lower_bound; lia. }
  lia.
Qed.

(** The recursion depth of [pairwise_sum]: any fuel from the length of the
    array on gives the same sum. *)
Lemma pairwise_sum_fuel (fuel1 fuel2 : nat) (a : list float) :
  length a ≤ fuel1 → length a ≤ fuel2 →
  Stats.pairwise_sum fuel1 a = Stats.pairwise_sum fuel2 a.
Proof.
  revert fuel2 a. induction fuel1 as [|fuel1 IH]; intros fuel2 a H1 H2.
  - destruct a; [|simpl in H1; lia]. by destruct fuel2.
  - destruct fuel2 as [|fuel2].
    { destruct a; [done|simpl in H2; lia]. }
    cbn [Stats.pairwise_sum].
    destruct (length a <? 8); [done|].
    destruct (Nat.leb_spec (length a) 128) as [_|Hbig]; [done|].
    pose proof (split_point (length a) Hbig) as Hsplit.
    rewrite (IH fuel2 (take _ a)), (IH fuel2 (drop _ a)); [done|..];
      rewrite ?length_take, ?length_drop; lia.
Qed.

Section StatisticsLoop.
Context {L : Libraries}.

Lemma stats_loop_Ok (df : DataFrame) (acc stats : list (string * ColumnStats)) :
  foldM stats_turn acc (select_number df) = Ok stats →
  stats = fold_left stats_step (float_columns df) acc
  ∧ ∀ c ts, (c, Timedelta64 ts) ∈ df → dropna_timedelta ts = [].
Proof.
  revert acc. induction df as [|[c s] df IH]; intros acc Hloop.
  - simpl in Hloop. simplify_eq. split; [done|].
    intros c ts Hin. by apply elem_of_nil in Hin.
  - rewrite select_number_cons in Hloop. unfold float_columns. simpl in *.
    destruct s as [xs|xs|xs|ts|xs]; simpl in Hloop.
    + destruct (IH _ Hloop) as [-> Hts]. split; [done|].
      intros c' ts' [[=]|Hin]%elem_of_cons. by eapply Hts.
    + destruct (IH _ Hloop) as [-> Hts]. split; [done|].
      intros c' ts' [[=]|Hin]%elem_of_cons. by eapply Hts.
    + destruct (IH _ Hloop) as [-> Hts]. split; [done|].
      intros c' ts' [[=]|Hin]%elem_of_cons. by eapply Hts.
    + unfold stats_turn in Hloop. simpl in Hloop.
      destruct (dropna_timedelta ts) as [|t ts0] eqn:Hdata; simpl in Hloop;
        [|done].
      destruct (IH _ Hloop) as [-> Hts]. split; [done|].
      intros c' ts' [[= -> ->]|Hin]%elem_of_cons; [done|]. by eapply Hts.
    + destruct (IH _ Hloop) as [-> Hts]. split; [done|].
      intros c' ts' [[=]|Hin]%elem_of_cons. by eapply Hts.
Qed.

Lemma stats_loop_Raise (df : DataFrame) (acc : list (string * ColumnStats))
    (msg : string) :
  foldM stats_turn acc (select_number df) = Raise msg →
  msg = timedelta_float_error
  ∧ ∃ c ts, (c, Timedelta64 ts) ∈ df ∧ dropna_timedelta ts ≠ [].
Proof.
  revert acc. induction df as [|[c s] df IH]; intros acc Hloop; [done|].
  rewrite select_number_cons in Hloop. simpl in Hloop.
  assert (∀ acc', foldM stats_turn acc' (select_number df) = Raise msg →
            msg = timedelta_float_error
            ∧ ∃ c0 ts, (c0, Timedelta64 ts) ∈ (c, s) :: df
                       ∧ dropna_timedelta ts ≠ []) as Hrest.
  { intros acc' Hr. destruct (IH _ Hr) as (-> & c0 & ts & Hin & Hne).
    split; [done|]. exists c0, ts. split; [by right|done]. }
  destruct s as [xs|xs|xs|ts|xs]; simpl in Hloop; try by eapply Hrest.
  unfold stats_turn in Hloop. simpl in Hloop.
  destruct (dropna_timedelta ts) as [|t ts0] eqn:Hdata; simpl in Hloop.
  - by eapply Hrest.
  - simplify_eq. split; [done|]. exists c, ts. split; [by left|].
    by rewrite Hdata.
Qed.

(** The loop of line 81 ends without an exception exactly when no column
    of durations holds a value, and then it leaves the statistics of the
    int64 and float64 columns. *)
Lemma statistics_loop_Ok (df : DataFrame) (stats : list (string * ColumnStats)) :
  statistics_loop df = Ok stats →
  stats = sheet_statistics df
  ∧ ∀ c ts, (c, Timedelta64 ts) ∈ df → dropna_timedelta ts = [].
Proof. apply stats_loop_Ok. Qed.

Lemma statistics_loop_Raise (df : DataFrame) (msg : string) :
  statistics_loop df = Raise msg →
  msg = timedelta_float_error
  ∧ ∃ c ts, (c, Timedelta64 ts) ∈ df ∧ dropna_timedelta ts ≠ [].
Proof. apply stats_loop_Raise. Qed.

Lemma statistics_loop_total (df : DataFrame) :
  (∀ c ts, (c, Timedelta64 ts) ∈ df → dropna_timedelta ts = []) →
  statistics_loop df = Ok (sheet_statistics df).
Proof.
  intros Hts. destruct (statistics_loop df) as [stats|msg] eqn:Hloop.
  - by destruct (statistics_loop_Ok df stats Hloop) as [-> _].
  - destruct (statistics_loop_Raise df msg Hloop) as (_ & c & ts & Hin & Hne).
    by rewrite (Hts c ts Hin) in Hne.
Qed.


End StatisticsLoop.

(** ** The loop over the sheets *)

Section SheetLoop.
Context {L : Libraries}.
Implicit Types (data : list Byte.byte) (st : State) (name : string).

Lemma process_sheet_retained data st name df :
  retained data name = Some df →
  process_sheet data st name =
    append_processed (record_sheet st name (sheet_statistics df) df) name.
Proof.
  unfold retained, process_sheet, try_sheet. intros Hr.
  destruct (pd_read_excel data name) as [df'|msg]; simpl; [|done].
  destruct (select_number df') as [|c cols]; simpl; [done|].
  destruct (statistics_loop df') as [stats|msg] eqn:Hloop; simpl; [|done].
  simplify_eq. by destruct (statistics_loop_Ok df stats Hloop) as [-> _].
Qed.

Lemma process_sheet_no_numeric data st name df :
  pd_read_excel data name = Ok df → select_number df = [] →
  process_sheet data st name = st.
Proof.
  unfold process_sheet, try_sheet. intros -> Hsel. simpl. by rewrite Hsel.
Qed.

Lemma process_sheet_error data st name msg :
  pd_read_excel data name = Raise msg →
  process_sheet data st name = append_processed st (error_entry name msg).
Proof. unfold process_sheet, try_sheet. by intros ->. Qed.

Lemma process_sheet_stats_error data st name df msg :
  pd_read_excel data name = Ok df → select_number df ≠ [] →
  statistics_loop df = Raise msg →
  process_sheet data st name = append_processed st (error_entry name msg).
Proof.
  unfold process_sheet, try_sheet. intros -> Hsel Hloop. simpl.
  destruct (select_number df); [done|]. simpl. by rewrite Hloop.
Qed.

(** A [try] body that ends without an exception has read the sheet, and
    either found no column to analyse and changed nothing, or completed
    the statistics loop and made the three updates of lines 93-95. *)
Lemma try_sheet_Ok data st name st' :
  try_sheet data st name = Ok st' →
  ∃ df, pd_read_excel data name = Ok df
        ∧ ((select_number df = [] ∧ st' = st)
           ∨ (select_number df ≠ []
              ∧ ∃ stats, statistics_loop df = Ok stats
                  ∧ st' = append_processed (record_sheet st name stats df)
                                           name)).
Proof.
  unfold try_sheet. intros Htry.
  destruct (pd_read_excel data name) as [df|msg]; simpl in Htry; [|done].
  exists df. split; [done|].
  destruct (select_number df) as [|c cols]; simpl in Htry.
  - left. by simplify_eq.
  - right. split; [done|].
    destruct (statistics_loop df) as [stats|msg]; simpl in Htry; [|done].
    exists stats. by simplify_eq.
Qed.

(** A [try] body that raises does so whatever the loop state is: the read
    raised, or the statistics loop did. *)
Lemma try_sheet_Raise data st name msg :
  try_sheet data st name = Raise msg →
  pd_read_excel data name = Raise msg
  ∨ ∃ df, pd_read_excel data name = Ok df ∧ select_number df ≠ []
          ∧ statistics_loop df = Raise msg.
Proof.
  unfold try_sheet. intros Htry.
  destruct (pd_read_excel data name) as [df|msg']; simpl in Htry.
  - right. exists df. split; [done|].
    destruct (select_number df) as [|c cols]; simpl in Htry; [done|].
    split; [done|].
    by destruct (statistics_loop df) as [stats|msg']; simpl in Htry;
      simplify_eq.
  - left. by simplify_eq.
Qed.

Lemma process_sheet_raise data st0 st name msg :
  try_sheet data st0 name = Raise msg →
  process_sheet data st name = append_processed st (error_entry name msg).
Proof.
  intros [Hread|(df & Hread & Hsel & Hloop)]%try_sheet_Raise.
  - by apply process_sheet_error.
  - by apply (process_sheet_stats_error data st name df).
Qed.

Lemma process_sheet_not_retained data st name :
  retained data name = None →
  summary (results (process_sheet data st name)) = summary (results st)
  ∧ all_data (process_sheet data st name) = all_data st.
Proof.
  unfold retained. intros Hr.
  destruct (pd_read_excel data name) as [df|msg] eqn:Hread.
  - destruct (select_number df) as [|c cols] eqn:Hsel.
    + by rewrite (process_sheet_no_numeric _ _ _ _ Hread Hsel).
    + destruct (statistics_loop df) as [stats|msg] eqn:Hloop; [done|].
      assert (select_number df ≠ []) as Hne by (by rewrite Hsel).
      by rewrite (process_sheet_stats_error _ _ _ df msg Hread Hne Hloop).
  - by rewrite (process_sheet_error _ _ _ _ Hread).
Qed.

Lemma process_sheet_outcome data st name :
  sheets_processed (results (process_sheet data st name)) =
    (sheets_processed (results st)
     ++ match outcome data name with Some e => [e] | None => [] end)%list.
Proof.
  unfold outcome.
  destruct (pd_read_excel data name) as [df|msg] eqn:Hread.
  - destruct (select_number df) as [|c cols] eqn:Hsel.
    + rewrite (process_sheet_no_numeric _ _ _ _ Hread Hsel).
      by rewrite app_nil_r.
    + destruct (statistics_loop df) as [stats|msg] eqn:Hloop.
      * rewrite (process_sheet_retained _ _ _ df); [done|].
        unfold retained. by rewrite Hread, Hsel, Hloop.
      * assert (select_number df ≠ []) as Hne by (by rewrite Hsel).
        by rewrite (process_sheet_stats_error _ _ _ df msg Hread Hne Hloop).
  - by rewrite (process_sheet_error _ _ _ _ Hread).
Qed.

(** The outcome list after the loop: one entry per sheet that has a
    numeric column or raised, in workbook order. *)
Lemma loop_sheets_processed data names st :
  sheets_processed (results (fold_left (process_sheet data) names st)) =
    (sheets_processed (results st) ++ omap (outcome data) names)%list.
Proof.
  revert st. induction names as [|name names IH]; intros st; simpl.
  - by rewrite app_nil_r.
  - rewrite IH, process_sheet_outcome, <- app_assoc.
    by destruct (outcome data name).
Qed.

Lemma loop_summary_keys data names st k :
  k ∈ PyDict.keys (summary (results (fold_left (process_sheet data) names st)))
  ↔ k ∈ PyDict.keys (summary (results st))
    ∨ (k ∈ names ∧ is_Some (retained data k)).
Proof.
  revert st. induction names as [|name names IH]; intros st; simpl.
  - split; [by left|]. intros [?|[Hin _]]; [done|]. by apply elem_of_nil in Hin.
  - rewrite IH. destruct (retained data name) as [df|] eqn:Hr.
    + rewrite (process_sheet_retained _ _ _ df Hr). simpl.
      rewrite elem_of_keys_set, elem_of_cons.
      assert (is_Some (retained data name)) by (by rewrite Hr).
      naive_solver.
    + destruct (process_sheet_not_retained data st name Hr) as [-> _].
      rewrite elem_of_cons.
      assert (¬ is_Some (retained data name)) by (rewrite Hr; by intros [? ?]).
      naive_solver.
Qed.

Lemma loop_summary_get data names st k :
  PyDict.get (summary (results (fold_left (process_sheet data) names st))) k =
    match retained data k with
    | Some df =>
        if bool_decide (k ∈ names) then Some (sheet_statistics df)
        else PyDict.get (summary (results st)) k
    | None => PyDict.get (summary (results st)) k
    end.
Proof.
  revert st. induction names as [|name names IH]; intros st; simpl.
  - by destruct (retained data k).
  - rewrite IH. destruct (retained data k) as [df|] eqn:Hk.
    + destruct (decide (name = k)) as [->|Hne].
      * rewrite (process_sheet_retained _ _ _ df Hk). simpl.
        rewrite get_set_eq.
        rewrite (bool_decide_eq_true_2 (k ∈ k :: names)) by left.
        by case_bool_decide.
      * assert (PyDict.get (summary (results (process_sheet data st name))) k
                = PyDict.get (summary (results st)) k) as ->.
        { destruct (retained data name) as [df'|] eqn:Hr.
          - rewrite (process_sheet_retained _ _ _ df' Hr). simpl.
            by apply get_set_ne.
          - by destruct (process_sheet_not_retained data st name Hr) as [-> _]. }
        rewrite (bool_decide_ext (k ∈ name :: names) (k ∈ names)); [done|].
        rewrite elem_of_cons. naive_solver.
    + destruct (retained data name) as [df'|] eqn:Hr.
      * rewrite (process_sheet_retained _ _ _ df' Hr). simpl.
        apply get_set_ne. intros ->. congruence.
      * by destruct (process_sheet_not_retained data st name Hr) as [-> _].
Qed.

(** [summary] and [all_data] receive their keys together. *)
Lemma loop_all_data_keys data names st :
  PyDict.keys (all_data st) = PyDict.keys (summary (results st)) →
  PyDict.keys (all_data (fold_left (process_sheet data) names st)) =
    PyDict.keys (summary (results (fold_left (process_sheet data) names st))).
Proof.
  revert st. induction names as [|name names IH]; intros st Hst; simpl; [done|].
  apply IH. destruct (retained data name) as [df|] eqn:Hr.
  - rewrite (process_sheet_retained _ _ _ df Hr). simpl.
    destruct (decide (name ∈ PyDict.keys (summary (results st)))) as [Hin|Hin].
    + rewrite !keys_set_present; [done|done|by rewrite Hst].
    + rewrite !keys_set_fresh; [by rewrite Hst|done|by rewrite Hst].
  - by destruct (process_sheet_not_retained data st name Hr) as [-> ->].
Qed.

Lemma loop_all_data_get data names st k :
  PyDict.get (all_data (fold_left (process_sheet data) names st)) k =
    match retained data k with
    | Some df =>
        if bool_decide (k ∈ names) then Some df
        else PyDict.get (all_data st) k
    | None => PyDict.get (all_data st) k
    end.
Proof.
  revert st. induction names as [|name names IH]; intros st; simpl.
  - by destruct (retained data k).
  - rewrite IH. destruct (retained data k) as [df|] eqn:Hk.
    + destruct (decide (name = k)) as [->|Hne].
      * rewrite (process_sheet_retained _ _ _ df Hk). simpl.
        rewrite get_set_eq.
        rewrite (bool_decide_eq_true_2 (k ∈ k :: names)) by left.
        by case_bool_decide.
      * assert (PyDict.get (all_data (process_sheet data st name)) k
                = PyDict.get (all_data st) k) as ->.
        { destruct (retained data name) as [df'|] eqn:Hr.
          - rewrite (process_sheet_retained _ _ _ df' Hr). simpl.
            by apply get_set_ne.
          - by destruct (process_sheet_not_retained data st name Hr) as [_ ->]. }
        rewrite (bool_decide_ext (k ∈ name :: names) (k ∈ names)); [done|].
        rewrite elem_of_cons. naive_solver.
    + destruct (retained data name) as [df'|] eqn:Hr.
      * rewrite (process_sheet_retained _ _ _ df' Hr). simpl.
        apply get_set_ne. intros ->. congruence.
      * by destruct (process_sheet_not_retained data st name Hr) as [_ ->].
Qed.

(** The loop leaves the output fields as lines 60-65 set them. *)
Lemma loop_output_fields data names st :
  output_file (results (fold_left (process_sheet data) names st)) =
    output_file (results st)
  ∧ output_filename (results (fold_left (process_sheet data) names st)) =
      output_filename (results st).
Proof.
  revert st. induction names as [|name names IH]; intros st; simpl; [done|].
  destruct (IH (process_sheet data st name)) as [-> ->].
  unfold process_sheet.
  destruct (try_sheet data st name) as [st'|msg] eqn:Htry; [|done].
  apply try_sheet_Ok in Htry as (df & _ & [[_ ->]|(_ & stats & _ & ->)]);
    done.
Qed.

(** What [process_excel_file] returns carries the outcome list and the
    statistics of the loop. *)
Lemma process_excel_file_loop data fn r :
  process_excel_file data fn = Ok r →
  ∃ names, pd_ExcelFile data = Ok names
    ∧ sheets_processed r =
        sheets_processed (results (analyze_sheets data fn names))
    ∧ summary r = summary (results (analyze_sheets data fn names))
    ∧ (is_Some (output_file r) ↔ summary r ≠ [])
    ∧ (is_Some (output_filename r) ↔ summary r ≠ []).
Proof.
  unfold process_excel_file. intros Hp.
  destruct (pd_ExcelFile data) as [names|msg]; simpl in Hp; [|done].
  exists names. split; [done|].
  destruct (summary (results (analyze_sheets data fn names))) as [|e d] eqn:Hs;
    simpl in Hp.
  - simplify_eq. rewrite Hs.
    destruct (loop_output_fields data names (initial_state fn)) as [Hf Hn].
    unfold analyze_sheets. rewrite Hf, Hn. simpl.
    repeat split; try done; by intros [? ?].
  - destruct (create_summary_excel _ _) as [bytes|msg]; simpl in Hp; [|done].
    simplify_eq. simpl. rewrite Hs. repeat split; eauto.
Qed.

End SheetLoop.

(** ** The outcome list and the statistics mapping *)

Section Outcome.
Context {L : Libraries}.
Implicit Types (data : list Byte.byte) (st : State) (name : string).

Lemma retained_is_Some data name :
  is_Some (retained data name)
  ↔ ∃ df, pd_read_excel data name = Ok df ∧ select_number df ≠ []
          ∧ ∃ stats, statistics_loop df = Ok stats.
Proof.
  unfold retained. destruct (pd_read_excel data name) as [df|msg].
  - destruct (select_number df) eqn:Hsel.
    + split; [by intros [? ?]|]. intros (df' & [= <-] & Hne & _). congruence.
    + destruct (statistics_loop df) as [stats|msg] eqn:Hloop.
      * split; [|eauto]. intros _. exists df. rewrite Hsel, Hloop. eauto.
      * split; [by intros [? ?]|].
        intros (df' & [= <-] & _ & stats & Hstats). congruence.
  - split; [by intros [? ?]|]. by intros (df & ? & _).
Qed.

Lemma retained_Some data name df stats :
  pd_read_excel data name = Ok df → select_number df ≠ [] →
  statistics_loop df = Ok stats →
  retained data name = Some df.
Proof.
  unfold retained. intros -> Hne ->. by destruct (select_number df).
Qed.

Lemma outcome_listed data name df stats :
  pd_read_excel data name = Ok df → select_number df ≠ [] →
  statistics_loop df = Ok stats →
  outcome data name = Some name.
Proof.
  unfold outcome. intros -> Hne ->. by destruct (select_number df).
Qed.

Lemma outcome_raise data st name msg :
  try_sheet data st name = Raise msg →
  outcome data name = Some (error_entry name msg)
  ∧ retained data name = None.
Proof.
  unfold outcome, retained.
  intros [->|(df & -> & Hsel & ->)]%try_sheet_Raise; [done|].
  by destruct (select_number df).
Qed.

(** Whether the [try] body of a sheet raises does not depend on the loop
    state it starts from. *)
Lemma try_sheet_Ok_any data st0 st1 st name :
  try_sheet data st0 name = Ok st1 → ∃ st', try_sheet data st name = Ok st'.
Proof.
  intros (df & Hread & Hcase)%try_sheet_Ok. unfold try_sheet.
  rewrite Hread. simpl.
  destruct Hcase as [[-> _]|(Hsel & stats & -> & _)]; simpl; [eauto|].
  destruct (select_number df); [done|]. simpl. eauto.
Qed.

(** C2 (amended).  A sheet of the workbook whose [try] body raises no
    exception has been read; when it has a column under [number] its name
    is the entry its turn appends to the outcome list, and the result
    lists it, whatever statistics it yields; when it has none, its turn
    leaves the whole loop state as it was. *)
Theorem C2_sheet_listed_when_numeric data fn names name st0 st1 r :
  pd_ExcelFile data = Ok names →
  name ∈ names →
  try_sheet data st0 name = Ok st1 →
  process_excel_file data fn = Ok r →
  ∃ df, pd_read_excel data name = Ok df
        ∧ (select_number df ≠ [] →
           name ∈ sheets_processed r
           ∧ sheets_processed (results st1) =
               (sheets_processed (results st0) ++ [name])%list)
        ∧ (select_number df = [] →
           st1 = st0 ∧ ∀ st, process_sheet data st name = st).
Proof.
  intros Hnames Hin Htry Hp.
  destruct (try_sheet_Ok data st0 name st1 Htry) as (df & Hread & Hcase).
  exists df. split; [done|]. split.
  - intros Hnum.
    destruct Hcase as [[Hnil _]|(_ & stats & Hloop & ->)]; [done|].
    split; [|done].
    destruct (process_excel_file_loop data fn r Hp) as (names' & Hn' & -> & _).
    rewrite Hnames in Hn'. simplify_eq.
    unfold analyze_sheets. rewrite loop_sheets_processed.
    rewrite elem_of_app, list_elem_of_omap. right. exists name.
    split; [done|]. by apply (outcome_listed data name df stats).
  - intros Hnone.
    destruct Hcase as [[_ ->]|(Hsel & _)]; [|done].
    split; [done|]. intros st.
    by apply (process_sheet_no_numeric data st name df).
Qed.

(** C3 (amended).  In a result of [process_excel_file], a sheet has an
    entry in the statistics mapping exactly when it is a sheet of the
    workbook that has a column under [number] (with or without
    non-missing values) and whose [try] body raises no exception, and
    both output fields are present exactly when there is such a sheet. *)
Theorem C3_output_iff_numeric_column data fn r :
  process_excel_file data fn = Ok r →
  ∃ names,
    pd_ExcelFile data = Ok names
    ∧ (∀ name, name ∈ PyDict.keys (summary r)
               ↔ name ∈ names
                 ∧ ∃ df st', pd_read_excel data name = Ok df
                             ∧ select_number df ≠ []
                             ∧ try_sheet data (initial_state fn) name = Ok st')
    ∧ (is_Some (output_file r)
       ↔ ∃ name df st', name ∈ names ∧ pd_read_excel data name = Ok df
                        ∧ select_number df ≠ []
                        ∧ try_sheet data (initial_state fn) name = Ok st')
    ∧ (is_Some (output_filename r)
       ↔ ∃ name df st', name ∈ names ∧ pd_read_excel data name = Ok df
                        ∧ select_number df ≠ []
                        ∧ try_sheet data (initial_state fn) name = Ok st').
Proof.
  intros Hp.
  destruct (process_excel_file_loop data fn r Hp)
    as (names & Hn & _ & Hsum & Hfile & Hname).
  exists names. split; [done|].
  assert (∀ name, is_Some (retained data name)
                  ↔ ∃ df st', pd_read_excel data name = Ok df
                              ∧ select_number df ≠ []
                              ∧ try_sheet data (initial_state fn) name = Ok st')
    as Hret.
  { intros name. rewrite retained_is_Some. split.
    - intros (df & Hread & Hsel & stats & Hloop). exists df.
      unfold try_sheet. rewrite Hread. simpl.
      destruct (select_number df); [done|]. simpl. rewrite Hloop. simpl.
      eauto.
    - intros (df & st' & Hread & Hsel & Htry). exists df.
      split; [done|]. split; [done|].
      apply try_sheet_Ok in Htry as (df' & Hread' & Hcase).
      rewrite Hread in Hread'. injection Hread' as <-.
      destruct Hcase as [[Hnil _]|(_ & stats & Hloop & _)]; [done|eauto]. }
  assert (∀ name, name ∈ PyDict.keys (summary r)
                  ↔ name ∈ names
                    ∧ ∃ df st', pd_read_excel data name = Ok df
                                ∧ select_number df ≠ []
                                ∧ try_sheet data (initial_state fn) name
                                  = Ok st') as Hkeys.
  { intros name. rewrite Hsum. unfold analyze_sheets.
    rewrite loop_summary_keys, Hret. simpl.
    split; [|by right]. intros [Hnil|?]; [|done]. by apply elem_of_nil in Hnil. }
  assert (summary r ≠ []
          ↔ ∃ name df st', name ∈ names ∧ pd_read_excel data name = Ok df
                           ∧ select_number df ≠ []
                           ∧ try_sheet data (initial_state fn) name = Ok st')
    as Hne.
  { split.
    - destruct (summary r) as [|[k v] d] eqn:Hs; [done|]. intros _.
      destruct (proj1 (Hkeys k)) as (? & df & st' & ? & ? & ?);
        [|by eauto 10].
      simpl. left.
    - intros (name & df & st' & Hin & Hread & Hnum & Htry) Hnil.
      assert (name ∈ PyDict.keys (summary r)) as Hk by (apply Hkeys; eauto 10).
      rewrite Hnil in Hk. by apply elem_of_nil in Hk. }
  split; [done|]. split.
  - by rewrite Hfile.
  - by rewrite Hname.
Qed.

(** C4.  When the [try] body of a sheet of the workbook raises, in the
    read or in the statistics, the loop appends
    "{sheet} (ERROR: {message})" to the outcome list and files nothing for
    the sheet, neither statistics nor table; the turn of that sheet is the
    append alone, whatever the state and the sheets that follow, and every
    other sheet whose [try] body raises nothing and that has a column
    under [number] is listed with its statistics all the same.  The result
    of [process_excel_file] shows the same entry and no statistics for the
    sheet. *)
Theorem C4_failed_sheet_is_annotated data fn names name msg st0 :
  try_sheet data st0 name = Raise msg →
  name ∈ names →
  let st := analyze_sheets data fn names in
  (name ++ (" (ERROR: " ++ (msg ++ ")"))) ∈ sheets_processed (results st)
  ∧ (name ∉ PyDict.keys (summary (results st)))
  ∧ (name ∉ PyDict.keys (all_data st))
  ∧ (∀ st1 rest,
       fold_left (process_sheet data) (name :: rest) st1
       = fold_left (process_sheet data) rest
           (append_processed st1 (name ++ (" (ERROR: " ++ (msg ++ ")")))))
  ∧ (∀ other st1 st2,
       other ∈ names → try_sheet data st1 other = Ok st2 →
       ∃ df, pd_read_excel data other = Ok df
             ∧ (select_number df ≠ [] →
                other ∈ sheets_processed (results st)
                ∧ ∃ stats, statistics_loop df = Ok stats
                    ∧ PyDict.get (summary (results st)) other = Some stats
                    ∧ PyDict.get (all_data st) other = Some df))
  ∧ (∀ r, pd_ExcelFile data = Ok names → process_excel_file data fn = Ok r →
          (name ++ (" (ERROR: " ++ (msg ++ ")"))) ∈ sheets_processed r
          ∧ (name ∉ PyDict.keys (summary r))).
Proof.
  intros Hraise Hin st.
  destruct (outcome_raise data st0 name msg Hraise) as [Hout Hret].
  assert ((name ++ (" (ERROR: " ++ (msg ++ ")"))) ∈ sheets_processed (results st))
    as Hentry.
  { unfold st, analyze_sheets. rewrite loop_sheets_processed.
    rewrite elem_of_app, list_elem_of_omap. right. exists name.
    split; [done|]. by rewrite Hout. }
  assert (name ∉ PyDict.keys (summary (results st))) as Hkey.
  { unfold st, analyze_sheets. rewrite loop_summary_keys, Hret. simpl.
    intros [Hnil|[_ [? ?]]]; [|done]. by apply elem_of_nil in Hnil. }
  split; [done|]. split; [done|]. split.
  { unfold st, analyze_sheets in *. by rewrite loop_all_data_keys. }
  split.
  { intros st1 rest. simpl.
    by rewrite (process_sheet_raise data st0 st1 name msg Hraise). }
  split.
  { intros other st1 st2 Hother Htry.
    destruct (try_sheet_Ok data st1 other st2 Htry) as (df & Hread & Hcase).
    exists df. split; [done|]. intros Hnum.
    destruct Hcase as [[Hnil _]|(_ & stats & Hloop & _)]; [done|].
    split.
    - unfold st, analyze_sheets. rewrite loop_sheets_processed.
      rewrite elem_of_app, list_elem_of_omap. right. exists other.
      split; [done|]. by apply (outcome_listed data other df stats).
    - exists stats. split; [done|].
      destruct (statistics_loop_Ok df stats Hloop) as [-> _].
      unfold st, analyze_sheets.
      rewrite loop_summary_get, loop_all_data_get.
      rewrite (retained_Some data other df _ Hread Hnum Hloop).
      by rewrite bool_decide_eq_true_2. }
  intros r Hnames Hp.
  destruct (process_excel_file_loop data fn r Hp) as (names' & Hn' & -> & -> & _).
  rewrite Hnames in Hn'. by simplify_eq.
Qed.

(** C5.  In a result of [process_excel_file], every key of the statistics
    mapping is itself an entry of the outcome list and names a sheet that
    was read without an exception; a sheet whose reading raises has no
    key, and neither has any sheet whose [try] body raises. *)
Theorem C5_summary_keys_are_processed data fn r :
  process_excel_file data fn = Ok r →
  (∀ k, k ∈ PyDict.keys (summary r) →
        k ∈ sheets_processed r
        ∧ ∃ df, pd_read_excel data k = Ok df ∧ select_number df ≠ [])
  ∧ (∀ name msg, pd_read_excel data name = Raise msg →
                 name ∉ PyDict.keys (summary r))
  ∧ (∀ name msg st, try_sheet data st name = Raise msg →
                    name ∉ PyDict.keys (summary r)).
Proof.
  intros Hp.
  destruct (process_excel_file_loop data fn r Hp) as (names & Hn & -> & -> & _).
  unfold analyze_sheets.
  assert (∀ k, k ∈ PyDict.keys (summary (results
                 (fold_left (process_sheet data) names (initial_state fn)))) →
               k ∈ names ∧ ∃ df, pd_read_excel data k = Ok df
                                 ∧ select_number df ≠ []
                                 ∧ ∃ stats, statistics_loop df = Ok stats)
    as Hkeys.
  { intros k. rewrite loop_summary_keys, retained_is_Some. simpl.
    intros [Hnil|?]; [|done]. by apply elem_of_nil in Hnil. }
  split; [|split].
  - intros k Hk.
    destruct (Hkeys k Hk) as (Hin & df & Hread & Hnum & stats & Hloop).
    split; [|by eauto]. rewrite loop_sheets_processed.
    rewrite elem_of_app, list_elem_of_omap. right. exists k.
    split; [done|]. by apply (outcome_listed data k df stats).
  - intros name msg Hraise Hk.
    destruct (Hkeys name Hk) as (_ & df & Hread & _). congruence.
  - intros name msg st Hraise Hk.
    destruct (Hkeys name Hk) as (_ & df & Hread & Hnum & stats & Hloop).
    apply try_sheet_Raise in Hraise as [Hr|(df' & Hr & _ & Hloop')];
      congruence.
Qed.

End Outcome.

(** ** Writing cells *)

Lemma foldM_preserves {A B T : Type} (g : A → T) (f : A → B → result A)
    (l : list B) (a r : A) :
  (∀ a x a', f a x = Ok a' → g a' = g a) →
  foldM f a l = Ok r → g r = g a.
Proof.
  intros Hstep. revert a. induction l as [|x l IH]; intros a Hf; simpl in Hf.
  - by simplify_eq.
  - destruct (f a x) as [a'|msg] eqn:Hfa; simpl in Hf; [|done].
    rewrite (IH a' Hf). by apply (Hstep a x).
Qed.

Lemma bind_Ok {A B : Type} (c : result A) (k : A → result B) (b : B) :
  c ≫= k = Ok b → ∃ a, c = Ok a ∧ k a = Ok b.
Proof. destruct c as [a|msg]; [by exists a|done]. Qed.

Lemma bind_Raise {A B : Type} (c : result A) (k : A → result B) (msg : string) :
  c ≫= k = Raise msg →
  c = Raise msg ∨ ∃ a, c = Ok a ∧ k a = Raise msg.
Proof.
  destruct c as [a|msg']; simpl.
  - intros Hk. right. by exists a.
  - intros [= ->]. by left.
Qed.

Lemma fold_left_preserves {A B T : Type} (g : A → T) (f : A → B → A)
    (l : list B) (a : A) :
  (∀ a x, g (f a x) = g a) → g (fold_left f l a) = g a.
Proof.
  intros Hstep. revert a. induction l as [|x l IH]; intros a; simpl; [done|].
  by rewrite IH.
Qed.

Section Cells.
Context {L : Libraries}.
Implicit Types (ws : Worksheet) (k : nat * nat).

Lemma ws_cell_Ok ws row column v ws' :
  ws_cell ws row column v = Ok ws' →
  title ws' = title ws ∧ charts ws' = charts ws
  ∧ column_widths ws' = column_widths ws
  ∧ ∀ k, value_at ws' k =
         if decide (k = (row, column)) then Some v else value_at ws k.
Proof.
  unfold ws_cell. destruct (cell_error v); [done|]. intros [= <-].
  repeat split; try done. intros k. unfold value_at. simpl.
  case_decide as Hk.
  - subst k. rewrite lookup_insert_eq. simpl.
    by destruct (cells ws !! (row, column)).
  - by rewrite lookup_insert_ne.
Qed.

Lemma set_style_frame ws row column f fnt :
  title (set_style ws row column f fnt) = title ws
  ∧ charts (set_style ws row column f fnt) = charts ws
  ∧ column_widths (set_style ws row column f fnt) = column_widths ws
  ∧ ∀ k, value_at (set_style ws row column f fnt) k = value_at ws k.
Proof.
  repeat split; try done. intros k. unfold value_at. simpl.
  rewrite lookup_alter. case_decide as Hk; [|done].
  subst k. by destruct (cells ws !! (row, column)).
Qed.

Lemma header_cell_Ok ws row h ws' :
  header_cell row ws h = Ok ws' →
  title ws' = title ws ∧ charts ws' = charts ws
  ∧ column_widths ws' = column_widths ws
  ∧ ∀ k, value_at ws' k =
         if decide (k = (row, fst h)) then Some (Text (snd h))
         else value_at ws k.
Proof.
  unfold header_cell.
  destruct (ws_cell ws row (fst h) (Text (snd h))) as [ws1|msg] eqn:Hc;
    simpl; [|done].
  intros [= <-]. destruct (ws_cell_Ok _ _ _ _ _ Hc) as (Ht & Hch & Hw & Hv).
  destruct (set_style_frame ws1 row (fst h) (Some header_fill) header_font)
    as (Ht' & Hch' & Hw' & Hv').
  repeat split; try congruence. intros k. by rewrite Hv', Hv.
Qed.

(** A loop that writes one cell per element along a row, from column
    [start]: the cells of the range hold the elements in order, every
    other cell is as before. *)
Lemma row_loop_Ok {B : Type} (f : Worksheet → nat * B → result Worksheet)
    (g : B → scalar) (row : nat) :
  (∀ ws c ws', f ws c = Ok ws' →
     title ws' = title ws ∧ charts ws' = charts ws
     ∧ ∀ k, value_at ws' k =
            if decide (k = (row, fst c)) then Some (g (snd c))
            else value_at ws k) →
  ∀ (xs : list B) ws start ws',
    foldM f ws (enumerate start xs) = Ok ws' →
    title ws' = title ws ∧ charts ws' = charts ws
    ∧ ∀ k, value_at ws' k =
           if decide (fst k = row ∧ start ≤ snd k < start + length xs)
           then g <$> xs !! (snd k - start)
           else value_at ws k.
Proof.
  intros Hstep xs. induction xs as [|x xs IH]; intros ws start ws' Hf;
    simpl in Hf.
  - simplify_eq. repeat split; try done. intros k.
    rewrite decide_False; [done|]. simpl. lia.
  - destruct (f ws (start, x)) as [ws1|msg] eqn:Hc; simpl in Hf; [|done].
    destruct (Hstep _ _ _ Hc) as (Ht & Hch & Hv).
    destruct (IH ws1 (S start) ws' Hf) as (Ht' & Hch' & Hv').
    split; [congruence|]. split; [congruence|].
    intros [r c]. rewrite Hv', Hv. simpl.
    destruct (decide (r = row)) as [->|Hr].
    + destruct (decide (c = start)) as [->|Hc0].
      * rewrite decide_False by lia. rewrite decide_True by done.
        rewrite decide_True by lia. by rewrite Nat.sub_diag.
      * rewrite (decide_False (P := (row, c) = (row, start))) by congruence.
        destruct (decide (S start ≤ c < S start + length xs)) as [Hin|Hout].
        -- rewrite decide_True by done. rewrite decide_True by lia.
           replace (c - start) with (S (c - S start)) by lia. done.
        -- rewrite decide_False by (intros [_ ?]; lia).
           rewrite decide_False by (intros [_ ?]; lia). done.
    + rewrite decide_False by (intros [? _]; done).
      rewrite decide_False by congruence.
      rewrite decide_False by (intros [? _]; done). done.
Qed.

Lemma write_row_Ok ws row (vs : list scalar) ws' :
  write_row ws (row, vs) = Ok ws' →
  title ws' = title ws ∧ charts ws' = charts ws
  ∧ ∀ k, value_at ws' k =
         if decide (fst k = row ∧ 1 ≤ snd k < 1 + length vs)
         then vs !! (snd k - 1)
         else value_at ws k.
Proof.
  unfold write_row. simpl. intros Hf.
  destruct (row_loop_Ok (fun ws c => ws_cell ws row (fst c) (snd c)) id row)
    with (xs := vs) (ws := ws) (start := 1) (ws' := ws')
    as (Ht & Hch & Hv); [|done|].
  - intros ws0 c ws1 Hc.
    destruct (ws_cell_Ok _ _ _ _ _ Hc) as (? & ? & _ & ?). done.
  - repeat split; try done. intros k. rewrite Hv.
    repeat case_decide; try done; try (exfalso; simpl in *; lia).
    by destruct (vs !! (snd k - 1)).
Qed.

(** The loop of lines 165-167 from row [start]: the cell at a row and a
    column of the table holds the table's value, every other cell is as
    before. *)
Lemma data_rows_Ok (rows : list (list scalar)) ws start ws' :
  foldM write_row ws (enumerate start rows) = Ok ws' →
  title ws' = title ws ∧ charts ws' = charts ws
  ∧ ∀ r c, value_at ws' (r, c) =
           match rows !! (r - start) with
           | Some vs =>
               if decide (start ≤ r ∧ 1 ≤ c < 1 + length vs)
               then vs !! (c - 1)
               else value_at ws (r, c)
           | None => value_at ws (r, c)
           end.
Proof.
  revert ws start. induction rows as [|vs rows IH]; intros ws start Hf;
    simpl in Hf.
  - by simplify_eq.
  - destruct (write_row ws (start, vs)) as [ws1|msg] eqn:Hw; simpl in Hf;
      [|done].
    destruct (write_row_Ok _ _ _ _ Hw) as (Ht & Hch & Hv).
    destruct (IH ws1 (S start) Hf) as (Ht' & Hch' & Hv').
    split; [congruence|]. split; [congruence|].
    intros r c. rewrite Hv'.
    destruct (decide (r = start)) as [->|Hne].
    + replace (start - S start) with 0 by lia. rewrite Nat.sub_diag. simpl.
      assert (value_at ws1 (start, c) =
              if decide (start ≤ start ∧ 1 ≤ c < 1 + length vs)
              then vs !! (c - 1) else value_at ws (start, c)) as Hws1.
      { rewrite Hv. simpl. repeat case_decide; try done; lia. }
      destruct rows as [|vs' rows]; simpl; [done|].
      rewrite decide_False by lia. done.
    + assert (value_at ws1 (r, c) = value_at ws (r, c)) as Hws1.
      { rewrite Hv. simpl. rewrite decide_False; [done|]. intros [? _]. done. }
      destruct (decide (start < r)) as [Hlt|Hge].
      * replace (r - start) with (S (r - S start)) by lia. simpl.
        destruct (rows !! (r - S start)) as [vs'|]; [|done].
        rewrite Hws1. repeat case_decide; try done; lia.
      * replace (r - start) with 0 by lia.
        replace (r - S start) with 0 by lia. simpl.
        rewrite decide_False by lia.
        destruct rows as [|vs' rows]; simpl; [done|].
        rewrite decide_False by lia. done.
Qed.

(** The sheet of lines 156-167: its title, and what each of its cells
    holds. *)
Lemma original_cells_Ok name df ws :
  original_cells name df = Ok ws →
  title ws = "Original_" ++ name ∧ charts ws = []
  ∧ ∀ r c, value_at ws (r, c) =
           match df_values df !! (r - 2) with
           | Some vs =>
               if decide (2 ≤ r ∧ 1 ≤ c < 1 + length vs) then vs !! (c - 1)
               else if decide (r = 1 ∧ 1 ≤ c < 1 + length (df_columns df))
               then Text <$> df_columns df !! (c - 1) else None
           | None =>
               if decide (r = 1 ∧ 1 ≤ c < 1 + length (df_columns df))
               then Text <$> df_columns df !! (c - 1) else None
           end.
Proof.
  unfold original_cells. intros Hf.
  destruct (foldM (header_cell 1) _ _) as [ws1|msg] eqn:Hh; simpl in Hf;
    [|done].
  destruct (row_loop_Ok (header_cell 1) Text 1) with (xs := df_columns df)
    (ws := create_sheet ("Original_" ++ name)) (start := 1) (ws' := ws1)
    as (Ht & Hch & Hv); [|done|].
  { intros ws0 c ws2 Hc.
    destruct (header_cell_Ok _ _ _ _ Hc) as (? & ? & _ & ?). done. }
  destruct (data_rows_Ok _ _ _ _ Hf) as (Ht' & Hch' & Hv').
  split; [by rewrite Ht', Ht|]. split; [by rewrite Hch', Hch|].
  intros r c. rewrite Hv'.
  assert (value_at ws1 (r, c) =
          if decide (r = 1 ∧ 1 ≤ c < 1 + length (df_columns df))
          then Text <$> df_columns df !! (c - 1) else None) as ->.
  { rewrite Hv. simpl. by repeat case_decide. }
  done.
Qed.

Lemma chart_step_frame ws name df :
  title (fst (chart_step ws name df)) = title ws
  ∧ cells (fst (chart_step ws name df)) = cells ws
  ∧ column_widths (fst (chart_step ws name df)) = column_widths ws.
Proof.
  unfold chart_step. destruct (chart_wanted df); [|done].
  by destruct (build_chart _ _ _).
Qed.

Lemma adjust_widths_frame ws :
  title (adjust_widths ws) = title ws
  ∧ cells (adjust_widths ws) = cells ws
  ∧ charts (adjust_widths ws) = charts ws.
Proof.
  unfold adjust_widths. repeat split.
  - by apply (fold_left_preserves title).
  - by apply (fold_left_preserves cells).
  - by apply (fold_left_preserves charts).
Qed.

Lemma summary_row_title acc c acc' :
  summary_row acc c = Ok acc' → title (fst acc') = title (fst acc).
Proof.
  unfold summary_row. intros Hf. cbv zeta in Hf.
  repeat match type of Hf with
         | (_ ≫= _) = Ok _ =>
             let E := fresh "Hcell" in
             apply bind_Ok in Hf as (? & E & Hf);
             apply ws_cell_Ok in E as (E & _)
         end.
  simplify_eq. simpl. congruence.
Qed.

Lemma summary_block_title acc entry acc' :
  summary_block acc entry = Ok acc' → title (fst acc') = title (fst acc).
Proof.
  unfold summary_block. intros Hf. cbv zeta in Hf.
  apply bind_Ok in Hf as (ws1 & H1 & Hf).
  apply bind_Ok in Hf as (ws2 & H2 & Hf).
  apply bind_Ok in Hf as (acc2 & H3 & Hf).
  simplify_eq. simpl.
  apply (foldM_preserves (fun a => title (fst a))) in H3;
    [|apply summary_row_title].
  apply (foldM_preserves title) in H2;
    [|intros ??? Hc; by destruct (header_cell_Ok _ _ _ _ Hc)].
  apply ws_cell_Ok in H1 as (H1 & _).
  simpl in *. congruence.
Qed.

(** The workbook of [build_workbook]: the summary sheet, then one
    "Original_" sheet per retained table in the order of [original_data],
    each as [original_sheet] leaves it, up to column widths. *)
Lemma build_workbook_Ok summary_data original_data wb log :
  build_workbook summary_data original_data = Ok (wb, log) →
  ∃ summary_sheet sheets,
    wb = map adjust_widths (summary_sheet :: sheets)
    ∧ title summary_sheet = "Summary_Statistics"
    ∧ Forall2 (fun e ws => ∃ w, original_sheet (fst e) (snd e) = Ok (ws, w))
              original_data sheets.
Proof.
  unfold build_workbook. intros Hf.
  apply bind_Ok in Hf as (acc & Hs & Hf).
  apply bind_Ok in Hf as (built & Hb & Hf).
  simplify_eq.
  apply (foldM_preserves (fun a => title (fst a))) in Hs;
    [|apply summary_block_title].
  simpl in Hs.
  assert (∀ od (b0 b : Workbook * list string),
            foldM (fun (b : Workbook * list string) e =>
                     o ← original_sheet (fst e) (snd e);
                     Ok ((fst b ++ [fst o])%list, (snd b ++ snd o)%list))
                  b0 od = Ok b →
            ∃ sheets, fst b = (fst b0 ++ sheets)%list
              ∧ Forall2 (fun e ws =>
                           ∃ w, original_sheet (fst e) (snd e) = Ok (ws, w))
                        od sheets) as Hloop.
  { induction od as [|e od IH]; intros b0 b Hf; simpl in Hf.
    - simplify_eq. exists []. by rewrite app_nil_r.
    - destruct (original_sheet (fst e) (snd e)) as [[ws w]|msg] eqn:Ho;
        simpl in Hf; [|done].
      destruct (IH _ _ Hf) as (sheets & Hb1 & Hall). simpl in Hb1.
      exists (ws :: sheets). split.
      + by rewrite Hb1, <- app_assoc.
      + constructor; [by exists w|done]. }
  destruct (Hloop _ _ _ Hb) as (sheets & Hb1 & Hall). simpl in Hb1.
  exists (fst acc), sheets. split; [by f_equal|]. done.
Qed.

Lemma original_sheet_Ok name df ws log :
  original_sheet name df = Ok (ws, log) →
  ∃ ws0, original_cells name df = Ok ws0
         ∧ (ws, log) = chart_step ws0 name df.
Proof.
  unfold original_sheet. intros Hf. apply bind_Ok in Hf as (ws0 & Hc & Hf).
  exists ws0. split; [done|]. by simplify_eq.
Qed.

Lemma build_workbook_titles summary_data original_data wb log :
  build_workbook summary_data original_data = Ok (wb, log) →
  map title wb =
    "Summary_Statistics"
    :: map (String.append "Original_") (PyDict.keys original_data).
Proof.
  intros Hf.
  destruct (build_workbook_Ok _ _ _ _ Hf) as (ss & sheets & -> & Hs & Hall).
  simpl. destruct (adjust_widths_frame ss) as (-> & _). rewrite Hs. f_equal.
  clear Hf. induction Hall as [|e ws od sheets [w Ho] Hall IH]; simpl; [done|].
  rewrite IH. f_equal.
  destruct (original_sheet_Ok _ _ _ _ Ho) as (ws0 & Hc & Hstep).
  destruct (adjust_widths_frame ws) as (-> & _).
  destruct (chart_step_frame ws0 (fst e) (snd e)) as (Ht & _).
  rewrite <- Hstep in Ht. simpl in Ht. rewrite Ht.
  by destruct (original_cells_Ok _ _ _ Hc) as (-> & _).
Qed.

(** The guard of line 171. *)
Lemma chart_wanted_iff df :
  chart_wanted df = true ↔ select_number df ≠ [] ∧ 2 ≤ df_len df.
Proof.
  unfold chart_wanted. rewrite andb_true_iff, !Nat.ltb_lt.
  destruct (select_number df) as [|c cols]; simpl.
  - split; [lia|]. by intros [? _].
  - split; intros [_ ?]; (split; [done || lia|lia]).
Qed.

(** The label of the first column under [number] is found by [get_loc];
    when labels are distinct it is found at the position of that column,
    which no column under [number] precedes. *)
Lemma get_loc_first_numeric df c s rest :
  select_number df = (c, s) :: rest →
  ∃ loc, get_loc (df_columns df) c = Ok loc
    ∧ df_columns df !! loc = Some c
    ∧ (NoDup (df_columns df) →
       df !! loc = Some (c, s)
       ∧ is_number s = true
       ∧ ∀ j c' s', j < loc → df !! j = Some (c', s') → is_number s' = false).
Proof.
  revert c s rest. induction df as [|[c0 s0] df IH]; intros c s rest Hsel.
  - done.
  - rewrite select_number_cons in Hsel. simpl in Hsel.
    destruct (is_number s0) eqn:Hnum.
    + simplify_eq. exists 0. simpl.
      rewrite String.eqb_refl. split; [done|]. split; [done|].
      intros _. split; [done|]. split; [done|]. intros; lia.
    + destruct (IH _ _ _ Hsel) as (loc & Hloc & Hlab & Hnd).
      simpl. destruct (String.eqb_spec c0 c) as [->|Hne].
      * exists 0. split; [done|]. split; [done|].
        intros [Hfresh _]%NoDup_cons. exfalso. apply Hfresh.
        apply list_elem_of_lookup. by exists loc.
      * exists (S loc). rewrite Hloc. simpl. split; [done|]. split; [done|].
        intros [_ Hnd']%NoDup_cons.
        destruct (Hnd Hnd') as (Hat & Hs & Hbefore).
        split; [done|]. split; [done|]. intros [|j] c' s' Hj; simpl.
        -- by intros [= -> ->].
        -- apply Hbefore. lia.
Qed.

End Cells.

(** ** The generated workbook *)

Section Report.
Context {L : Libraries}.
Implicit Types (data : list Byte.byte) (name : string) (df : DataFrame).

(** When the statistics mapping is not empty, a result of
    [process_excel_file] carries the workbook built from the loop state. *)
Lemma process_excel_file_report data fn names r :
  pd_ExcelFile data = Ok names →
  process_excel_file data fn = Ok r →
  summary (results (analyze_sheets data fn names)) ≠ [] →
  ∃ wb log bytes,
    build_workbook (summary (results (analyze_sheets data fn names)))
                   (all_data (analyze_sheets data fn names)) = Ok (wb, log)
    ∧ wb_save wb = Ok bytes
    ∧ r = with_output (results (analyze_sheets data fn names))
                      (b64encode bytes) ("processed_" ++ fn).
Proof.
  unfold process_excel_file. intros -> Hp Hne. simpl in Hp.
  destruct (summary (results (analyze_sheets data fn names))) as [|e d] eqn:Hs;
    [done|].
  simpl in Hp. apply bind_Ok in Hp as (bytes & Hc & Hp).
  unfold create_summary_excel in Hc. apply bind_Ok in Hc as ([wb log] & Hb & Hc).
  exists wb, log, bytes. by simplify_eq.
Qed.

Lemma analyze_all_data_keys data fn names :
  PyDict.keys (all_data (analyze_sheets data fn names)) =
    PyDict.keys (summary (results (analyze_sheets data fn names))).
Proof. unfold analyze_sheets. by apply loop_all_data_keys. Qed.

(** C6.  A workbook whose only sheet is "Sales", read as a table with
    distinct labels that has the numeric column Revenue = 10, 20, 30 and
    no column of durations that holds a value (on which the statistics
    would raise): the statistics of Sales/Revenue are mean 20.0, median
    20.0, std 10.0, min 10.0, max 30.0, count 3, and the workbook that is
    generated and returned has the sheets "Summary_Statistics" and
    "Original_Sales". *)
Theorem C6_sales_scenario data fn df r :
  pd_ExcelFile data = Ok ["Sales"] →
  pd_read_excel data "Sales" = Ok df →
  NoDup (df_columns df) →
  ("Revenue", Numeric [10; 20; 30]%float) ∈ df →
  (∀ c ts, (c, Timedelta64 ts) ∈ df → dropna_timedelta ts = []) →
  process_excel_file data fn = Ok r →
  (∃ stats,
     PyDict.get (summary r) "Sales" = Some stats
     ∧ PyDict.get stats "Revenue" =
         Some {| cs_mean := 20; cs_median := 20; cs_std := PyFloat 10;
                 cs_min := 10; cs_max := 30; cs_count := 3 |})
  ∧ ∃ wb log bytes,
      build_workbook (summary r) [("Sales", df)] = Ok (wb, log)
      ∧ map title wb = ["Summary_Statistics"; "Original_Sales"]
      ∧ wb_save wb = Ok bytes
      ∧ output_file r = Some (b64encode bytes)
      ∧ output_filename r = Some ("processed_" ++ fn).
Proof.
  intros Hnames Hread Hnd Hin Hts Hp.
  assert (select_number df ≠ []) as Hnum.
  { assert (("Revenue", Numeric [10; 20; 30]%float) ∈ select_number df) as Hsel
      by (by apply select_number_elem_of).
    intros Hnil. rewrite Hnil in Hsel. by apply elem_of_nil in Hsel. }
  assert (analyze_sheets data fn ["Sales"] =
          append_processed
            (record_sheet (initial_state fn) "Sales" (sheet_statistics df) df)
            "Sales") as Hst.
  { unfold analyze_sheets. simpl. apply process_sheet_retained.
    apply (retained_Some data "Sales" df (sheet_statistics df)); [done..|].
    by apply statistics_loop_total. }
  destruct (process_excel_file_report data fn _ r Hnames Hp)
    as (wb & log & bytes & Hb & Hsave & ->).
  { by rewrite Hst. }
  rewrite Hst in *. simpl in *. split.
  - exists (sheet_statistics df). split; [done|].
    rewrite (sheet_statistics_get df "Revenue" _ Hnd Hin).
    vm_compute. reflexivity.
  - exists wb, log, bytes. split; [done|]. split; [|done].
    by rewrite (build_workbook_titles _ _ _ _ Hb).
Qed.

(** C7.  In a workbook that [build_workbook] returns, the sheet that
    follows the summary sheet in the position of a retained table is
    titled "Original_{name}"; its row 1 holds the column labels in order
    from column 1, its rows from 2 hold the rows of the table in order,
    each value in the column of its position, and it has no other cell. *)
Theorem C7_original_sheet_round_trip summary_data original_data wb log
    (k : nat) name df :
  build_workbook summary_data original_data = Ok (wb, log) →
  original_data !! k = Some (name, df) →
  ∃ ws,
    wb !! S k = Some ws
    ∧ title ws = "Original_" ++ name
    ∧ (∀ j h, df_columns df !! j = Some h →
              value_at ws (1, j + 1) = Some (Text h))
    ∧ (∀ i vs j v, df_values df !! i = Some vs → vs !! j = Some v →
                   value_at ws (i + 2, j + 1) = Some v)
    ∧ (∀ r c, is_Some (value_at ws (r, c)) →
              (r = 1 ∧ 1 ≤ c ≤ length (df_columns df))
              ∨ (∃ vs, df_values df !! (r - 2) = Some vs
                       ∧ 2 ≤ r ∧ 1 ≤ c ≤ length vs)).
Proof.
  intros Hb Hk.
  destruct (build_workbook_Ok _ _ _ _ Hb) as (ss & sheets & -> & _ & Hall).
  destruct (Forall2_lookup_l _ _ _ _ _ Hall Hk) as (ws & Hws & w & Ho).
  simpl in Ho. exists (adjust_widths ws). split.
  { simpl. by rewrite list_lookup_fmap, Hws. }
  destruct (original_sheet_Ok _ _ _ _ Ho) as (ws0 & Hc & Hstep).
  destruct (adjust_widths_frame ws) as (Ht & Hcells & _).
  destruct (chart_step_frame ws0 name df) as (Ht0 & Hcells0 & _).
  rewrite <- Hstep in Ht0, Hcells0. simpl in Ht0, Hcells0.
  destruct (original_cells_Ok _ _ _ Hc) as (Htitle & _ & Hv).
  assert (∀ p, value_at (adjust_widths ws) p = value_at ws0 p) as Hval.
  { intros p. unfold value_at. by rewrite Hcells, Hcells0. }
  split; [congruence|]. split; [|split].
  - intros j h Hj. rewrite Hval, Hv. simpl.
    assert (j < length (df_columns df)) by (by apply lookup_lt_Some in Hj).
    replace (j + 1 - 1) with j by lia.
    destruct (df_values df !! 0) as [vs|];
      repeat case_decide; try (exfalso; lia); by rewrite Hj.
  - intros i vs j v Hi Hj. rewrite Hval, Hv.
    replace (i + 2 - 2) with i by lia. rewrite Hi.
    assert (j < length vs) by (by apply lookup_lt_Some in Hj).
    rewrite decide_True by lia. by replace (j + 1 - 1) with j by lia.
  - intros r c. rewrite Hval, Hv. intros Hsome.
    destruct (df_values df !! (r - 2)) as [vs|] eqn:Hrow.
    + destruct (decide (2 ≤ r ∧ 1 ≤ c < 1 + length vs)) as [?|_].
      * right. exists vs. split; [done|]. lia.
      * destruct (decide (r = 1 ∧ 1 ≤ c < 1 + length (df_columns df)));
          [left; lia|by destruct Hsome].
    + destruct (decide (r = 1 ∧ 1 ≤ c < 1 + length (df_columns df)));
        [left; lia|by destruct Hsome].
Qed.

(** C8.  On the "Original_" sheet of a table, a chart is attempted (added,
    or its failure logged) exactly when the table has a numeric column (a
    column under [number]) and at least two rows.  The attempt hands
    openpyxl the range of rows 2 to min(20, rows + 1), that is
    min(19, rows) data points, in the column where [get_loc] finds the
    label of the first numeric column, which with distinct labels is the
    first numeric column of the table; a chart that is
    built is anchored at H2, and one that raises leaves a warning only.
    In every case the title and the cells are those of the sheet before
    the chart step. *)
Theorem C8_bar_chart_attempt name df ws log :
  original_sheet name df = Ok (ws, log) →
  (∃ ws0, original_cells name df = Ok ws0
          ∧ cells ws = cells ws0 ∧ title ws = title ws0)
  ∧ (chart_wanted df = true ↔ select_number df ≠ [] ∧ 2 ≤ df_len df)
  ∧ (chart_wanted df = true ↔ charts ws ≠ [] ∨ log ≠ [])
  ∧ (chart_wanted df = true →
     ∃ c loc,
       head (map fst (select_number df)) = Some c
       ∧ get_loc (df_columns df) c = Ok loc
       ∧ df_columns df !! loc = Some c
       ∧ (NoDup (df_columns df) →
          (∃ s, df !! loc = Some (c, s) ∧ is_number s = true)
          ∧ ∀ j c' s', j < loc → df !! j = Some (c', s') →
                       is_number s' = false)
       ∧ let data := {| min_col := loc + 1; min_row := 2;
                        max_row := Nat.min 20 (df_len df + 1) |} in
         max_row data + 1 - min_row data = Nat.min 19 (df_len df)
         ∧ match chart_add_data (new_chart name) data with
           | Ok chart => charts ws = [(chart, "H2")] ∧ log = []
           | Raise e => charts ws = [] ∧ log = [chart_warning name e]
           end).
Proof.
  intros Ho. destruct (original_sheet_Ok _ _ _ _ Ho) as (ws0 & Hc & Hstep).
  destruct (original_cells_Ok _ _ _ Hc) as (_ & Hcharts & _).
  destruct (chart_step_frame ws0 name df) as (Ht0 & Hcells0 & _).
  rewrite <- Hstep in Ht0, Hcells0. simpl in Ht0, Hcells0.
  split; [by exists ws0|]. split; [apply chart_wanted_iff|].
  assert (chart_wanted df = true →
     ∃ c loc,
       head (map fst (select_number df)) = Some c
       ∧ get_loc (df_columns df) c = Ok loc
       ∧ df_columns df !! loc = Some c
       ∧ (NoDup (df_columns df) →
          (∃ s, df !! loc = Some (c, s) ∧ is_number s = true)
          ∧ ∀ j c' s', j < loc → df !! j = Some (c', s') →
                       is_number s' = false)
       ∧ let data := {| min_col := loc + 1; min_row := 2;
                        max_row := Nat.min 20 (df_len df + 1) |} in
         max_row data + 1 - min_row data = Nat.min 19 (df_len df)
         ∧ match chart_add_data (new_chart name) data with
           | Ok chart => charts ws = [(chart, "H2")] ∧ log = []
           | Raise e => charts ws = [] ∧ log = [chart_warning name e]
           end) as Hwanted.
  { intros Hw. pose proof (proj1 (chart_wanted_iff df) Hw) as [Hnum Hlen].
    destruct (select_number df) as [|[c xs] rest] eqn:Hsel; [done|].
    destruct (get_loc_first_numeric df c xs rest Hsel)
      as (loc & Hloc & Hlab & Hnd).
    exists c, loc. split; [done|]. split; [done|]. split; [done|]. split.
    { intros Hd. destruct (Hnd Hd) as (Hat & Hs & Hbefore).
      split; [by exists xs|done]. }
    split; [cbn [max_row min_row]; clear; lia|].
    unfold chart_step in Hstep. rewrite Hw, Hsel in Hstep.
    unfold build_chart in Hstep. simpl in Hstep. rewrite Hloc in Hstep.
    simpl in Hstep.
    destruct (chart_add_data _ _) as [chart|e]; simplify_eq; simpl.
    - by rewrite Hcharts.
    - done. }
  split; [|done]. split.
  - intros Hw. destruct (Hwanted Hw) as (c & loc & _ & _ & _ & _ & _ & Hm).
    destruct (chart_add_data _ _); destruct Hm as [-> ->]; [by left|by right].
  - intros Hattempt. destruct (chart_wanted df) eqn:Hw; [done|].
    unfold chart_step in Hstep. rewrite Hw in Hstep. simplify_eq.
    destruct Hattempt as [?|?]; congruence.
Qed.

Lemma prefix_app (p s : string) : String.prefix p (p ++ s) = true.
Proof.
  induction p as [|a p IH]; simpl; [by destruct s|].
  by destruct (Ascii.ascii_dec a a).
Qed.

Lemma is_infix_app (p a b : string) : is_infix p (a ++ (p ++ b)) = true.
Proof.
  assert (∀ s, is_infix p s = String.prefix p s
                             || match s with
                                | EmptyString => false
                                | String _ s' => is_infix p s'
                                end) as Hunfold by (by intros []).
  induction a as [|x a IH].
  - change (is_infix p (p ++ b) = true). by rewrite Hunfold, prefix_app.
  - change (is_infix p (String x (a ++ (p ++ b))) = true).
    rewrite Hunfold, IH. apply orb_true_r.
Qed.

Lemma is_annotated_error_entry name msg :
  is_annotated (error_entry name msg) = true.
Proof. apply is_infix_app. Qed.

(** C9.  For a workbook whose sheet names do not contain " (ERROR: ", in
    a result of [process_excel_file]: the keys of the statistics mapping
    and the entries of the outcome list without an error annotation are
    the same set; the tables retained for the report have the same keys in
    the same order; and a workbook built from them consists of the summary
    sheet followed by one "Original_" sheet per key, which is the
    workbook returned whenever the mapping is not empty. *)
Theorem C9_summary_processed_originals data fn names r :
  pd_ExcelFile data = Ok names →
  (∀ name, name ∈ names → is_annotated name = false) →
  process_excel_file data fn = Ok r →
  (list_to_set (PyDict.keys (summary r)) : gset string)
    = list_to_set (filter (fun e => is_annotated e = false)
                          (sheets_processed r))
  ∧ PyDict.keys (all_data (analyze_sheets data fn names))
    = PyDict.keys (summary r)
  ∧ (∀ wb log,
       build_workbook (summary r) (all_data (analyze_sheets data fn names))
         = Ok (wb, log) →
       map title wb =
         "Summary_Statistics"
         :: map (String.append "Original_") (PyDict.keys (summary r)))
  ∧ (summary r ≠ [] →
     ∃ wb log bytes,
       build_workbook (summary r) (all_data (analyze_sheets data fn names))
         = Ok (wb, log)
       ∧ wb_save wb = Ok bytes
       ∧ output_file r = Some (b64encode bytes)).
Proof.
  intros Hnames Hplain Hp.
  destruct (process_excel_file_loop data fn r Hp)
    as (names' & Hn' & Hsp & Hsum & _).
  rewrite Hnames in Hn'. injection Hn' as <-.
  split; [|split; [|split]].
  - apply set_eq. intros e.
    rewrite !elem_of_list_to_set, list_elem_of_filter, Hsum, Hsp.
    unfold analyze_sheets.
    rewrite loop_summary_keys, loop_sheets_processed. simpl.
    rewrite list_elem_of_omap. split.
    + intros [Hnil|[Hin Hret]]; [by apply elem_of_nil in Hnil|].
      split; [by apply Hplain|]. exists e. split; [done|].
      apply retained_is_Some in Hret as (df & Hread & Hnum & stats & Hloop).
      by apply (outcome_listed data e df stats).
    + intros [Hplain_e (name & Hin & Hout)]. right.
      unfold outcome in Hout.
      destruct (pd_read_excel data name) as [df|msg] eqn:Hread.
      * destruct (select_number df) eqn:Hsel; [done|].
        destruct (statistics_loop df) as [stats|msg] eqn:Hloop; simplify_eq.
        -- split; [done|]. apply retained_is_Some. exists df.
           split; [done|]. rewrite Hsel. eauto.
        -- by rewrite is_annotated_error_entry in Hplain_e.
      * simplify_eq. by rewrite is_annotated_error_entry in Hplain_e.
  - by rewrite analyze_all_data_keys, Hsum.
  - intros wb log Hb. rewrite (build_workbook_titles _ _ _ _ Hb).
    by rewrite analyze_all_data_keys, Hsum.
  - intros Hne. rewrite Hsum in Hne.
    destruct (process_excel_file_report data fn names r Hnames Hp Hne)
      as (wb & log & bytes & Hb & Hsave & Hr).
    exists wb, log, bytes. rewrite Hsum. split; [done|]. split; [done|].
    by rewrite Hr.
Qed.

(** C10.  For a request with content that decodes to a workbook whose
    statistics mapping is not empty: when building or saving the report
    raises, [process_excel_file] raises the same exception, and [main]
    answers with status 500 and the body {"error": message}, which holds
    neither the statistics nor the outcome list. *)
Theorem C10_report_failure_is_fatal (req_body : RequestBody)
    (content : string) data names msg :
  body_content req_body = Some content →
  content ≠ "" →
  b64decode content = Ok data →
  pd_ExcelFile data = Ok names →
  let filename := default "input.xlsx" (body_filename req_body) in
  let st := analyze_sheets data filename names in
  summary (results st) ≠ [] →
  create_summary_excel (summary (results st)) (all_data st) = Raise msg →
  process_excel_file data filename = Raise msg
  ∧ main (Ok req_body) = {| body := ErrorJson msg; status_code := 500;
                            mimetype := "application/json" |}.
Proof.
  intros Hcontent Hne Hdecode Hnames filename st Hsum Hraise.
  assert (process_excel_file data filename = Raise msg) as Hp.
  { unfold process_excel_file. rewrite Hnames. simpl.
    fold st. destruct (summary (results st)); [done|]. simpl.
    by rewrite Hraise. }
  split; [done|].
  unfold main. simpl. rewrite Hcontent.
  destruct content as [|a content]; [done|].
  rewrite Hdecode. simpl. fold filename. by rewrite Hp.
Qed.

End Report.

(** * The program on concrete workbooks *)

Ltac in_list := repeat first [by left | right].
Ltac run := vm_compute; reflexivity.

Example stats_of_10_20_30 :
  Stats.mean [10; 20; 30]%float = 20%float
  ∧ Stats.std [10; 20; 30]%float = 10%float
  ∧ Stats.median [30; 10; 20]%float = 20%float.
Proof. by vm_compute. Qed.



(** C2, as stated, fails on a workbook whose only sheet holds text: the
    sheet is processed without an exception and the outcome list stays
    empty. *)
Lemma C2_counterexample :
  @pd_ExcelFile Fixture.notes_libs [] = Ok ["Notes"]
  ∧ @pd_read_excel Fixture.notes_libs [] "Notes"
    = Ok [("Comment", Object [Text "ok"; Text "late"])]
  ∧ @try_sheet Fixture.notes_libs [] (initial_state "in.xlsx") "Notes"
    = Ok (initial_state "in.xlsx")
  ∧ ∃ r, @process_excel_file Fixture.notes_libs [] "in.xlsx" = Ok r
         ∧ sheets_processed r = []
         ∧ ¬ "Notes" ∈ sheets_processed r.
Proof.
  split; [run|]. split; [run|]. split; [run|]. eexists. split; [run|].
  split; [done|]. simpl. apply not_elem_of_nil.
Qed.

(** The sheet "Blank" of [Fixture.mixed] has a numeric column and no
    statistics, and is listed. *)
Lemma C2_sheet_listed_when_numeric_witness :
  ∃ r, @process_excel_file Fixture.mixed_libs [] "in.xlsx" = Ok r
       ∧ PyDict.get (summary r) "Blank" = Some []
       ∧ "Blank" ∈ sheets_processed r.
Proof.
  eexists. split; [run|]. split; [run|].
  destruct (C2_sheet_listed_when_numeric (L := Fixture.mixed_libs)
              [] "in.xlsx" ["Notes"; "Bad"; "Blank"; "Data"] "Blank"
              (initial_state "in.xlsx") _ _
              ltac:(run) ltac:(in_list) ltac:(run) ltac:(run))
    as (df & Hread & Hnum & _).
  apply Hnum. vm_compute in Hread. injection Hread as <-.
  vm_compute. discriminate.
Defined.

(** C3, as stated, fails on a workbook whose only numeric column is
    entirely missing: no column has a non-missing value, the sheet has an
    entry (an empty one) in the statistics mapping, and the workbook is
    generated. *)
Lemma C3_counterexample :
  @pd_read_excel Fixture.blank_libs [] "Blank"
    = Ok [("Amount", Numeric [nan; nan]%float)]
  ∧ dropna [nan; nan]%float = []
  ∧ ∃ r, @process_excel_file Fixture.blank_libs [] "in.xlsx" = Ok r
         ∧ summary r = [("Blank", [])]
         ∧ output_file r = Some "UEsDBA=="
         ∧ output_filename r = Some "processed_in.xlsx".
Proof.
  split; [run|]. split; [run|]. eexists. split; [run|]. by vm_compute.
Qed.

(** [Fixture.shifts]: the sheet "Rates" makes the output; the sheet
    "Shifts" has numeric columns with values and no entry, for its
    statistics raise on the column of durations. *)
Lemma C3_output_iff_numeric_column_witness :
  ∃ r, @process_excel_file Fixture.shifts_libs [] "in.xlsx" = Ok r
       ∧ is_Some (output_file r)
       ∧ "Rates" ∈ PyDict.keys (summary r)
       ∧ ¬ "Shifts" ∈ PyDict.keys (summary r).
Proof.
  eexists. split; [run|].
  destruct (C3_output_iff_numeric_column (L := Fixture.shifts_libs)
              [] "in.xlsx" _ ltac:(run)) as (names & Hn & Hkeys & Hfile & _).
  injection Hn as <-.
  assert (∃ df st',
            @pd_read_excel Fixture.shifts_libs [] "Rates" = Ok df
            ∧ select_number df ≠ []
            ∧ @try_sheet Fixture.shifts_libs [] (initial_state "in.xlsx")
                "Rates" = Ok st') as (df & st' & Hread & Hnum & Htry).
  { eexists _, _. split; [run|]. split; [vm_compute; discriminate|run]. }
  split; [|split].
  - apply Hfile. exists "Rates", df, st'. split; [in_list|done].
  - apply Hkeys. split; [in_list|]. by exists df, st'.
  - intros (_ & df' & st'' & _ & _ & Hraise)%Hkeys.
    vm_compute in Hraise. discriminate.
Defined.

(** [Fixture.mixed]: the sheet "Bad" cannot be read.  [Fixture.shifts]:
    the sheet "Shifts" is read, and its statistics raise on the column
    of durations.  Both are annotated and the sheets after them are
    analysed. *)
Lemma C4_failed_sheet_is_annotated_witness :
  ("Bad (ERROR: boom)"
     ∈ sheets_processed
         (results (@analyze_sheets Fixture.mixed_libs [] "in.xlsx"
                     ["Notes"; "Bad"; "Blank"; "Data"]))
   ∧ ¬ "Bad" ∈ PyDict.keys
         (summary (results (@analyze_sheets Fixture.mixed_libs [] "in.xlsx"
                              ["Notes"; "Bad"; "Blank"; "Data"])))
   ∧ "Data" ∈ sheets_processed
         (results (@analyze_sheets Fixture.mixed_libs [] "in.xlsx"
                     ["Notes"; "Bad"; "Blank"; "Data"])))
  ∧ (("Shifts (ERROR: " ++ Fixture.float_refuses ++ ")")
       ∈ sheets_processed
           (results (@analyze_sheets Fixture.shifts_libs [] "in.xlsx"
                       ["Shifts"; "Rates"]))
     ∧ ¬ "Shifts" ∈ PyDict.keys
           (summary (results (@analyze_sheets Fixture.shifts_libs [] "in.xlsx"
                                ["Shifts"; "Rates"])))
     ∧ "Rates" ∈ sheets_processed
           (results (@analyze_sheets Fixture.shifts_libs [] "in.xlsx"
                       ["Shifts"; "Rates"]))).
Proof.
  split.
  - destruct (C4_failed_sheet_is_annotated (L := Fixture.mixed_libs)
                [] "in.xlsx" ["Notes"; "Bad"; "Blank"; "Data"] "Bad" "boom"
                (initial_state "in.xlsx") ltac:(run) ltac:(in_list))
      as (Hentry & Hkey & _ & _ & Hothers & _).
    split; [exact Hentry|]. split; [exact Hkey|].
    destruct (Hothers "Data" (initial_state "in.xlsx") _
                ltac:(in_list) ltac:(run)) as (df & Hread & Hlisted).
    apply Hlisted. vm_compute in Hread. injection Hread as <-.
    vm_compute. discriminate.
  - destruct (C4_failed_sheet_is_annotated (L := Fixture.shifts_libs)
                [] "in.xlsx" ["Shifts"; "Rates"] "Shifts"
                Fixture.float_refuses
                (initial_state "in.xlsx") ltac:(run) ltac:(in_list))
      as (Hentry & Hkey & _ & _ & Hothers & _).
    split; [exact Hentry|]. split; [exact Hkey|].
    destruct (Hothers "Rates" (initial_state "in.xlsx") _
                ltac:(in_list) ltac:(run)) as (df & Hread & Hlisted).
    apply Hlisted. vm_compute in Hread. injection Hread as <-.
    vm_compute. discriminate.
Defined.

Lemma C5_summary_keys_are_processed_witness :
  ∃ r, @process_excel_file Fixture.mixed_libs [] "in.xlsx" = Ok r
       ∧ PyDict.keys (summary r) = ["Blank"; "Data"]
       ∧ "Data" ∈ sheets_processed r
       ∧ ¬ "Bad" ∈ PyDict.keys (summary r).
Proof.
  eexists. split; [run|]. split; [run|].
  destruct (C5_summary_keys_are_processed (L := Fixture.mixed_libs)
              [] "in.xlsx" _ ltac:(run)) as (Hkeys & Herr & _).
  split.
  - apply Hkeys. in_list.
  - apply (Herr "Bad" "boom"). run.
Defined.

Lemma C6_sales_scenario_witness :
  ∃ r, @process_excel_file Fixture.sales_libs [] "sales.xlsx" = Ok r
       ∧ (∃ stats,
            PyDict.get (summary r) "Sales" = Some stats
            ∧ PyDict.get stats "Revenue" =
                Some {| cs_mean := 20; cs_median := 20; cs_std := PyFloat 10;
                        cs_min := 10; cs_max := 30; cs_count := 3 |})
       ∧ ∃ wb log bytes,
           @build_workbook Fixture.sales_libs (summary r)
             [("Sales", [("Revenue", Numeric [10; 20; 30]%float)])]
             = Ok (wb, log)
           ∧ map title wb = ["Summary_Statistics"; "Original_Sales"]
           ∧ @wb_save Fixture.sales_libs wb = Ok bytes
           ∧ output_file r = Some (@b64encode Fixture.sales_libs bytes)
           ∧ output_filename r = Some "processed_sales.xlsx".
Proof.
  eexists. split; [run|].
  apply (C6_sales_scenario (L := Fixture.sales_libs) [] "sales.xlsx"
           [("Revenue", Numeric [10; 20; 30]%float)]).
  - run.
  - run.
  - apply (bool_decide_unpack _). by vm_compute.
  - in_list.
  - intros c ts [[=]|Hin]%elem_of_cons. by apply elem_of_nil in Hin.
  - run.
Defined.

(** The workbook built for [Fixture.sales]: the sheet after the summary
    sheet holds the label in row 1 and the three values below it. *)
Lemma C7_original_sheet_round_trip_witness :
  ∃ wb log ws,
    @build_workbook Fixture.sales_libs
      [("Sales", sheet_statistics [("Revenue", Numeric [10; 20; 30]%float)])]
      [("Sales", [("Revenue", Numeric [10; 20; 30]%float)])] = Ok (wb, log)
    ∧ wb !! 1 = Some ws
    ∧ title ws = "Original_Sales"
    ∧ value_at ws (1, 1) = Some (Text "Revenue")
    ∧ value_at ws (2, 1) = Some (Number 10)
    ∧ value_at ws (3, 1) = Some (Number 20)
    ∧ value_at ws (4, 1) = Some (Number 30).
Proof.
  assert (∃ wb log,
            @build_workbook Fixture.sales_libs
              [("Sales",
                sheet_statistics [("Revenue", Numeric [10; 20; 30]%float)])]
              [("Sales", [("Revenue", Numeric [10; 20; 30]%float)])]
            = Ok (wb, log)) as (wb & log & Hb).
  { eexists _, _. run. }
  destruct (C7_original_sheet_round_trip (L := Fixture.sales_libs)
              _ _ wb log 0 "Sales" [("Revenue", Numeric [10; 20; 30]%float)]
              Hb eq_refl) as (ws & Hws & Ht & Hhead & Hdata & _).
  exists wb, log, ws. split; [exact Hb|]. split; [exact Hws|].
  split; [exact Ht|]. split; [|split; [|split]].
  - apply (Hhead 0 "Revenue"). reflexivity.
  - apply (Hdata 0 [Number 10] 0 (Number 10)); reflexivity.
  - apply (Hdata 1 [Number 20] 0 (Number 20)); reflexivity.
  - apply (Hdata 2 [Number 30] 0 (Number 30)); reflexivity.
Defined.

(** The sheet "Data" of [Fixture.mixed] when openpyxl refuses the chart
    data: the sheet has no chart, one warning is logged, and the cells
    are those of the table. *)
Lemma C8_bar_chart_attempt_witness :
  ∃ ws log,
    @original_sheet Fixture.chartless_libs "Data"
      [("Item", Object [Text "a"; Text "b"; Text "c"]);
       ("Price", Numeric [1; nan; 4]%float);
       ("Qty", Numeric [7; 7; 7]%float)] = Ok (ws, log)
    ∧ charts ws = []
    ∧ log = ["Could not create chart for Data: invalid reference"]
    ∧ ∃ ws0,
        @original_cells Fixture.chartless_libs "Data"
          [("Item", Object [Text "a"; Text "b"; Text "c"]);
           ("Price", Numeric [1; nan; 4]%float);
           ("Qty", Numeric [7; 7; 7]%float)] = Ok ws0
        ∧ cells ws = cells ws0 ∧ title ws = title ws0.
Proof.
  assert (∃ ws log,
            @original_sheet Fixture.chartless_libs "Data"
              [("Item", Object [Text "a"; Text "b"; Text "c"]);
               ("Price", Numeric [1; nan; 4]%float);
               ("Qty", Numeric [7; 7; 7]%float)] = Ok (ws, log))
    as (ws & log & Ho).
  { eexists _, _. run. }
  destruct (C8_bar_chart_attempt (L := Fixture.chartless_libs) _ _ ws log Ho)
    as (Hframe & Hguard & _ & Hwanted).
  destruct Hwanted as (c & loc & _ & _ & _ & _ & _ & Hm).
  { apply Hguard. split; [vm_compute; discriminate|vm_compute; lia]. }
  simpl in Hm. destruct Hm as [Hcharts Hlog].
  exists ws, log. split; [exact Ho|]. split; [exact Hcharts|].
  split; [exact Hlog|]. exact Hframe.
Defined.

Lemma C9_summary_processed_originals_witness :
  ∃ r, @process_excel_file Fixture.mixed_libs [] "in.xlsx" = Ok r
       ∧ sheets_processed r = ["Bad (ERROR: boom)"; "Blank"; "Data"]
       ∧ PyDict.keys (summary r) = ["Blank"; "Data"]
       ∧ (list_to_set (PyDict.keys (summary r)) : gset string)
         = list_to_set (filter (fun e => is_annotated e = false)
                               (sheets_processed r))
       ∧ PyDict.keys
           (all_data (@analyze_sheets Fixture.mixed_libs [] "in.xlsx"
                        ["Notes"; "Bad"; "Blank"; "Data"]))
         = PyDict.keys (summary r).
Proof.
  eexists. split; [run|]. split; [run|]. split; [run|].
  assert (∀ name, name ∈ ["Notes"; "Bad"; "Blank"; "Data"] →
                  is_annotated name = false) as Hplain.
  { intros name Hin.
    repeat (apply elem_of_cons in Hin as [->|Hin]; [reflexivity|]).
    by apply elem_of_nil in Hin. }
  destruct (C9_summary_processed_originals (L := Fixture.mixed_libs)
              [] "in.xlsx" ["Notes"; "Bad"; "Blank"; "Data"] _
              ltac:(run) Hplain ltac:(run))
    as (Hsets & Hkeys & _).
  split; [exact Hsets|exact Hkeys].
Defined.

(** A request for [Fixture.sales] when saving the workbook raises. *)
Lemma C10_report_failure_is_fatal_witness :
  @process_excel_file Fixture.unsaved_libs [] "sales.xlsx"
    = Raise "cannot write the archive"
  ∧ @main Fixture.unsaved_libs
      (Ok {| body_filename := Some "sales.xlsx";
             body_content := Some "UEsDBA==" |})
    = {| body := ErrorJson "cannot write the archive"; status_code := 500;
         mimetype := "application/json" |}.
Proof.
  apply (C10_report_failure_is_fatal (L := Fixture.unsaved_libs)
           {| body_filename := Some "sales.xlsx";
              body_content := Some "UEsDBA==" |}
           "UEsDBA==" [] ["Sales"] "cannot write the archive").
  - reflexivity.
  - discriminate.
  - run.
  - run.
  - vm_compute. discriminate.
  - run.
Defined.

(** * Further properties of the program *)

(** ** The request handler *)

Section Handler.
Context {L : Libraries}.
Implicit Types (data : list Byte.byte) (req_body : RequestBody).

(** X1.  A request body without content, or with empty content, is
    answered with status 400 and the error "No file content provided",
    whatever the libraries would do with it. *)
Theorem X1_missing_content_is_rejected req_body :
  body_content req_body = None ∨ body_content req_body = Some "" →
  main (Ok req_body)
  = {| body := ErrorJson "No file content provided"; status_code := 400;
       mimetype := "application/json" |}.
Proof. unfold main. simpl. by intros [-> | ->]. Qed.

(** X2.  Input that cannot be taken apart is fatal for the request: a body
    that is not JSON, content that is not base64, and bytes that pandas
    cannot open as a workbook are each answered with status 500 and the
    message of the exception, with no outcome list. *)
Theorem X2_unreadable_input_is_fatal req_body (content : string) e :
  body_content req_body = Some content →
  content ≠ "" →
  main (Raise e) = json_response (ErrorJson e) 500
  ∧ (b64decode content = Raise e →
     main (Ok req_body) = json_response (ErrorJson e) 500)
  ∧ (∀ data, b64decode content = Ok data → pd_ExcelFile data = Raise e →
       process_excel_file data
         (default "input.xlsx" (body_filename req_body)) = Raise e
       ∧ main (Ok req_body) = json_response (ErrorJson e) 500).
Proof.
  intros Hcontent Hne. split; [done|].
  assert (∀ k : string → result HttpResponse,
            match content with
            | "" => Ok (json_response (ErrorJson "No file content provided") 400)
            | String _ _ => k content
            end = k content) as Hmatch.
  { intros k. by destruct content. }
  split.
  - intros Hdecode. unfold main. simpl. rewrite Hcontent.
    destruct content as [|a content]; [done|]. by rewrite Hdecode.
  - intros data Hdecode Hopen.
    assert (process_excel_file data
              (default "input.xlsx" (body_filename req_body)) = Raise e) as Hp.
    { unfold process_excel_file. by rewrite Hopen. }
    split; [done|]. unfold main. simpl. rewrite Hcontent.
    destruct content as [|a content]; [done|].
    rewrite Hdecode. simpl. by rewrite Hp.
Qed.

(** X3.  Every response is JSON.  A response that carries a result has
    status 200 and the result is the one [process_excel_file] returned
    for the decoded content under the given name, or "input.xlsx" when
    none is given, and [json.dumps] accepted it; a response that carries
    an error has status 400 or 500. *)
Theorem X3_response_status (get_json : result RequestBody) :
  mimetype (main get_json) = "application/json"
  ∧ match body (main get_json) with
    | ResultJson r =>
        status_code (main get_json) = 200
        ∧ ∃ req_body content data,
            get_json = Ok req_body
            ∧ body_content req_body = Some content
            ∧ b64decode content = Ok data
            ∧ process_excel_file data
                (default "input.xlsx" (body_filename req_body)) = Ok r
            ∧ json_error r = None
    | ErrorJson e =>
        status_code (main get_json) = 400 ∨ status_code (main get_json) = 500
    end.
Proof.
  unfold main. destruct get_json as [req_body|e]; simpl;
    [|split; [done|by right]].
  destruct (body_content req_body) as [content|] eqn:Hcontent;
    [|split; [done|by left]].
  destruct content as [|a content]; [split; [done|by left]|].
  destruct (b64decode (String a content)) as [data|e] eqn:Hdecode; simpl;
    [|split; [done|by right]].
  destruct (process_excel_file data _) as [r|e] eqn:Hp; simpl;
    [|split; [done|by right]].
  destruct (json_error r) as [e|] eqn:Hjson; simpl;
    [split; [done|by right]|].
  split; [done|]. split; [done|]. by exists req_body, (String a content), data.
Qed.

End Handler.

(** ** The result record *)

Section ResultRecord.
Context {L : Libraries}.
Implicit Types (data : list Byte.byte) (st : State) (name : string).

Lemma loop_fixed_fields data names st :
  filename (results (fold_left (process_sheet data) names st))
  = filename (results st)
  ∧ charts_created (results (fold_left (process_sheet data) names st))
    = charts_created (results st).
Proof.
  revert st. induction names as [|name names IH]; intros st; simpl; [done|].
  destruct (IH (process_sheet data st name)) as [-> ->].
  unfold process_sheet.
  destruct (try_sheet data st name) as [st'|msg] eqn:Htry; [|done].
  apply try_sheet_Ok in Htry as (df & _ & [[_ ->]|(_ & stats & _ & ->)]);
    done.
Qed.

(** X4.  A result of [process_excel_file] carries the file name it was
    given and [charts_created = False], also when charts were added to
    the workbook; the two output fields are both absent, or both present
    with the name "processed_{filename}". *)
Theorem X4_result_fields data fn r :
  process_excel_file data fn = Ok r →
  filename r = fn
  ∧ charts_created r = false
  ∧ ((output_file r = None ∧ output_filename r = None)
     ∨ (is_Some (output_file r)
        ∧ output_filename r = Some ("processed_" ++ fn))).
Proof.
  unfold process_excel_file. intros Hp.
  apply bind_Ok in Hp as (names & Hn & Hp).
  destruct (loop_fixed_fields data names (initial_state fn)) as [Hf Hc].
  destruct (loop_output_fields data names (initial_state fn)) as [Ho Hon].
  fold (analyze_sheets data fn names) in Hf, Hc, Ho, Hon. simpl in *.
  destruct (PyDict.truthy _).
  - apply bind_Ok in Hp as (bytes & _ & Hp). simplify_eq. simpl.
    split; [done|]. split; [done|]. right. by split.
  - simplify_eq. split; [done|]. split; [done|]. left. by split.
Qed.

(** X5.  The outcome list follows the order of the sheets in the
    workbook: it holds, sheet by sheet, the name of a sheet that has a
    numeric column and whose statistics raise nothing, the annotated name
    of a sheet whose reading or whose statistics raised, and nothing for
    a sheet read without a numeric column; so it is never longer than the
    list of sheets.  The entry of a sheet is its name exactly when its
    table is retained for the report. *)
Theorem X5_outcome_list_in_workbook_order data fn names r :
  pd_ExcelFile data = Ok names →
  process_excel_file data fn = Ok r →
  sheets_processed r = omap (outcome data) names
  ∧ length (sheets_processed r) ≤ length names
  ∧ (∀ name st,
       outcome data name =
         match try_sheet data st name with
         | Ok st' =>
             if bool_decide (sheets_processed (results st')
                             = sheets_processed (results st))
             then None else Some name
         | Raise msg => Some (name ++ (" (ERROR: " ++ (msg ++ ")")))
         end).
Proof.
  intros Hnames Hp.
  destruct (process_excel_file_loop data fn r Hp) as (names' & Hn' & -> & _).
  rewrite Hnames in Hn'. injection Hn' as <-.
  unfold analyze_sheets. rewrite loop_sheets_processed. simpl.
  split; [done|]. split.
  { clear. induction names as [|name names IH]; [done|].
    change (omap (outcome data) (name :: names))
      with (match outcome data name with
            | Some e => e :: omap (outcome data) names
            | None => omap (outcome data) names
            end).
    destruct (outcome data name); simpl; lia. }
  intros name st.
  destruct (try_sheet data st name) as [st'|msg] eqn:Htry.
  - apply try_sheet_Ok in Htry
      as (df & Hread & [[Hsel ->]|(Hsel & stats & Hloop & ->)]).
    + rewrite bool_decide_eq_true_2 by done.
      unfold outcome. by rewrite Hread, Hsel.
    + rewrite bool_decide_eq_false_2.
      * by apply (outcome_listed data name df stats).
      * simpl. intros Heq. apply (f_equal length) in Heq.
        rewrite length_app in Heq. simpl in Heq. lia.
  - by destruct (outcome_raise data st name msg Htry) as [-> _].
Qed.

(** X6.  When no sheet of the workbook yields a numeric column (each is
    read without one, or raises), [process_excel_file] still returns:
    the statistics mapping is empty, the output fields are absent, and
    the report libraries are not consulted. *)
Theorem X6_no_numeric_column_no_report data fn names :
  pd_ExcelFile data = Ok names →
  (∀ name df, name ∈ names → pd_read_excel data name = Ok df →
              select_number df = []) →
  process_excel_file data fn
  = Ok {| filename := fn;
          sheets_processed := omap (outcome data) names;
          summary := [];
          charts_created := false;
          output_file := None;
          output_filename := None |}.
Proof.
  intros Hnames Hnone. unfold process_excel_file. rewrite Hnames. simpl.
  assert (∀ st,
            (∀ name df, name ∈ names → pd_read_excel data name = Ok df →
                        select_number df = []) →
            fold_left (process_sheet data) names st
            = {| results :=
                   {| filename := filename (results st);
                      sheets_processed :=
                        (sheets_processed (results st)
                         ++ omap (outcome data) names)%list;
                      summary := summary (results st);
                      charts_created := charts_created (results st);
                      output_file := output_file (results st);
                      output_filename := output_filename (results st) |};
                 all_data := all_data st |}) as Hloop.
  { clear. induction names as [|name names IH]; intros st Hnone; simpl.
    - rewrite app_nil_r. by destruct st as [[] ?].
    - rewrite IH by (intros; eapply Hnone; [by right|done]).
      unfold outcome.
      destruct (pd_read_excel data name) as [df|msg] eqn:Hread.
      + rewrite (Hnone name df) by (done || by left). simpl.
        by rewrite (process_sheet_no_numeric _ _ _ _ Hread
                      (Hnone name df ltac:(by left) Hread)).
      + rewrite (process_sheet_error _ _ _ _ Hread). simpl.
        by rewrite <- app_assoc. }
  unfold analyze_sheets. by rewrite (Hloop _ Hnone).
Qed.

(** X7.  Under each key of the statistics mapping lie the statistics of
    the table read for that sheet, and that same table is the one kept
    for the report. *)
Theorem X7_summary_values_from_sheet data fn names r k stats :
  pd_ExcelFile data = Ok names →
  process_excel_file data fn = Ok r →
  PyDict.get (summary r) k = Some stats →
  ∃ df, pd_read_excel data k = Ok df
        ∧ stats = sheet_statistics df
        ∧ PyDict.get (all_data (analyze_sheets data fn names)) k = Some df.
Proof.
  intros Hnames Hp Hget.
  destruct (process_excel_file_loop data fn r Hp)
    as (names' & Hn' & _ & Hsum & _).
  rewrite Hnames in Hn'. injection Hn' as <-.
  rewrite Hsum in Hget. unfold analyze_sheets in *.
  rewrite loop_summary_get in Hget. rewrite loop_all_data_get. simpl in *.
  destruct (retained data k) as [df|] eqn:Hr; [|done].
  case_bool_decide; [|done]. injection Hget as <-.
  exists df. split; [|done]. unfold retained in Hr.
  destruct (pd_read_excel data k) as [df'|]; [|done].
  destruct (select_number df'); [done|].
  destruct (statistics_loop df'); by simplify_eq.
Qed.

End ResultRecord.

(** ** The entries of a sheet's statistics *)

Lemma elem_of_set_inv {V : Type} (d : list (string * V)) (k k' : string)
    (v v' : V) :
  (k', v') ∈ PyDict.set d k v → (k' = k ∧ v' = v) ∨ (k', v') ∈ d.
Proof.
  induction d as [|[k0 v0] d IH]; simpl.
  - intros [[= -> ->]|Hin]%elem_of_cons; [by left|by apply elem_of_nil in Hin].
  - destruct (String.eqb_spec k0 k) as [->|Hne].
    + intros [[= -> ->]|Hin]%elem_of_cons; [by left|].
      right. by right.
    + intros [[= -> ->]|Hin]%elem_of_cons; [right; by left|].
      destruct (IH Hin) as [?|?]; [by left|].
      right. by right.
Qed.

Lemma NoDup_keys_set {V : Type} (d : list (string * V)) (k : string) (v : V) :
  NoDup (PyDict.keys d) → NoDup (PyDict.keys (PyDict.set d k v)).
Proof.
  intros Hnd. destruct (decide (k ∈ PyDict.keys d)) as [Hin|Hout].
  - by rewrite keys_set_present.
  - rewrite keys_set_fresh by done. apply NoDup_app. split; [done|].
    split; [|apply NoDup_singleton].
    intros x Hx [->|Hnil]%elem_of_cons; [done|by apply elem_of_nil in Hnil].
Qed.

Lemma nonempty_ltb {A : Type} (l : list A) : (0 <? length l) = true ↔ l ≠ [].
Proof. rewrite Nat.ltb_lt. destruct l; simpl; split; (done || lia). Qed.

Lemma stats_loop_keys (cols : list (string * list float))
    (acc : list (string * ColumnStats)) (c : string) :
  c ∈ PyDict.keys (fold_left stats_step cols acc)
  ↔ c ∈ PyDict.keys acc ∨ ∃ xs, (c, xs) ∈ cols ∧ dropna xs ≠ [].
Proof.
  revert acc. induction cols as [|[c0 xs0] cols IH]; intros acc; simpl.
  - split; [by left|]. intros [?|(xs & Hin & _)]; [done|].
    by apply elem_of_nil in Hin.
  - rewrite IH. unfold stats_step. simpl.
    destruct (0 <? length (dropna xs0)) eqn:Hlen.
    + apply nonempty_ltb in Hlen. rewrite elem_of_keys_set. split.
      * intros [[->|?]|(xs & Hin & Hne)]; [right|by left|right].
        -- exists xs0. split; [by left|done].
        -- exists xs. split; [by right|done].
      * intros [?|(xs & [[= -> ->]|Hin]%elem_of_cons & Hne)].
        -- left. by right.
        -- left. by left.
        -- right. by exists xs.
    + assert (dropna xs0 = []) as Hnil.
      { destruct (dropna xs0); [done|]. simpl in Hlen. done. }
      split.
      * intros [?|(xs & Hin & Hne)]; [by left|right].
        exists xs. split; [by right|done].
      * intros [?|(xs & [[= -> ->]|Hin]%elem_of_cons & Hne)];
          [by left|done|right; by exists xs].
Qed.

Lemma stats_loop_entries (cols : list (string * list float))
    (acc : list (string * ColumnStats)) (c : string) (st : ColumnStats) :
  (c, st) ∈ fold_left stats_step cols acc →
  (c, st) ∈ acc
  ∨ ∃ xs, (c, xs) ∈ cols ∧ dropna xs ≠ [] ∧ st = column_stats (dropna xs).
Proof.
  revert acc. induction cols as [|[c0 xs0] cols IH]; intros acc; simpl.
  - by left.
  - intros [Hacc|(xs & Hin & Hne & Hst)]%IH.
    + unfold stats_step in Hacc. simpl in Hacc.
      destruct (0 <? length (dropna xs0)) eqn:Hlen; [|by left].
      apply nonempty_ltb in Hlen.
      apply elem_of_set_inv in Hacc as [[-> ->]|?]; [|by left].
      right. exists xs0. split; [by left|done].
    + right. exists xs. split; [by right|done].
Qed.

Lemma stats_loop_NoDup (cols : list (string * list float))
    (acc : list (string * ColumnStats)) :
  NoDup (PyDict.keys acc) → NoDup (PyDict.keys (fold_left stats_step cols acc)).
Proof.
  revert acc. induction cols as [|col cols IH]; intros acc Hnd; simpl; [done|].
  apply IH. unfold stats_step.
  destruct (0 <? length (dropna (snd col))); [|done]. by apply NoDup_keys_set.
Qed.

Section StatisticsEntries.
Context {L : Libraries}.

(** X8.  The statistics of a sheet have one entry per label of a numeric
    column that holds at least one non-missing value, and no other: text,
    boolean and date columns, and numeric columns that are entirely
    missing, have none.  Every entry is computed from the non-missing
    values of such a column, so its count is at least 1.  These are the
    statistics the loop of line 81 leaves, which it does exactly when no
    column of durations holds a value. *)
Theorem X8_sheet_statistics_entries (df : DataFrame) :
  (∀ c, c ∈ PyDict.keys (sheet_statistics df)
        ↔ ∃ xs, (c, Numeric xs) ∈ df ∧ dropna xs ≠ [])
  ∧ (∀ c st, (c, st) ∈ sheet_statistics df →
             1 ≤ cs_count st
             ∧ ∃ xs, (c, Numeric xs) ∈ df ∧ st = column_stats (dropna xs))
  ∧ NoDup (PyDict.keys (sheet_statistics df))
  ∧ (∀ stats, statistics_loop df = Ok stats → stats = sheet_statistics df)
  ∧ ((∃ stats, statistics_loop df = Ok stats)
     ↔ ∀ c ts, (c, Timedelta64 ts) ∈ df → dropna_timedelta ts = []).
Proof.
  split; [|split; [|split; [|split]]].
  - unfold sheet_statistics. intros c. rewrite stats_loop_keys. split.
    + intros [Hnil|(xs & Hin & Hne)]; [by apply elem_of_nil in Hnil|].
      exists xs. by rewrite <- float_columns_elem_of.
    + intros (xs & Hin & Hne). right. exists xs.
      by rewrite float_columns_elem_of.
  - unfold sheet_statistics.
    intros c st [Hnil|(xs & Hin & Hne & ->)]%stats_loop_entries;
      [by apply elem_of_nil in Hnil|].
    split.
    + simpl. destruct (dropna xs); [done|simpl; lia].
    + exists xs. by rewrite <- float_columns_elem_of.
  - apply stats_loop_NoDup. constructor.
  - intros stats Hloop. by destruct (statistics_loop_Ok df stats Hloop).
  - split.
    + intros [stats Hloop]. by destruct (statistics_loop_Ok df stats Hloop).
    + intros Hts. exists (sheet_statistics df). by apply statistics_loop_total.
Qed.

End StatisticsEntries.

(** ** The sheets of the generated workbook *)

Lemma append_inj (p x y : string) : p ++ x = p ++ y → x = y.
Proof.
  induction p as [|a p IH]; [done|].
  change (String a (p ++ x) = String a (p ++ y) → x = y).
  intros [= Heq]. by apply IH.
Qed.

Lemma bind_of_Ok {A B : Type} (c : result A) (a : A) (k : A → result B) :
  c = Ok a → c ≫= k = k a.
Proof. by intros ->. Qed.

Lemma foldM_total {A B : Type} (f : A → B → result A) (l : list B) (a : A) :
  (∀ a x, ∃ a', f a x = Ok a') → ∃ r, foldM f a l = Ok r.
Proof.
  intros Hstep. revert a. induction l as [|x l IH]; intros a; simpl.
  - by exists a.
  - destruct (Hstep a x) as [a' ->]. simpl. apply IH.
Qed.

Section Sheets.
Context {L : Libraries}.
Implicit Types (data : list Byte.byte) (st : State) (name : string).

Lemma loop_keys_NoDup data names st :
  NoDup (PyDict.keys (summary (results st))) →
  NoDup (PyDict.keys
           (summary (results (fold_left (process_sheet data) names st)))).
Proof.
  revert st. induction names as [|name names IH]; intros st Hnd; simpl; [done|].
  apply IH. destruct (retained data name) as [df|] eqn:Hr.
  - rewrite (process_sheet_retained _ _ _ df Hr). simpl.
    by apply NoDup_keys_set.
  - by destruct (process_sheet_not_retained data st name Hr) as [-> _].
Qed.

(** X9.  The statistics mapping has each sheet once, and the workbook
    built from a result has one sheet more than the mapping has keys,
    with pairwise distinct titles: no "Original_" sheet is created twice
    and none takes the title of the summary sheet. *)
Theorem X9_sheet_titles_distinct data fn names r wb log :
  pd_ExcelFile data = Ok names →
  process_excel_file data fn = Ok r →
  build_workbook (summary r) (all_data (analyze_sheets data fn names))
  = Ok (wb, log) →
  NoDup (PyDict.keys (summary r))
  ∧ NoDup (map title wb)
  ∧ length wb = S (length (summary r)).
Proof.
  intros Hnames Hp Hb.
  destruct (process_excel_file_loop data fn r Hp)
    as (names' & Hn' & _ & Hsum & _).
  rewrite Hnames in Hn'. injection Hn' as <-.
  assert (NoDup (PyDict.keys (summary r))) as Hnd.
  { rewrite Hsum. unfold analyze_sheets. apply loop_keys_NoDup. constructor. }
  split; [done|].
  pose proof (build_workbook_titles _ _ _ _ Hb) as Ht.
  rewrite analyze_all_data_keys, <- Hsum in Ht. split.
  - rewrite Ht. apply NoDup_cons. split.
    + intros (k & Heq & _)%list_elem_of_fmap. discriminate Heq.
    + apply NoDup_fmap_2; [|done]. intros x y. apply append_inj.
  - apply (f_equal length) in Ht. rewrite length_map in Ht. rewrite Ht.
    simpl. unfold PyDict.keys. by rewrite !length_map.
Qed.

Lemma ws_cell_accepted ws row column v :
  cell_error v = None → ∃ ws', ws_cell ws row column v = Ok ws'.
Proof. unfold ws_cell. intros ->. eauto. Qed.

Lemma header_cell_accepted row ws h :
  (∀ v, cell_error v = None) → ∃ ws', header_cell row ws h = Ok ws'.
Proof.
  intros Hok. unfold header_cell.
  destruct (ws_cell_accepted ws row (fst h) (Text (snd h)) (Hok _)) as [ws' ->].
  simpl. eauto.
Qed.

Lemma write_row_accepted ws r :
  (∀ v, cell_error v = None) → ∃ ws', write_row ws r = Ok ws'.
Proof.
  intros Hok. unfold write_row. apply foldM_total.
  intros ws0 c. by apply ws_cell_accepted.
Qed.

Lemma summary_row_accepted acc c :
  (∀ v, cell_error v = None) → ∃ acc', summary_row acc c = Ok acc'.
Proof.
  intros Hok. unfold summary_row.
  repeat match goal with
         | |- ∃ _, (ws_cell ?ws ?r ?col ?v ≫= _) = Ok _ =>
             let ws' := fresh "ws" in
             destruct (ws_cell_accepted ws r col v (Hok _)) as [ws' ->]; simpl
         end.
  eauto.
Qed.

Lemma summary_block_accepted acc entry :
  (∀ v, cell_error v = None) → ∃ acc', summary_block acc entry = Ok acc'.
Proof.
  intros Hok. unfold summary_block. cbv zeta.
  destruct (ws_cell_accepted (fst acc) (snd acc) 1
              (Text ("Sheet: " ++ fst entry)) (Hok _)) as [ws1 ->].
  cbn [mbind result_bind].
  destruct (foldM_total (header_cell (snd acc + 2)) (enumerate 1 headers)
              (set_style ws1 (snd acc) 1 None
                 {| font_color := None; font_bold := true;
                    font_size := Some 14 |}))
    as [ws2 Hh].
  { intros ws0 h. by apply header_cell_accepted. }
  rewrite Hh. cbn [mbind result_bind].
  destruct (foldM_total summary_row (snd entry) (ws2, snd acc + 2 + 1))
    as [acc2 Hr].
  { intros a c. by apply summary_row_accepted. }
  rewrite Hr. cbn [mbind result_bind]. eauto.
Qed.

Lemma original_sheet_accepted name df :
  (∀ v, cell_error v = None) → ∃ o, original_sheet name df = Ok o.
Proof.
  intros Hok. unfold original_sheet, original_cells. cbv zeta.
  destruct (foldM_total (header_cell 1) (enumerate 1 (df_columns df))
              (create_sheet ("Original_" ++ name))) as [ws1 Hh].
  { intros ws0 h. by apply header_cell_accepted. }
  rewrite Hh. cbn [mbind result_bind].
  destruct (foldM_total write_row (enumerate 2 (df_values df)) ws1)
    as [ws2 Hd].
  { intros ws0 r. by apply write_row_accepted. }
  rewrite Hd. cbn [mbind result_bind]. eauto.
Qed.

(** The report is built whenever every cell value is stored. *)
Lemma build_workbook_accepted summary_data original_data :
  (∀ v, cell_error v = None) →
  ∃ wb log,
    build_workbook summary_data original_data = Ok (wb, log)
    ∧ length wb = S (length original_data)
    ∧ length log ≤ length original_data
    ∧ create_summary_excel summary_data original_data = wb_save wb.
Proof.
  intros Hok.
  assert (∀ od (b0 : Workbook * list string),
            ∃ b, foldM (fun (b : Workbook * list string) e =>
                          o ← original_sheet (fst e) (snd e);
                          Ok ((fst b ++ [fst o])%list, (snd b ++ snd o)%list))
                       b0 od = Ok b
                 ∧ length (fst b) = length (fst b0) + length od
                 ∧ length (snd b) ≤ length (snd b0) + length od) as Hloop.
  { induction od as [|e od IH]; intros b0; simpl.
    - exists b0. split; [done|]. lia.
    - destruct (original_sheet_accepted (fst e) (snd e) Hok) as [[ws lg] Ho].
      rewrite Ho. cbn [mbind result_bind]. set (o := (ws, lg)).
      destruct (IH ((fst b0 ++ [fst o])%list, (snd b0 ++ snd o)%list))
        as (b & -> & Hwb & Hlog).
      exists b. split; [done|]. simpl in Hwb, Hlog.
      rewrite length_app in Hwb, Hlog. simpl in Hwb.
      assert (length (snd o) ≤ 1) as Hone.
      { destruct (original_sheet_Ok (fst e) (snd e) ws lg Ho)
          as (ws0 & _ & Hstep).
        unfold chart_step in Hstep. simpl.
        destruct (chart_wanted (snd e)); [|simplify_eq; simpl; lia].
        destruct (build_chart _ _ _); simplify_eq; simpl; lia. }
      simpl in Hone. lia. }
  destruct (foldM_total summary_block summary_data
              (create_sheet "Summary_Statistics", 1)) as [acc Hs].
  { intros a e. by apply summary_block_accepted. }
  destruct (Hloop original_data ([fst acc], [])) as (b & Hb & Hwb & Hlog).
  exists (map adjust_widths (fst b)), (snd b).
  assert (build_workbook summary_data original_data
          = Ok (map adjust_widths (fst b), snd b)) as Hbuilt.
  { unfold build_workbook. rewrite (bind_of_Ok _ _ _ Hs).
    by rewrite (bind_of_Ok _ _ _ Hb). }
  split; [done|]. split; [by rewrite length_map, Hwb|].
  split; [exact Hlog|].
  unfold create_summary_excel. by rewrite Hbuilt.
Qed.

(** X10.  When openpyxl stores every value it is given, the workbook is
    always built, whatever the tables hold and whether or not the charts
    can be made: it has one sheet per retained table after the summary
    sheet, at most one warning per table is logged, and the only way the
    report can still fail is saving the workbook. *)
Theorem X10_report_is_built summary_data original_data :
  (∀ v, cell_error v = None) →
  ∃ wb log,
    build_workbook summary_data original_data = Ok (wb, log)
    ∧ length wb = S (length original_data)
    ∧ length log ≤ length original_data
    ∧ create_summary_excel summary_data original_data = wb_save wb.
Proof. apply build_workbook_accepted. Qed.

End Sheets.

(** ** The layout of the summary sheet *)

Section SummarySheet.
Context {L : Libraries}.
Implicit Types (ws : Worksheet) (row : nat)
  (entry : string * list (string * ColumnStats)).

(** A data row of the summary sheet is a row written value by value. *)
Lemma summary_row_as_write_row ws row (c : string * ColumnStats) :
  summary_row (ws, row) c
  = (ws' ← write_row ws (row, summary_values c); Ok (ws', row + 1)).
Proof.
  unfold summary_row, write_row, summary_values. simpl.
  repeat match goal with
         | |- context [ws_cell ?a ?b ?c ?d] =>
             destruct (ws_cell a b c d); simpl; [|reflexivity]
         end.
  reflexivity.
Qed.

Lemma summary_rows_as_data_rows (stats : list (string * ColumnStats)) ws row :
  foldM summary_row (ws, row) stats
  = (ws' ← foldM write_row ws (enumerate row (map summary_values stats));
     Ok (ws', row + length stats)).
Proof.
  revert ws row. induction stats as [|c stats IH]; intros ws row.
  - simpl. by rewrite Nat.add_0_r.
  - change (foldM summary_row (ws, row) (c :: stats))
      with (a ← summary_row (ws, row) c; foldM summary_row a stats).
    change (foldM write_row ws
              (enumerate row (map summary_values (c :: stats))))
      with (a ← write_row ws (row, summary_values c);
            foldM write_row a
              (enumerate (S row) (map summary_values stats))).
    rewrite summary_row_as_write_row.
    destruct (write_row ws (row, summary_values c)) as [ws1|msg];
      cbn [mbind result_bind]; [|done].
    rewrite IH. replace (row + 1) with (S row) by lia.
    destruct (foldM write_row ws1 _) as [ws2|msg];
      cbn [mbind result_bind]; [|done].
    f_equal. f_equal. simpl. lia.
Qed.

Lemma block_cell_rows row entry r c v :
  block_cell row entry (r, c) = Some v →
  row ≤ r < row + 3 + length (snd entry).
Proof.
  unfold block_cell. simpl.
  destruct (decide (r = row ∧ c = 1)) as [[-> ->]|_]; [intros _; lia|].
  destruct (decide (r = row + 2 ∧ 1 ≤ c)) as [[-> _]|_]; [intros _; lia|].
  destruct (decide (row + 3 ≤ r ∧ 1 ≤ c)) as [[Hr _]|_]; [|done].
  intros Hv. apply bind_Some in Hv as (cs & Hcs & _).
  apply lookup_lt_Some in Hcs. lia.
Qed.

(** One block: the row counter it returns, and what every cell of the
    sheet holds afterwards. *)
Lemma summary_block_Ok ws row entry acc' :
  summary_block (ws, row) entry = Ok acc' →
  snd acc' = row + 5 + length (snd entry)
  ∧ title (fst acc') = title ws ∧ charts (fst acc') = charts ws
  ∧ ∀ k, value_at (fst acc') k
         = match block_cell row entry k with
           | Some v => Some v
           | None => value_at ws k
           end.
Proof.
  unfold summary_block. cbv zeta. simpl fst. simpl snd. intros Hf.
  apply bind_Ok in Hf as (ws1 & H1 & Hf).
  apply bind_Ok in Hf as (ws2 & H2 & Hf).
  rewrite summary_rows_as_data_rows in Hf.
  apply bind_Ok in Hf as (acc2 & H3 & Hf).
  apply bind_Ok in H3 as (ws3 & H3 & Hacc2). simplify_eq. simpl.
  apply ws_cell_Ok in H1 as (Ht1 & Hc1 & _ & Hv1).
  destruct (set_style_frame ws1 row 1 None
              {| font_color := None; font_bold := true;
                 font_size := Some 14 |}) as (Ht1' & Hc1' & _ & Hv1').
  destruct (row_loop_Ok (header_cell (row + 2)) Text (row + 2))
    with (xs := headers) (start := 1) (ws' := ws2)
         (ws := set_style ws1 row 1 None
                  {| font_color := None; font_bold := true;
                     font_size := Some 14 |})
    as (Ht2 & Hc2 & Hv2); [|done|].
  { intros ws0 c ws0' Hc.
    destruct (header_cell_Ok _ _ _ _ Hc) as (? & ? & _ & ?). done. }
  destruct (data_rows_Ok _ _ _ _ H3) as (Ht3 & Hc3 & Hv3).
  split; [lia|]. split; [congruence|]. split; [congruence|].
  intros [r c]. rewrite Hv3, Hv2, Hv1', Hv1. unfold block_cell.
  cbn [fst snd]. rewrite list_lookup_fmap.
  assert (∀ x : nat * nat, x = (row, 1) ↔ fst x = row ∧ snd x = 1) as Hpair.
  { intros [a b]. simpl. split; [by intros [= -> ->]|by intros [-> ->]]. }
  destruct (decide (row + 3 ≤ r)) as [Hdata|Hnodata].
  - replace (r - (row + 2 + 1)) with (r - (row + 3)) by lia.
    rewrite (decide_False (P := r = row ∧ c = 1)) by lia.
    rewrite (decide_False (P := r = row + 2 ∧ 1 ≤ c)) by lia.
    rewrite (decide_False (P := r = row + 2 ∧ 1 ≤ c < 1 + length headers))
      by lia.
    rewrite (decide_False (P := (r, c) = (row, 1)))
      by (rewrite Hpair; simpl; lia).
    destruct (snd entry !! (r - (row + 3))) as [cs|] eqn:Hcs;
      cbn [fmap option_fmap option_map mbind option_bind].
    + change (length (summary_values cs)) with 7.
      destruct (decide (1 ≤ c < 1 + 7)) as [Hin|Hout].
      * rewrite decide_True by lia. rewrite decide_True by lia.
        assert (is_Some (summary_values cs !! (c - 1))) as [v Hv].
        { apply lookup_lt_is_Some_2.
          change (length (summary_values cs)) with 7. lia. }
        by rewrite Hv.
      * rewrite decide_False by lia.
        destruct (decide (row + 3 ≤ r ∧ 1 ≤ c)) as [[_ Hc]|_]; [|done].
        rewrite (lookup_ge_None_2 (summary_values cs) (c - 1)); [done|].
        change (length (summary_values cs)) with 7. lia.
    + by destruct (decide (row + 3 ≤ r ∧ 1 ≤ c)).
  - replace (r - (row + 2 + 1)) with 0 by lia.
    rewrite (decide_False (P := row + 3 ≤ r ∧ 1 ≤ c)) by lia.
    assert (match summary_values <$> snd entry !! 0 with
            | Some vs =>
                if decide (row + 2 + 1 ≤ r ∧ 1 ≤ c < 1 + length vs)
                then vs !! (c - 1)
                else if decide (r = row + 2 ∧ 1 ≤ c < 1 + length headers)
                then Text <$> headers !! (c - 1)
                else if decide ((r, c) = (row, 1))
                then Some (Text ("Sheet: " ++ fst entry))
                else value_at ws (r, c)
            | None =>
                if decide (r = row + 2 ∧ 1 ≤ c < 1 + length headers)
                then Text <$> headers !! (c - 1)
                else if decide ((r, c) = (row, 1))
                then Some (Text ("Sheet: " ++ fst entry))
                else value_at ws (r, c)
            end
            = if decide (r = row + 2 ∧ 1 ≤ c < 1 + length headers)
              then Text <$> headers !! (c - 1)
              else if decide ((r, c) = (row, 1))
              then Some (Text ("Sheet: " ++ fst entry))
              else value_at ws (r, c)) as ->.
    { destruct (summary_values <$> snd entry !! 0); [|done].
      by rewrite decide_False by lia. }
    destruct (decide (r = row ∧ c = 1)) as [[-> ->]|Hnt].
    + rewrite decide_False by lia. by rewrite decide_True.
    + rewrite (decide_False (P := (r, c) = (row, 1)))
        by (rewrite Hpair; simpl; lia).
      destruct (decide (r = row + 2 ∧ 1 ≤ c)) as [[-> Hc]|Hnh].
      * destruct (decide (c < 1 + length headers)) as [Hin|Hout].
        -- rewrite decide_True by lia.
           assert (is_Some (headers !! (c - 1))) as [h Hh].
           { apply lookup_lt_is_Some_2. lia. }
           by rewrite Hh.
        -- rewrite decide_False by lia.
           by rewrite (lookup_ge_None_2 headers (c - 1)) by lia.
      * by rewrite decide_False by lia.
Qed.

(** The loop of line 127 from a sheet and a row: every cell a block
    writes is there at the end, every cell that changed was written by a
    block, and the rows above the first block are untouched. *)
Lemma summary_loop_Ok (sd : list (string * list (string * ColumnStats))) :
  ∀ ws row acc',
    foldM summary_block (ws, row) sd = Ok acc' →
    snd acc' = row + block_offset sd (length sd)
    ∧ title (fst acc') = title ws ∧ charts (fst acc') = charts ws
    ∧ (∀ k entry p v,
         sd !! k = Some entry →
         block_cell (row + block_offset sd k) entry p = Some v →
         value_at (fst acc') p = Some v)
    ∧ (∀ p, value_at (fst acc') p = value_at ws p
            ∨ ∃ k entry,
                sd !! k = Some entry
                ∧ block_cell (row + block_offset sd k) entry p
                  = value_at (fst acc') p
                ∧ is_Some (value_at (fst acc') p))
    ∧ (∀ r c, r < row → value_at (fst acc') (r, c) = value_at ws (r, c)).
Proof.
  induction sd as [|e rest IH]; intros ws row acc' Hf.
  - simpl in Hf. simplify_eq. simpl. split; [lia|].
    split; [done|]. split; [done|]. split; [done|]. split; [by left|done].
  - change (foldM summary_block (ws, row) (e :: rest))
      with (a ← summary_block (ws, row) e; foldM summary_block a rest) in Hf.
    apply bind_Ok in Hf as ([ws1 row1] & H1 & Hf).
    destruct (summary_block_Ok _ _ _ _ H1) as (Hrow1 & Ht1 & Hc1 & Hv1).
    simpl in Hrow1, Ht1, Hc1, Hv1.
    destruct (IH ws1 row1 acc' Hf) as (Hrow & Ht & Hc & Hin & Hex & Hframe).
    split; [simpl; lia|]. split; [congruence|]. split; [congruence|].
    split; [|split].
    + intros [|k] entry [r c] v Hk Hb; simpl in Hk, Hb.
      * simplify_eq. rewrite Nat.add_0_r in Hb.
        pose proof (block_cell_rows _ _ _ _ _ Hb) as Hr.
        rewrite Hframe by lia. by rewrite Hv1, Hb.
      * apply (Hin k entry); [done|].
        by replace (row1 + block_offset rest k)
             with (row + (5 + length (snd e) + block_offset rest k)) by lia.
    + intros p. destruct (Hex p) as [Heq|(k & entry & Hk & Hb & Hs)].
      * rewrite Heq, Hv1.
        destruct (block_cell row e p) as [v|] eqn:Hb; [|by left].
        right. exists 0, e. simpl. rewrite Nat.add_0_r.
        split; [done|]. split; [done|]. by eexists.
      * right. exists (S k), entry. split; [done|]. split; [|done].
        rewrite <- Hb. f_equal. simpl. lia.
    + intros r c Hr. rewrite Hframe by lia. rewrite Hv1.
      destruct (block_cell row e (r, c)) as [v|] eqn:Hb; [|done].
      apply block_cell_rows in Hb. lia.
Qed.

Lemma block_offset_mono (sd : list (string * list (string * ColumnStats)))
    (k k' : nat) entry :
  sd !! k = Some entry → k < k' →
  block_offset sd k + 5 + length (snd entry) ≤ block_offset sd k'.
Proof.
  revert k k'. induction sd as [|e rest IH]; intros k k' Hk Hlt; [done|].
  destruct k' as [|k']; [lia|]. destruct k as [|k]; simpl in *.
  - simplify_eq. lia.
  - pose proof (IH k k' Hk ltac:(lia)). lia.
Qed.

Lemma build_workbook_summary summary_data original_data wb log :
  build_workbook summary_data original_data = Ok (wb, log) →
  ∃ acc, foldM summary_block (create_sheet "Summary_Statistics", 1)
               summary_data = Ok acc
         ∧ wb !! 0 = Some (adjust_widths (fst acc)).
Proof.
  unfold build_workbook. intros Hf.
  apply bind_Ok in Hf as (acc & Hs & Hf).
  apply bind_Ok in Hf as (built & Hb & Hf). simplify_eq.
  exists acc. split; [done|].
  assert (∀ od (b0 b : Workbook * list string),
            foldM (fun (b : Workbook * list string) e =>
                     o ← original_sheet (fst e) (snd e);
                     Ok ((fst b ++ [fst o])%list, (snd b ++ snd o)%list))
                  b0 od = Ok b →
            ∃ sheets, fst b = (fst b0 ++ sheets)%list) as Hloop.
  { induction od as [|e od IH]; intros b0 b Hf; simpl in Hf.
    - simplify_eq. exists []. by rewrite app_nil_r.
    - apply bind_Ok in Hf as (b1 & H1 & Hf).
      apply bind_Ok in H1 as (o & _ & H1). simplify_eq.
      destruct (IH _ _ Hf) as (sheets & ->). simpl.
      exists (fst o :: sheets). by rewrite <- app_assoc. }
  destruct (Hloop _ _ _ Hb) as (sheets & Hsheets).
  destruct built as [sheets' log']. simpl in *. by subst.
Qed.

(** X11.  The first sheet of a workbook that is built is the summary
    sheet, without a chart.  The block of the k-th analysed sheet starts
    at row 1 + 5 per earlier block + 1 per column of the earlier blocks;
    it has the title "Sheet: {name}" in column 1, a blank row, the seven
    headers, one row per column with its label, the rounded statistics and
    the count, and two blank rows.  The sheet has no other cell. *)
Theorem X11_summary_sheet_layout summary_data original_data wb log :
  build_workbook summary_data original_data = Ok (wb, log) →
  ∃ ss,
    wb !! 0 = Some ss
    ∧ title ss = "Summary_Statistics" ∧ charts ss = []
    ∧ (∀ p v, value_at ss p = Some v →
              ∃ k entry, summary_data !! k = Some entry
                ∧ block_cell (1 + block_offset summary_data k) entry p
                  = Some v)
    ∧ (∀ k name stats,
         summary_data !! k = Some (name, stats) →
         let row := 1 + block_offset summary_data k in
         value_at ss (row, 1) = Some (Text ("Sheet: " ++ name))
         ∧ (∀ c, value_at ss (row + 1, c) = None)
         ∧ (∀ j h, headers !! j = Some h →
                   value_at ss (row + 2, j + 1) = Some (Text h))
         ∧ (∀ i c j v, stats !! i = Some c → summary_values c !! j = Some v →
                       value_at ss (row + 3 + i, j + 1) = Some v)
         ∧ (∀ c, value_at ss (row + 3 + length stats, c) = None
                 ∧ value_at ss (row + 4 + length stats, c) = None)).
Proof.
  intros Hb. destruct (build_workbook_summary _ _ _ _ Hb) as (acc & Hs & Hwb).
  destruct (summary_loop_Ok _ _ _ _ Hs) as (_ & Ht & Hc & Hin & Hex & _).
  destruct (adjust_widths_frame (fst acc)) as (Hta & Hca & Hcha).
  assert (∀ p, value_at (adjust_widths (fst acc)) p = value_at (fst acc) p)
    as Hval.
  { intros p. unfold value_at. by rewrite Hca. }
  assert (∀ p v, value_at (fst acc) p = Some v →
            ∃ k entry, summary_data !! k = Some entry
              ∧ block_cell (1 + block_offset summary_data k) entry p = Some v)
    as Hexact.
  { intros p v Hv. destruct (Hex p) as [Heq|(k & entry & Hk & Hbc & _)].
    - rewrite Hv in Heq. unfold value_at in Heq. simpl in Heq.
      by rewrite lookup_empty in Heq.
    - exists k, entry. by rewrite Hbc. }
  assert (∀ k name stats r c,
            summary_data !! k = Some (name, stats) →
            block_cell (1 + block_offset summary_data k) (name, stats) (r, c)
            = None →
            1 + block_offset summary_data k ≤ r
              < 1 + block_offset summary_data k + 5 + length stats →
            value_at (fst acc) (r, c) = None) as Hblank.
  { intros k name stats r c Hk Hnone Hr.
    destruct (value_at (fst acc) (r, c)) as [v|] eqn:Hv; [|done].
    destruct (Hexact _ _ Hv) as (k' & entry' & Hk' & Hbc').
    pose proof (block_cell_rows _ _ _ _ _ Hbc') as Hr'.
    destruct (Nat.lt_trichotomy k k') as [Hlt|[->|Hgt]].
    - pose proof (block_offset_mono _ _ _ _ Hk Hlt) as Hm. simpl in Hm. lia.
    - rewrite Hk in Hk'. by simplify_eq.
    - pose proof (block_offset_mono _ _ _ _ Hk' Hgt) as Hm. lia. }
  exists (adjust_widths (fst acc)). split; [done|].
  split; [by rewrite Hta, Ht|]. split; [by rewrite Hcha, Hc|].
  split; [intros p v; rewrite Hval; apply Hexact|].
  intros k name stats Hk row. split; [|split; [|split; [|split]]].
  - rewrite Hval. apply (Hin k (name, stats)); [done|].
    unfold block_cell. simpl. by rewrite decide_True.
  - intros c. rewrite Hval. apply (Hblank k name stats); [done| |lia].
    unfold block_cell. simpl. fold row.
    rewrite decide_False by lia. rewrite decide_False by lia.
    by rewrite decide_False by lia.
  - intros j h Hj. rewrite Hval. apply (Hin k (name, stats)); [done|].
    unfold block_cell. simpl. fold row.
    rewrite decide_False by lia. rewrite decide_True by lia.
    replace (j + 1 - 1) with j by lia. by rewrite Hj.
  - intros i c j v Hi Hj. rewrite Hval. apply (Hin k (name, stats)); [done|].
    unfold block_cell. cbn [fst snd]. fold row.
    rewrite decide_False by lia. rewrite decide_False by lia.
    rewrite decide_True by lia.
    replace (row + 3 + i - (row + 3)) with i by lia. rewrite Hi.
    replace (j + 1 - 1) with j by lia. done.
  - intros c. split.
    + rewrite Hval. apply (Hblank k name stats); [done| |lia].
      unfold block_cell. cbn [fst snd]. fold row.
      rewrite decide_False by lia. rewrite decide_False by lia.
      case_decide; [|done].
      replace (row + 3 + length stats - (row + 3)) with (length stats) by lia.
      by rewrite (lookup_ge_None_2 stats (length stats)) by lia.
    + rewrite Hval. apply (Hblank k name stats); [done| |lia].
      unfold block_cell. cbn [fst snd]. fold row.
      rewrite decide_False by lia. rewrite decide_False by lia.
      case_decide; [|done].
      rewrite (lookup_ge_None_2 stats (row + 4 + length stats - (row + 3)))
        by lia.
      done.
Qed.

End SummarySheet.

(** ** Cell styles and column widths *)

Lemma foldM_inv {A B : Type} (P : A → Prop) (f : A → B → result A)
    (l : list B) (a r : A) :
  (∀ a x a', x ∈ l → P a → f a x = Ok a' → P a') →
  P a → foldM f a l = Ok r → P r.
Proof.
  revert a. induction l as [|x l IH]; intros a Hstep Ha Hf; simpl in Hf.
  - by simplify_eq.
  - apply bind_Ok in Hf as (a' & Hfa & Hf).
    apply (IH a'); [|by apply (Hstep a x); [left|..]|done].
    intros a0 y a0' Hy. apply Hstep. by right.
Qed.

Lemma enumerate_ge {A : Type} (l : list A) (start i : nat) (x : A) :
  (i, x) ∈ enumerate start l → start ≤ i.
Proof.
  revert start. induction l as [|y l IH]; intros start; simpl.
  - intros Hin. by apply elem_of_nil in Hin.
  - intros [[= -> ->]|Hin]%elem_of_cons; [lia|].
    apply IH in Hin. lia.
Qed.

Section Styles.
Context {L : Libraries}.
Implicit Types (ws : Worksheet) (k : nat * nat).

Lemma ws_cell_cells ws row column v ws' :
  ws_cell ws row column v = Ok ws' →
  cells ws'
  = <[(row, column) := with_value v (cells ws !! (row, column))]> (cells ws).
Proof. unfold ws_cell. destruct (cell_error v); [done|]. by intros [= <-]. Qed.

(** A header cell holds the label with the header fill and font, whatever
    the cell held before. *)
Lemma header_cell_cells row ws h ws' :
  header_cell row ws h = Ok ws' →
  ∀ k, cells ws' !! k
       = if decide (k = (row, fst h))
         then Some {| value := Text (snd h); fill := Some header_fill;
                      font := Some header_font |}
         else cells ws !! k.
Proof.
  unfold header_cell. intros Hf. apply bind_Ok in Hf as (ws1 & Hc & Hf).
  apply ws_cell_cells in Hc. simplify_eq. intros k. simpl. rewrite Hc.
  rewrite lookup_alter. case_decide as Hk.
  - subst k. rewrite decide_True by done. rewrite lookup_insert_eq. simpl.
    by destruct (cells ws !! (row, fst h)).
  - rewrite decide_False by done. by rewrite lookup_insert_ne.
Qed.

Lemma header_row_cells (labels : list string) ws row start ws' :
  foldM (header_cell row) ws (enumerate start labels) = Ok ws' →
  ∀ k, cells ws' !! k
       = if decide (fst k = row ∧ start ≤ snd k < start + length labels)
         then (fun h => {| value := Text h; fill := Some header_fill;
                           font := Some header_font |})
              <$> labels !! (snd k - start)
         else cells ws !! k.
Proof.
  revert ws start. induction labels as [|h labels IH]; intros ws start Hf;
    simpl in Hf.
  - simplify_eq. intros k. rewrite decide_False; [done|]. simpl. lia.
  - apply bind_Ok in Hf as (ws1 & Hc & Hf).
    pose proof (header_cell_cells _ _ _ _ Hc) as Hv. simpl in Hv.
    intros [r c]. rewrite (IH ws1 (S start) Hf), Hv. simpl.
    destruct (decide (r = row ∧ c = start)) as [[-> ->]|Hne].
    + rewrite decide_False by lia. rewrite decide_True by done.
      rewrite decide_True by lia. by rewrite Nat.sub_diag.
    + rewrite (decide_False (P := (r, c) = (row, start)))
        by (intros [= -> ->]; by apply Hne).
      destruct (decide (r = row ∧ S start ≤ c < S start + length labels))
        as [Hin|Hout].
      * repeat (rewrite decide_True by lia).
        replace (c - start) with (S (c - S start)) by lia. by simpl.
      * repeat (rewrite decide_False by lia). done.
Qed.

(** Writing a row changes no cell of another row and styles no cell. *)
Lemma write_row_cells ws row (vs : list scalar) ws' :
  write_row ws (row, vs) = Ok ws' →
  (∀ k, fst k ≠ row → cells ws' !! k = cells ws !! k)
  ∧ ((∀ k c, cells ws !! k = Some c → fst k ≠ 1 →
             fill c = None ∧ font c = None) →
     ∀ k c, cells ws' !! k = Some c → fst k ≠ 1 →
            fill c = None ∧ font c = None).
Proof.
  unfold write_row. simpl. intros Hf. split.
  - intros k Hk.
    apply (foldM_inv (fun w => cells w !! k = cells ws !! k)) in Hf; [done| |done].
    intros w x w' _ Hw Hc. apply ws_cell_cells in Hc. rewrite Hc.
    rewrite lookup_insert_ne; [done|]. intros <-. by apply Hk.
  - intros Hplain.
    refine (foldM_inv (fun w => ∀ k c, cells w !! k = Some c → fst k ≠ 1 →
                                       fill c = None ∧ font c = None)
              _ _ _ _ _ Hplain Hf).
    intros w x w' _ Hw Hc k c. apply ws_cell_cells in Hc. rewrite Hc.
    destruct (decide (k = (row, fst x))) as [->|Hne].
    + rewrite lookup_insert_eq. intros [= <-] Hrow.
      destruct (cells w !! (row, fst x)) as [c0|] eqn:Hold; simpl; [|done].
      by apply (Hw (row, fst x) c0).
    + rewrite lookup_insert_ne by done. apply Hw.
Qed.

Lemma data_rows_cells (rows : list (list scalar)) ws start ws' :
  foldM write_row ws (enumerate start rows) = Ok ws' →
  (∀ k, fst k < start → cells ws' !! k = cells ws !! k)
  ∧ ((∀ k c, cells ws !! k = Some c → fst k ≠ 1 →
             fill c = None ∧ font c = None) →
     ∀ k c, cells ws' !! k = Some c → fst k ≠ 1 →
            fill c = None ∧ font c = None).
Proof.
  intros Hf. split.
  - intros k Hk.
    apply (foldM_inv (fun w => cells w !! k = cells ws !! k)) in Hf; [done| |done].
    intros w [r vs] w' Hin Hw Hc. apply enumerate_ge in Hin.
    destruct (write_row_cells _ _ _ _ Hc) as [Hother _].
    rewrite Hother; [done|]. lia.
  - intros Hplain.
    refine (foldM_inv (fun w => ∀ k c, cells w !! k = Some c → fst k ≠ 1 →
                                       fill c = None ∧ font c = None)
              _ _ _ _ _ Hplain Hf).
    intros w [r vs] w' _ Hw Hc.
    by destruct (write_row_cells _ _ _ _ Hc) as [_ Hkeep]; apply Hkeep.
Qed.

(** X12.  On the "Original_" sheet of a retained table, in a workbook
    that is built, every cell of the header row has the fill 366092 and
    the white bold font, and every cell of a data row holds its value
    without fill or font. *)
Theorem X12_original_sheet_styles summary_data original_data wb log
    (n : nat) name (df : DataFrame) :
  build_workbook summary_data original_data = Ok (wb, log) →
  original_data !! n = Some (name, df) →
  ∃ ws,
    wb !! S n = Some ws
    ∧ (∀ j h, df_columns df !! j = Some h →
              cells ws !! (1, j + 1)
              = Some {| value := Text h; fill := Some "366092";
                        font := Some {| font_color := Some "FFFFFF";
                                        font_bold := true;
                                        font_size := None |} |})
    ∧ (∀ i vs j v, df_values df !! i = Some vs → vs !! j = Some v →
                   cells ws !! (i + 2, j + 1)
                   = Some {| value := v; fill := None; font := None |}).
Proof.
  intros Hb Hn.
  destruct (build_workbook_Ok _ _ _ _ Hb) as (ss & sheets & -> & _ & Hall).
  destruct (Forall2_lookup_l _ _ _ _ _ Hall Hn) as (ws & Hws & w & Ho).
  simpl in Ho. exists (adjust_widths ws). split.
  { simpl. by rewrite list_lookup_fmap, Hws. }
  destruct (original_sheet_Ok _ _ _ _ Ho) as (ws0 & Hc & Hstep).
  destruct (adjust_widths_frame ws) as (_ & -> & _).
  destruct (chart_step_frame ws0 name df) as (_ & Hcells0 & _).
  rewrite <- Hstep in Hcells0. simpl in Hcells0. rewrite Hcells0.
  pose proof (original_cells_Ok _ _ _ Hc) as (_ & _ & Hval).
  unfold original_cells in Hc. cbv zeta in Hc.
  apply bind_Ok in Hc as (ws1 & Hh & Hd).
  pose proof (header_row_cells _ _ _ _ _ Hh) as Hhead.
  destruct (data_rows_cells _ _ _ _ Hd) as [Hframe Hplain].
  split.
  - intros j h Hj. rewrite Hframe by (simpl; lia). rewrite Hhead. simpl.
    assert (j < length (df_columns df)) by (by apply lookup_lt_Some in Hj).
    rewrite decide_True by lia.
    replace (j + 1 - 1) with j by lia. by rewrite Hj.
  - intros i vs j v Hi Hj.
    assert (value_at ws0 (i + 2, j + 1) = Some v) as Hv.
    { rewrite Hval. replace (i + 2 - 2) with i by lia. rewrite Hi.
      assert (j < length vs) by (by apply lookup_lt_Some in Hj).
      rewrite decide_True by lia.
      by replace (j + 1 - 1) with j by lia. }
    unfold value_at in Hv.
    destruct (cells ws0 !! (i + 2, j + 1)) as [c|] eqn:Hcell; [|done].
    simpl in Hv. injection Hv as Hv.
    destruct (Hplain ltac:(
      intros k c0; rewrite Hhead; case_decide as Hk;
        [intros _ Hne; simpl in *; lia
        |simpl; by rewrite lookup_empty]) (i + 2, j + 1) c Hcell
      ltac:(simpl; lia)) as [Hfill Hfont].
    destruct c as [v0 f0 fn0]. simpl in *. by subst.
Qed.

Lemma fold_max_ge {A : Type} (g : A → nat) (rows : list A) (m0 : nat) :
  m0 ≤ fold_left (fun m r => let l := g r in if m <? l then l else m) rows m0
  ∧ ∀ r, r ∈ rows →
         g r ≤ fold_left (fun m r => let l := g r in if m <? l then l else m)
                         rows m0.
Proof.
  revert m0. induction rows as [|r0 rows IH]; intros m0; simpl.
  - split; [done|]. intros r Hr. by apply elem_of_nil in Hr.
  - destruct (IH (if m0 <? g r0 then g r0 else m0)) as [Hge Hall].
    assert (m0 ≤ (if m0 <? g r0 then g r0 else m0)
            ∧ g r0 ≤ (if m0 <? g r0 then g r0 else m0)) as [H1 H2].
    { destruct (Nat.ltb_spec m0 (g r0)); lia. }
    split; [exact (Nat.le_trans _ _ _ H1 Hge)|].
    intros r [->|Hr]%elem_of_cons;
      [exact (Nat.le_trans _ _ _ H2 Hge)|by apply Hall].
Qed.

Lemma bounding_box ws r c cell :
  cells ws !! (r, c) = Some cell →
  r ≤ max_row_of ws ∧ c ≤ max_column_of ws.
Proof.
  unfold max_row_of, max_column_of. intros Hcell. split.
  - revert r c cell Hcell.
    apply (map_fold_weak_ind
             (fun b (m : gmap (nat * nat) Cell) =>
                ∀ r c cell, m !! (r, c) = Some cell → r ≤ b)).
    + intros r c cell. by rewrite lookup_empty.
    + intros i x m b _ IH r c cell.
      destruct (decide (i = (r, c))) as [->|Hne].
      * intros _. simpl. lia.
      * rewrite lookup_insert_ne by done. intros Hm.
        pose proof (IH r c cell Hm). lia.
  - revert r c cell Hcell.
    apply (map_fold_weak_ind
             (fun b (m : gmap (nat * nat) Cell) =>
                ∀ r c cell, m !! (r, c) = Some cell → c ≤ b)).
    + intros r c cell. by rewrite lookup_empty.
    + intros i x m b _ IH r c cell.
      destruct (decide (i = (r, c))) as [->|Hne].
      * intros _. simpl. lia.
      * rewrite lookup_insert_ne by done. intros Hm.
        pose proof (IH r c cell Hm). lia.
Qed.

(** X13.  After the width pass every column that has a cell (rows and
    columns counted from 1) has a width, between 2 and 50, and unless the
    width is the cap of 50 it leaves 2 beyond the text of each cell of
    the column. *)
Theorem X13_column_widths ws r c cell :
  cells ws !! (r, c) = Some cell →
  1 ≤ r → 1 ≤ c →
  ∃ w, column_widths (adjust_widths ws) !! c = Some w
       ∧ 2 ≤ w ≤ 50
       ∧ (w = 50 ∨ str_len (value cell) + 2 ≤ w).
Proof.
  intros Hcell Hr Hc. destruct (bounding_box _ _ _ _ Hcell) as [Hrow Hcol].
  pose (max_length := fun column =>
         fold_left (fun m r => let l := str_len (cell_value ws r column) in
                               if m <? l then l else m)
                   (seq 1 (max_row_of ws)) 0).
  assert (∀ columns sh,
            column_widths
              (fold_left
                 (fun sh column =>
                    {| title := title sh; cells := cells sh;
                       charts := charts sh;
                       column_widths :=
                         <[column := Nat.min (max_length column + 2) 50]>
                           (column_widths sh) |}) columns sh) !! c
            = if decide (c ∈ columns)
              then Some (Nat.min (max_length c + 2) 50)
              else column_widths sh !! c) as Hfold.
  { induction columns as [|c0 columns IH]; intros sh; cbn [fold_left].
    - destruct (decide (c ∈ [])) as [Hin|_]; [|done].
      by apply elem_of_nil in Hin.
    - rewrite IH. cbn [column_widths].
      destruct (decide (c ∈ columns)) as [Hin|Hout];
        destruct (decide (c ∈ c0 :: columns)) as [Hin'|Hout']; try done.
      + exfalso. apply Hout'. by right.
      + apply elem_of_cons in Hin' as [->|?]; [|done].
        by rewrite lookup_insert_eq.
      + rewrite lookup_insert_ne; [done|]. intros ->. apply Hout'. by left. }
  exists (Nat.min (max_length c + 2) 50). split.
  - change (column_widths
              (fold_left
                 (fun sh column =>
                    {| title := title sh; cells := cells sh;
                       charts := charts sh;
                       column_widths :=
                         <[column := Nat.min (max_length column + 2) 50]>
                           (column_widths sh) |})
                 (seq 1 (max_column_of ws)) ws) !! c
            = Some (Nat.min (max_length c + 2) 50)).
    rewrite (Hfold (seq 1 (max_column_of ws)) ws).
    rewrite decide_True; [done|]. apply elem_of_seq. lia.
  - split; [lia|].
    destruct (fold_max_ge (fun r => str_len (cell_value ws r c))
                (seq 1 (max_row_of ws)) 0) as [_ Hall].
    assert (str_len (value cell) ≤ max_length c) as Hlen.
    { unfold max_length.
      replace (value cell) with (cell_value ws r c)
        by (unfold cell_value; by rewrite Hcell).
      apply (Hall r). apply elem_of_seq. lia. }
    lia.
Qed.

End Styles.

(** ** Failures after the read *)

Section Robustness.
Context {L : Libraries}.
Implicit Types (data : list Byte.byte) (st : State) (name : string).

(** X15.  The last step of a request is [json.dumps(result)], inside the
    [try] of [main]: a result it refuses is fatal for the request, which
    is answered with status 500 and the message only, and a result it
    accepts is answered with status 200. *)
Theorem X15_unserialisable_result_is_fatal
    (req_body : RequestBody) (content : string) data r :
  body_content req_body = Some content →
  content ≠ "" →
  b64decode content = Ok data →
  process_excel_file data (default "input.xlsx" (body_filename req_body))
    = Ok r →
  main (Ok req_body) =
    match json_error r with
    | Some e => json_response (ErrorJson e) 500
    | None => json_response (ResultJson r) 200
    end.
Proof.
  intros Hcontent Hne Hdecode Hp.
  unfold main. simpl. rewrite Hcontent.
  destruct content as [|a content]; [done|].
  rewrite Hdecode. simpl. rewrite Hp. simpl.
  by destruct (json_error r).
Qed.

(** X16.  A sheet that is read with a column of durations holding at
    least one value fails in its statistics, whatever else it holds: its
    turn appends the annotated name with the message of [float()]'s
    TypeError and changes neither the statistics mapping nor the retained
    tables.  A sheet whose columns of durations are all empty does not
    fail. *)
Theorem X16_duration_column_fails_the_sheet data st name df :
  pd_read_excel data name = Ok df →
  ((∃ c ts t, (c, Timedelta64 ts) ∈ df ∧ Some t ∈ ts) →
   try_sheet data st name = Raise timedelta_float_error
   ∧ process_sheet data st name =
       append_processed st
         (name ++ (" (ERROR: " ++ (timedelta_float_error ++ ")")))
   ∧ summary (results (process_sheet data st name)) = summary (results st)
   ∧ all_data (process_sheet data st name) = all_data st)
  ∧ ((∀ c ts t, (c, Timedelta64 ts) ∈ df → Some t ∉ ts) →
     ∃ st', try_sheet data st name = Ok st').
Proof.
  intros Hread. split.
  - intros (c & ts & t & Hin & Ht).
    assert (dropna_timedelta ts ≠ []) as Hdata.
    { intros Hnil.
      assert (t ∈ dropna_timedelta ts) as Hel.
      { unfold dropna_timedelta. apply list_elem_of_omap. by exists (Some t). }
      rewrite Hnil in Hel. by apply elem_of_nil in Hel. }
    assert (select_number df ≠ []) as Hsel.
    { assert ((c, Timedelta64 ts) ∈ select_number df) as Hel
        by (by apply select_number_elem_of).
      intros Hnil. rewrite Hnil in Hel. by apply elem_of_nil in Hel. }
    assert (statistics_loop df = Raise timedelta_float_error) as Hloop.
    { destruct (statistics_loop df) as [stats|msg] eqn:Hloop.
      - destruct (statistics_loop_Ok df stats Hloop) as [_ Hts].
        by rewrite (Hts c ts Hin) in Hdata.
      - by destruct (statistics_loop_Raise df msg Hloop) as [-> _]. }
    assert (try_sheet data st name = Raise timedelta_float_error) as Htry.
    { unfold try_sheet. rewrite Hread. simpl.
      destruct (select_number df); [done|]. simpl. by rewrite Hloop. }
    split; [done|].
    rewrite (process_sheet_raise data st st name _ Htry). done.
  - intros Hts. unfold try_sheet. rewrite Hread. simpl.
    destruct (select_number df); simpl; [eauto|].
    rewrite statistics_loop_total; [simpl; eauto|].
    intros c ts Hin. destruct (dropna_timedelta ts) as [|t ts'] eqn:Hdata;
      [done|].
    exfalso. apply (Hts c ts t Hin).
    assert (t ∈ dropna_timedelta ts) as Hel by (rewrite Hdata; by left).
    unfold dropna_timedelta in Hel.
    apply list_elem_of_omap in Hel as (o & Ho & Hid). simpl in Hid.
    by subst.
Qed.

End Robustness.

(** ** The further properties on concrete workbooks *)

Lemma X1_missing_content_is_rejected_witness :
  @main Fixture.sales_libs
    (Ok {| body_filename := Some "sales.xlsx"; body_content := Some "" |})
  = {| body := ErrorJson "No file content provided"; status_code := 400;
       mimetype := "application/json" |}.
Proof.
  apply (X1_missing_content_is_rejected (L := Fixture.sales_libs)
           {| body_filename := Some "sales.xlsx"; body_content := Some "" |}).
  by right.
Defined.

Lemma X2_unreadable_input_is_fatal_witness :
  @process_excel_file Fixture.unreadable_libs [] "input.xlsx"
  = Raise "File is not a zip file"
  ∧ @main Fixture.unreadable_libs
      (Ok {| body_filename := None; body_content := Some "bm90IGEgemlw" |})
    = {| body := ErrorJson "File is not a zip file"; status_code := 500;
         mimetype := "application/json" |}.
Proof.
  destruct (X2_unreadable_input_is_fatal (L := Fixture.unreadable_libs)
              {| body_filename := None; body_content := Some "bm90IGEgemlw" |}
              "bm90IGEgemlw" "File is not a zip file")
    as (_ & _ & Hopen).
  - reflexivity.
  - discriminate.
  - apply (Hopen []); reflexivity.
Defined.

Lemma X4_result_fields_witness :
  ∃ r, @process_excel_file Fixture.mixed_libs [] "in.xlsx" = Ok r
       ∧ filename r = "in.xlsx"
       ∧ charts_created r = false
       ∧ ((output_file r = None ∧ output_filename r = None)
          ∨ (is_Some (output_file r)
             ∧ output_filename r = Some "processed_in.xlsx")).
Proof.
  eexists. split; [run|].
  apply (X4_result_fields (L := Fixture.mixed_libs) [] "in.xlsx"). run.
Defined.

(** [Fixture.shifts]: the sheet whose statistics raise is annotated, the
    sheet after it is listed by its name. *)
Lemma X5_outcome_list_in_workbook_order_witness :
  ∃ r, @process_excel_file Fixture.shifts_libs [] "in.xlsx" = Ok r
       ∧ sheets_processed r
         = omap (@outcome Fixture.shifts_libs []) ["Shifts"; "Rates"]
       ∧ sheets_processed r
         = ["Shifts (ERROR: " ++ Fixture.float_refuses ++ ")"; "Rates"]
       ∧ length (sheets_processed r) ≤ 2.
Proof.
  eexists. split; [run|].
  destruct (X5_outcome_list_in_workbook_order (L := Fixture.shifts_libs)
              [] "in.xlsx" ["Shifts"; "Rates"] _ ltac:(run) ltac:(run))
    as (Hlist & Hlen & _).
  split; [exact Hlist|]. split; [run|exact Hlen].
Defined.

Lemma X6_no_numeric_column_no_report_witness :
  @process_excel_file Fixture.notes_libs [] "in.xlsx"
  = Ok {| filename := "in.xlsx";
          sheets_processed := omap (@outcome Fixture.notes_libs []) ["Notes"];
          summary := [];
          charts_created := false;
          output_file := None;
          output_filename := None |}.
Proof.
  apply (X6_no_numeric_column_no_report (L := Fixture.notes_libs)
           [] "in.xlsx" ["Notes"]).
  - run.
  - intros name df Hin Hread.
    apply elem_of_cons in Hin as [->|Hin]; [|by apply elem_of_nil in Hin].
    vm_compute in Hread. by injection Hread as <-.
Defined.

Lemma X7_summary_values_from_sheet_witness :
  ∃ df, @pd_read_excel Fixture.mixed_libs [] "Blank" = Ok df
        ∧ [] = sheet_statistics df
        ∧ PyDict.get
            (all_data (@analyze_sheets Fixture.mixed_libs [] "in.xlsx"
                         ["Notes"; "Bad"; "Blank"; "Data"])) "Blank"
          = Some df.
Proof.
  refine (X7_summary_values_from_sheet (L := Fixture.mixed_libs)
            [] "in.xlsx" ["Notes"; "Bad"; "Blank"; "Data"] _ "Blank" []
            _ ltac:(run) _).
  - run.
  - run.
Defined.

Lemma X9_sheet_titles_distinct_witness :
  ∃ r wb log,
    @process_excel_file Fixture.mixed_libs [] "in.xlsx" = Ok r
    ∧ @build_workbook Fixture.mixed_libs (summary r)
        (all_data (@analyze_sheets Fixture.mixed_libs [] "in.xlsx"
                     ["Notes"; "Bad"; "Blank"; "Data"])) = Ok (wb, log)
    ∧ map title wb = ["Summary_Statistics"; "Original_Blank"; "Original_Data"]
    ∧ NoDup (map title wb)
    ∧ length wb = S (length (summary r)).
Proof.
  assert (∃ r, @process_excel_file Fixture.mixed_libs [] "in.xlsx" = Ok r)
    as [r Hr].
  { eexists. run. }
  assert (∃ wb log,
            @build_workbook Fixture.mixed_libs (summary r)
              (all_data (@analyze_sheets Fixture.mixed_libs [] "in.xlsx"
                           ["Notes"; "Bad"; "Blank"; "Data"]))
            = Ok (wb, log)) as (wb & log & Hb).
  { vm_compute in Hr. injection Hr as <-. eexists _, _. run. }
  destruct (X9_sheet_titles_distinct (L := Fixture.mixed_libs)
              [] "in.xlsx" ["Notes"; "Bad"; "Blank"; "Data"] r wb log
              ltac:(run) Hr Hb) as (_ & Hnd & Hlen).
  exists r, wb, log. split; [exact Hr|]. split; [exact Hb|].
  split; [|split; [exact Hnd|exact Hlen]].
  vm_compute in Hr. injection Hr as <-.
  vm_compute in Hb. injection Hb as <- _. reflexivity.
Defined.

Lemma X10_report_is_built_witness :
  ∃ wb log,
    @build_workbook Fixture.sales_libs []
      [("Sales", [("Revenue", Numeric [10; 20; 30]%float)])] = Ok (wb, log)
    ∧ length wb = 2
    ∧ length log ≤ 1
    ∧ @create_summary_excel Fixture.sales_libs []
        [("Sales", [("Revenue", Numeric [10; 20; 30]%float)])]
      = @wb_save Fixture.sales_libs wb.
Proof.
  apply (X10_report_is_built (L := Fixture.sales_libs) []
           [("Sales", [("Revenue", Numeric [10; 20; 30]%float)])]).
  intros v. reflexivity.
Defined.

(** The summary sheet for [Fixture.mixed]: the block of "Blank" has no
    column and takes rows 1 to 5, the block of "Data" starts at row 6. *)
Lemma X11_summary_sheet_layout_witness :
  ∃ wb log ss,
    @build_workbook Fixture.mixed_libs
      [("Blank", []);
       ("Data",
        sheet_statistics
          [("Item", Object [Text "a"; Text "b"; Text "c"]);
           ("Price", Numeric [1; nan; 4]%float);
           ("Qty", Numeric [7; 7; 7]%float)])] [] = Ok (wb, log)
    ∧ wb !! 0 = Some ss
    ∧ value_at ss (1, 1) = Some (Text "Sheet: Blank")
    ∧ value_at ss (6, 1) = Some (Text "Sheet: Data")
    ∧ value_at ss (7, 1) = None
    ∧ value_at ss (8, 4) = Some (Text "Std Dev")
    ∧ value_at ss (9, 1) = Some (Text "Price")
    ∧ value_at ss (10, 7) = Some (Integer 3).
Proof.
  assert (∃ wb log,
            @build_workbook Fixture.mixed_libs
              [("Blank", []);
               ("Data",
                sheet_statistics
                  [("Item", Object [Text "a"; Text "b"; Text "c"]);
                   ("Price", Numeric [1; nan; 4]%float);
                   ("Qty", Numeric [7; 7; 7]%float)])] [] = Ok (wb, log))
    as (wb & log & Hb).
  { eexists _, _. run. }
  destruct (X11_summary_sheet_layout (L := Fixture.mixed_libs) _ _ wb log Hb)
    as (ss & Hss & _ & _ & _ & Hblocks).
  destruct (Hblocks 0 "Blank" [] eq_refl) as (Htitle0 & _).
  destruct (Hblocks 1 "Data" _ eq_refl)
    as (Htitle1 & Hblank1 & Hhead1 & Hdata1 & _).
  exists wb, log, ss. split; [exact Hb|]. split; [exact Hss|].
  split; [exact Htitle0|]. split; [exact Htitle1|].
  split; [exact (Hblank1 1)|]. split; [exact (Hhead1 3 "Std Dev" eq_refl)|].
  split.
  - refine (Hdata1 0 _ 0 (Text "Price") _ _); reflexivity.
  - refine (Hdata1 1 _ 6 (Integer 3) _ _); reflexivity.
Defined.

Lemma X12_original_sheet_styles_witness :
  ∃ wb log ws,
    @build_workbook Fixture.sales_libs []
      [("Sales", [("Revenue", Numeric [10; 20; 30]%float)])] = Ok (wb, log)
    ∧ wb !! 1 = Some ws
    ∧ cells ws !! (1, 1)
      = Some {| value := Text "Revenue"; fill := Some "366092";
                font := Some {| font_color := Some "FFFFFF";
                                font_bold := true; font_size := None |} |}
    ∧ cells ws !! (4, 1)
      = Some {| value := Number 30; fill := None; font := None |}.
Proof.
  assert (∃ wb log,
            @build_workbook Fixture.sales_libs []
              [("Sales", [("Revenue", Numeric [10; 20; 30]%float)])]
            = Ok (wb, log)) as (wb & log & Hb).
  { eexists _, _. run. }
  destruct (X12_original_sheet_styles (L := Fixture.sales_libs)
              _ _ wb log 0 "Sales" [("Revenue", Numeric [10; 20; 30]%float)]
              Hb eq_refl) as (ws & Hws & Hhead & Hdata).
  exists wb, log, ws. split; [exact Hb|]. split; [exact Hws|]. split.
  - apply (Hhead 0 "Revenue"). reflexivity.
  - apply (Hdata 2 [Number 30] 0 (Number 30)); reflexivity.
Defined.

(** A sheet with one cell, measured with [Fixture.sales_libs], where every
    text has length 4: the column gets the width 6. *)
Lemma X13_column_widths_witness :
  ∃ w, column_widths
         (@adjust_widths Fixture.sales_libs
            (set_cells (create_sheet "Sheet")
               {[ (1, 1) := {| value := Text "Item"; fill := None;
                               font := None |} ]})) !! 1 = Some w
       ∧ 2 ≤ w ≤ 50
       ∧ (w = 50 ∨ @str_len Fixture.sales_libs (Text "Item") + 2 ≤ w).
Proof.
  apply (X13_column_widths (L := Fixture.sales_libs)
           (set_cells (create_sheet "Sheet")
              {[ (1, 1) := {| value := Text "Item"; fill := None;
                              font := None |} ]})
           1 1 {| value := Text "Item"; fill := None; font := None |}).
  - simpl. apply lookup_singleton_eq.
  - lia.
  - lia.
Defined.

(** A request for [Fixture.sales] when a header cell of the workbook
    holds a date, which [json.dumps] refuses as a key. *)
Lemma X15_unserialisable_result_is_fatal_witness :
  @main Fixture.dated_libs
    (Ok {| body_filename := Some "sales.xlsx";
           body_content := Some "UEsDBA==" |})
  = {| body := ErrorJson
         "keys must be str, int, float, bool or None, not Timestamp";
       status_code := 500; mimetype := "application/json" |}.
Proof.
  assert (∃ r, @process_excel_file Fixture.dated_libs [] "sales.xlsx" = Ok r
               ∧ @json_error Fixture.dated_libs r
                 = Some "keys must be str, int, float, bool or None, not Timestamp")
    as (r & Hr & Hjson).
  { eexists. split; run. }
  rewrite (X15_unserialisable_result_is_fatal (L := Fixture.dated_libs)
             {| body_filename := Some "sales.xlsx";
                body_content := Some "UEsDBA==" |}
             "UEsDBA==" [] r eq_refl ltac:(discriminate) eq_refl Hr).
  rewrite Hjson. reflexivity.
Defined.

(** The sheet "Shifts" of [Fixture.shifts]: the hours are numbers, and
    one break is given as a duration. *)
Lemma X16_duration_column_fails_the_sheet_witness :
  @process_sheet Fixture.shifts_libs [] (initial_state "in.xlsx") "Shifts"
  = append_processed (initial_state "in.xlsx")
      ("Shifts (ERROR: " ++ Fixture.float_refuses ++ ")")
  ∧ summary (results (@process_sheet Fixture.shifts_libs []
                        (initial_state "in.xlsx") "Shifts")) = [].
Proof.
  destruct (X16_duration_column_fails_the_sheet (L := Fixture.shifts_libs)
              [] (initial_state "in.xlsx") "Shifts" _ eq_refl)
    as [Hfails _].
  destruct Hfails as (_ & Hturn & Hsum & _).
  { exists "Break", [Some 1800000000000%Z; None], 1800000000000%Z.
    split; [in_list|by left]. }
  split; [exact Hturn|exact Hsum].
Defined.
